(** * Wrist-sensor stress detection: windowed feature extraction

    A shallow embedding of the two feature-extraction paths of the
    repository,

    - [Model+Api/model CatBoost.py]  (training, [extract_window_features]),
    - [api.py]                       (serving, [extract_features_window]
                                      and the [/predict] endpoint),

    together with the properties of the written specification that can be
    settled on it.

    Numbers.  A sample or a feature value, a Python [float] that is
    finite, is read as a real number ([R]); the two special values the
    code tests for ([nan], [inf]) are kept as constructors of [pyfloat].
    The rounding of sample and feature arithmetic is not modelled: the
    statements proved about feature values are those that rounding does
    not decide, and the test [np.std(arr) == 0] of the training gate is
    the one place where the exact reading and the rounded computation
    part ways (see [Train.std_is_zero] and [Np64.std]).  The label scale
    of the training loop, a float that is truncated to a list index, is
    computed in IEEE 754 double precision ([Float64]).  Python [int]s are
    [Z], array indices produced by the libraries are [nat].  Index
    arithmetic, slicing, dictionaries and label alignment compute;
    comparisons of reals are decided by the order of [R] and are
    evaluated in proofs by rewriting.  The library functions the scripts
    call (numpy, scipy, pandas) are modelled after their documented
    behaviour for the arguments the scripts pass. *)

From Stdlib Require Import Reals Lra Lia ZArith QArith Qround String Bool List Sorted.
From Stdlib Require SpecFloat.
Import ListNotations.

Local Close Scope Q_scope.
Local Open Scope Z_scope.

(* ================================================================== *)
(** * Python and numpy primitives                                      *)
(* ================================================================== *)

Module Py.

(** ** Exceptions *)

Inductive exn : Type :=
| ZeroDivisionError
| ValueError
| IndexError
| KeyError.

Inductive result (A : Type) : Type :=
| Ok (a : A)
| Raise (e : exn).
Arguments Ok {A} a.
Arguments Raise {A} e.

Definition bind {A B : Type} (m : result A) (k : A -> result B) : result B :=
  match m with
  | Ok a => k a
  | Raise e => Raise e
  end.

(** [try: body except: handler] with a bare [except]. *)
Definition try_except {A : Type} (body : result A) (handler : A) : A :=
  match body with
  | Ok a => a
  | Raise _ => handler
  end.

(** ** [range(start, stop, step)] *)

Fixpoint range_up (fuel : nat) (start stop step : Z) : list Z :=
  match fuel with
  | O => []
  | S fuel' =>
      if start <? stop
      then start :: range_up fuel' (start + step) stop step
      else []
  end.

Fixpoint range_down (fuel : nat) (start stop step : Z) : list Z :=
  match fuel with
  | O => []
  | S fuel' =>
      if stop <? start
      then start :: range_down fuel' (start + step) stop step
      else []
  end.

(** The fuel [|stop - start|] is enough because [|step| >= 1]. *)
Definition range (start stop step : Z) : result (list Z) :=
  if step =? 0 then Raise ValueError
  else if 0 <? step
       then Ok (range_up (Z.to_nat (stop - start)) start stop step)
       else Ok (range_down (Z.to_nat (start - stop)) start stop step).

(** ** Sequence slicing [a[i:j]] and indexing [a[i]] *)

Definition clamp_index (len i : Z) : Z :=
  let i' := if i <? 0 then i + len else i in
  Z.max 0 (Z.min len i').

Definition slice {A : Type} (a : list A) (i j : Z) : list A :=
  let len := Z.of_nat (length a) in
  let lo := clamp_index len i in
  let hi := clamp_index len j in
  firstn (Z.to_nat (hi - lo)) (skipn (Z.to_nat lo) a).

Definition index {A : Type} (a : list A) (i : Z) : result A :=
  let len := Z.of_nat (length a) in
  let i' := if i <? 0 then i + len else i in
  if (i' <? 0) || (len <=? i') then Raise IndexError
  else match nth_error a (Z.to_nat i') with
       | Some x => Ok x
       | None => Raise IndexError
       end.

(** ** Dictionaries with insertion order (rows are turned into table
    columns in the order in which their keys were first set) *)

Definition dict (V : Type) : Type := list (string * V).

Fixpoint get {V : Type} (d : dict V) (k : string) : option V :=
  match d with
  | [] => None
  | (k', v) :: d' => if String.eqb k k' then Some v else get d' k
  end.

Definition contains {V : Type} (d : dict V) (k : string) : bool :=
  match get d k with Some _ => true | None => false end.

Fixpoint set {V : Type} (d : dict V) (k : string) (v : V) : dict V :=
  match d with
  | [] => [(k, v)]
  | (k', v') :: d' =>
      if String.eqb k k' then (k, v) :: d' else (k', v') :: set d' k v
  end.

(** [d.update(other)] *)
Definition update {V : Type} (d other : dict V) : dict V :=
  fold_left (fun acc kv => set acc (fst kv) (snd kv)) other d.

Definition keys {V : Type} (d : dict V) : list string := map fst d.

(** [d[k]] *)
Definition getitem {V : Type} (d : dict V) (k : string) : result V :=
  match get d k with
  | Some v => Ok v
  | None => Raise KeyError
  end.

End Py.

Import Py.

(* ================================================================== *)
(** * Floating-point values and numpy                                  *)
(* ================================================================== *)

Module Np.

Local Open Scope R_scope.

(** A Python [float]: [nan], [+inf]/[-inf], or a finite value. *)
Inductive pyfloat : Type :=
| NaN
| Inf (negative : bool)
| Fin (r : R).

Definition isnan (x : pyfloat) : bool :=
  match x with NaN => true | _ => false end.

Definition isinf (x : pyfloat) : bool :=
  match x with Inf _ => true | _ => false end.

Definition isfinite (x : pyfloat) : bool :=
  match x with Fin _ => true | _ => false end.

(** The finite values of an array (used once the array is known to hold
    neither [nan] nor [inf]). *)
Definition finite_part (a : list pyfloat) : list R :=
  flat_map (fun x => match x with Fin r => [r] | _ => [] end) a.

Definition of_reals (a : list R) : list pyfloat := map Fin a.

Definition of_int (z : Z) : pyfloat := Fin (IZR z).
Definition of_nat (n : nat) : pyfloat := Fin (INR n).

(** Comparisons of reals as booleans. *)
Definition Rltb (x y : R) : bool := if Rlt_dec x y then true else false.
Definition Rleb (x y : R) : bool := if Rle_dec x y then true else false.
Definition Reqb (x y : R) : bool := if Req_dec_T x y then true else false.

(** Comparisons against a [float] that may be [nan] (every comparison with
    [nan] is false). *)
Definition gt (x : pyfloat) (y : R) : bool :=
  match x with
  | NaN => false
  | Inf negative => negb negative
  | Fin r => Rltb y r
  end.

Definition lt (x : pyfloat) (y : R) : bool :=
  match x with
  | NaN => false
  | Inf negative => negative
  | Fin r => Rltb r y
  end.

(** Arithmetic that can meet [nan] and [inf]: [x ** 2], [x + y],
    [sqrt(x)], [x / y].  Finite operands are exact reals: a square or a
    sum too large for a double, which numpy turns into [inf], stays
    finite here. *)
Definition square (x : pyfloat) : pyfloat :=
  match x with
  | NaN => NaN
  | Inf _ => Inf false
  | Fin r => Fin (r * r)
  end.

Definition add (x y : pyfloat) : pyfloat :=
  match x, y with
  | NaN, _ | _, NaN => NaN
  | Inf s, Inf t => if Bool.eqb s t then Inf s else NaN
  | Inf s, Fin _ | Fin _, Inf s => Inf s
  | Fin r, Fin r' => Fin (r + r')
  end.

Definition fsqrt (x : pyfloat) : pyfloat :=
  match x with
  | NaN => NaN
  | Inf negative => if negative then NaN else Inf false
  | Fin r => if Rltb r 0 then NaN else Fin (sqrt r)
  end.

(** Division of finite [float64] scalars: a zero divisor gives [inf] or
    [nan], not an exception. *)
Definition div (a b : R) : pyfloat :=
  if Reqb b 0
  then (if Reqb a 0 then NaN else Inf (Rltb a 0))
  else Fin (a / b).

(** ** Reductions over finite arrays *)

Definition sum (a : list R) : R := fold_right Rplus 0 a.

Definition len (a : list R) : R := INR (length a).

Definition rmean (a : list R) : R := sum a / len a.

(** [np.mean]: [nan] on an empty array. *)
Definition mean (a : list R) : pyfloat :=
  match a with
  | [] => NaN
  | _ => Fin (rmean a)
  end.

(** Sum of the [p]-th powers of the deviations from the mean. *)
Definition dev_pow_sum (p : nat) (a : list R) : R :=
  sum (map (fun x => (x - rmean a) ^ p) a).

(** [np.var] with [ddof] degrees of freedom removed, for [ddof < len a]. *)
Definition rvar (ddof : nat) (a : list R) : R :=
  dev_pow_sum 2 a / INR (length a - ddof).

(** [np.std] (default [ddof = 0]): [nan] on an empty array. *)
Definition std (a : list R) : pyfloat :=
  match a with
  | [] => NaN
  | _ => Fin (sqrt (rvar 0 a))
  end.

Fixpoint rmin (x : R) (a : list R) : R :=
  match a with
  | [] => x
  | y :: a' => rmin (Rmin x y) a'
  end.

Fixpoint rmax (x : R) (a : list R) : R :=
  match a with
  | [] => x
  | y :: a' => rmax (Rmax x y) a'
  end.

(** [np.min], [np.max]: an empty array raises [ValueError]. *)
Definition min (a : list R) : result R :=
  match a with
  | [] => Raise ValueError
  | x :: a' => Ok (rmin x a')
  end.

Definition max (a : list R) : result R :=
  match a with
  | [] => Raise ValueError
  | x :: a' => Ok (rmax x a')
  end.

(** Sorting (for the median). *)
Fixpoint insert_sorted (x : R) (a : list R) : list R :=
  match a with
  | [] => [x]
  | y :: a' => if Rleb x y then x :: a else y :: insert_sorted x a'
  end.

Definition sort (a : list R) : list R := fold_right insert_sorted [] a.

(** [np.median]: [nan] on an empty array, the middle element of the
    sorted array, or the mean of the two middle elements. *)
Definition rmedian (a : list R) : R :=
  let s := sort a in
  let n := length a in
  if Nat.even n
  then (nth (n / 2 - 1) s 0 + nth (n / 2) s 0) / 2
  else nth (n / 2) s 0.

Definition median (a : list R) : pyfloat :=
  match a with
  | [] => NaN
  | _ => Fin (rmedian a)
  end.

(** [np.diff] *)
Fixpoint diff (a : list R) : list R :=
  match a with
  | x :: ((y :: _) as a') => (y - x) :: diff a'
  | _ => []
  end.

(** [np.diff] on an integer array *)
Fixpoint diffz (a : list Z) : list Z :=
  match a with
  | x :: ((y :: _) as a') => (y - x)%Z :: diffz a'
  | _ => []
  end.

(** [np.cumsum] *)
Fixpoint cumsum_from (acc : R) (a : list R) : list R :=
  match a with
  | [] => []
  | x :: a' => (acc + x) :: cumsum_from (acc + x) a'
  end.

Definition cumsum (a : list R) : list R := cumsum_from 0 a.

(** [np.linspace(start, stop, num)] *)
Definition linspace (start stop : R) (num : nat) : list R :=
  match num with
  | O => []
  | S O => [start]
  | S div =>
      map (fun i => if Nat.eqb i div then stop
                    else start + INR i * ((stop - start) / INR div))
          (seq 0 num)
  end.

(** [np.interp(x, xp, fp)] at one point, for increasing [xp]: constant
    outside [[xp[0], xp[-1]]], linear between neighbours inside. *)
Fixpoint interp_between (x x0 y0 : R) (xp fp : list R) : R :=
  match xp, fp with
  | x1 :: xp', y1 :: fp' =>
      if Rltb x x1
      then y0 + (x - x0) * ((y1 - y0) / (x1 - x0))
      else interp_between x x1 y1 xp' fp'
  | _, _ => y0
  end.

Definition interp1 (x : R) (xp fp : list R) : result R :=
  match xp, fp with
  | x0 :: xp', y0 :: fp' =>
      if Rleb x x0 then Ok y0 else Ok (interp_between x x0 y0 xp' fp')
  | _, _ => Raise ValueError
  end.

Fixpoint interp (xs xp fp : list R) : result (list R) :=
  match xs with
  | [] => if Nat.eqb (length xp) 0 || negb (Nat.eqb (length xp) (length fp))
          then Raise ValueError else Ok []
  | x :: xs' =>
      bind (interp1 x xp fp) (fun y =>
      bind (interp xs' xp fp) (fun ys => Ok (y :: ys)))
  end.

(** Element-wise binary operations with broadcasting of a one-element
    operand; other length mismatches raise [ValueError]. *)
Definition broadcast2 {A B C : Type} (f : A -> B -> C)
           (a : list A) (b : list B) : result (list C) :=
  if Nat.eqb (length a) (length b) then Ok (map (fun p => f (fst p) (snd p)) (combine a b))
  else match a, b with
       | [x], _ => Ok (map (f x) b)
       | _, [y] => Ok (map (fun x => f x y) a)
       | _, _ => Raise ValueError
       end.

(** [np.trapezoid(y, x)] *)
Fixpoint trapezoid (y x : list R) : R :=
  match y, x with
  | y0 :: ((y1 :: _) as y'), x0 :: ((x1 :: _) as x') =>
      (x1 - x0) * (y0 + y1) / 2 + trapezoid y' x'
  | _, _ => 0
  end.

End Np.

Import Np.

(* ================================================================== *)
(** * scipy: peaks, spectral density, moments                          *)
(* ================================================================== *)

Module Scipy.

Local Open Scope R_scope.

(** ** [scipy.signal.find_peaks(x, distance=d)] *)

(** [while i_ahead < i_max and x[i_ahead] == x[i]: i_ahead += 1] *)
Fixpoint plateau_end (fuel : nat) (x : list R) (i_max i_ahead : nat) (xi : R)
  : nat :=
  match fuel with
  | O => i_ahead
  | S fuel' =>
      if (i_ahead <? i_max)%nat && Reqb (nth i_ahead x 0) xi
      then plateau_end fuel' x i_max (S i_ahead) xi
      else i_ahead
  end.

(** The scan for local maxima: a sample (or the middle of a flat run)
    strictly above both neighbours; the first and last samples never
    count. *)
Fixpoint local_maxima_from (fuel : nat) (x : list R) (i_max i : nat)
  : list nat :=
  match fuel with
  | O => []
  | S fuel' =>
      if (i <? i_max)%nat then
        if Rltb (nth (i - 1) x 0) (nth i x 0) then
          let i_ahead := plateau_end fuel' x i_max (i + 1) (nth i x 0) in
          if Rltb (nth i_ahead x 0) (nth i x 0)
          then ((i + (i_ahead - 1)) / 2)%nat
                 :: local_maxima_from fuel' x i_max (i_ahead + 1)
          else local_maxima_from fuel' x i_max (i + 1)
        else local_maxima_from fuel' x i_max (i + 1)
      else []
  end.

Definition local_maxima (x : list R) : list nat :=
  local_maxima_from (length x) x (length x - 1) 1.

(** Positions of [a] in ascending order of value.  numpy's default sort
    is not stable, and the order it gives to equal values depends on the
    build; equal values are kept here in their order of appearance.  No
    statement below depends on that order: the peaks enter the theorems
    as the result of [find_peaks], or are computed on signals whose
    peaks have different heights. *)
Fixpoint insert_by (key : nat -> R) (j : nat) (order : list nat) : list nat :=
  match order with
  | [] => [j]
  | k :: order' =>
      if Rltb (key j) (key k) then j :: order
      else k :: insert_by key j order'
  end.

Definition argsort (a : list R) : list nat :=
  fold_left (fun order j => insert_by (fun i => nth i a 0) j order)
            (seq 0 (length a)) [].

(** One step of the distance rule: a peak that is still kept removes
    every other peak closer than [distance] to it. *)
Definition suppress_around (peaks : list nat) (distance : Z)
           (keep : list bool) (j : nat) : list bool :=
  if nth j keep false then
    map (fun k =>
           nth k keep false
           && (Nat.eqb k j
               || (distance <=? Z.abs (Z.of_nat (nth k peaks O)
                                       - Z.of_nat (nth j peaks O)))%Z))
        (seq 0 (length peaks))
  else keep.

(** Peaks are visited from the highest to the lowest. *)
Definition select_by_peak_distance (peaks : list nat) (priority : list R)
           (distance : Z) : list bool :=
  fold_left (suppress_around peaks distance)
            (rev (argsort priority))
            (repeat true (length peaks)).

Definition take {A : Type} (a : list A) (keep : list bool) : list A :=
  flat_map (fun p : A * bool => if snd p then [fst p] else []) (combine a keep).

Definition find_peaks (x : list R) (distance : Z) : result (list nat) :=
  if (distance <? 1)%Z then Raise ValueError
  else
    let peaks := local_maxima x in
    let keep :=
      select_by_peak_distance peaks (map (fun i => nth i x 0) peaks) distance in
    Ok (take peaks keep).

(** ** [scipy.signal.welch(x, fs, nperseg=len(x))]

    With the segment as long as the input there is one segment: the
    mean is removed, a periodic Hann taper applied, and the one-sided
    periodogram scaled to a density. *)

Definition hann (n : nat) : list R :=
  match n with
  | O => []
  | S O => [1]
  | _ => map (fun j => 1 / 2 - 1 / 2 * cos (2 * PI * INR j / INR n)) (seq 0 n)
  end.

Definition detrend (x : list R) : list R :=
  map (fun v => v - rmean x) x.

Definition dft_re (y : list R) (k : nat) : R :=
  sum (map (fun p => snd p * cos (2 * PI * INR (fst p) * INR k / INR (length y)))
           (combine (seq 0 (length y)) y)).

Definition dft_im (y : list R) (k : nat) : R :=
  - sum (map (fun p => snd p * sin (2 * PI * INR (fst p) * INR k / INR (length y)))
             (combine (seq 0 (length y)) y)).

(** Bins other than the zero frequency and (for even length) the
    Nyquist frequency are doubled. *)
Definition onesided_factor (n k : nat) : R :=
  if Nat.eqb k 0 then 1
  else if Nat.even n && Nat.eqb k (n / 2) then 1
  else 2.

Definition rfftfreq (n : nat) (fs : R) : list R :=
  map (fun k => INR k * fs / INR n) (seq 0 (n / 2 + 1)).

Definition welch (x : list R) (fs : R) : list R * list R :=
  match x with
  | [] => ([], [])
  | _ =>
      let n := length x in
      let w := hann n in
      let y := map (fun p => fst p * snd p) (combine (detrend x) w) in
      let scale := 1 / (fs * sum (map (fun v => v * v) w)) in
      (rfftfreq n fs,
       map (fun k =>
              onesided_factor n k
              * ((dft_re y k * dft_re y k + dft_im y k * dft_im y k) * scale))
           (seq 0 (n / 2 + 1)))
  end.

(** ** [scipy.stats.skew], [scipy.stats.kurtosis] (defaults:
    [bias=True], [fisher=True]) *)

(** Central moment of order [p]. *)
Definition moment (p : nat) (a : list R) : R :=
  dev_pow_sum p a / len a.

Definition skew (a : list R) : pyfloat :=
  match a with
  | [] => NaN
  | _ =>
      let m2 := moment 2 a in
      let m3 := moment 3 a in
      if Reqb m2 0 then NaN else Fin (m3 / (m2 * sqrt m2))
  end.

Definition kurtosis (a : list R) : pyfloat :=
  match a with
  | [] => NaN
  | _ =>
      let m2 := moment 2 a in
      let m4 := moment 4 a in
      if Reqb m2 0 then NaN else Fin (m4 / (m2 * m2) - 3)
  end.

End Scipy.

(* ================================================================== *)
(** * pandas: Series reductions                                        *)
(* ================================================================== *)

Module Pandas.

Local Open Scope R_scope.

(** The reductions of a [Series] of finite floats. *)

Definition mean (a : list R) : pyfloat := Np.mean a.

(** [Series.std()]: default [ddof = 1]; fewer than two values give [nan]. *)
Definition std (a : list R) : pyfloat :=
  if (length a <=? 1)%nat then NaN else Fin (sqrt (rvar 1 a)).

Definition min (a : list R) : pyfloat :=
  match a with
  | [] => NaN
  | x :: a' => Fin (rmin x a')
  end.

Definition max (a : list R) : pyfloat :=
  match a with
  | [] => NaN
  | x :: a' => Fin (rmax x a')
  end.

Definition median (a : list R) : pyfloat := Np.median a.

(** Before it divides, pandas replaces a moment that is small in
    absolute value by 0 ([_zero_out_fperr]), so that a slice that is
    constant up to rounding counts as constant.  pandas releases differ
    in the threshold and in what [skew] and [kurt] return for such a
    slice (0 or [nan]); the threshold [1e-14] and the value [nan] are
    taken here, and nothing that is proved about the code depends on
    either. *)
Definition zero_out_fperr (x : R) : R :=
  if Rltb (Rabs x) 1e-14 then 0 else x.

(** [Series.skew()]: fewer than three values give [nan]. *)
Definition skew (a : list R) : pyfloat :=
  let count := len a in
  let m2 := zero_out_fperr (dev_pow_sum 2 a) in
  let m3 := zero_out_fperr (dev_pow_sum 3 a) in
  if (length a <? 3)%nat then NaN
  else if Reqb m2 0 then NaN
  else Fin (count * sqrt (count - 1) / (count - 2) * (m3 / (m2 * sqrt m2))).

(** [Series.kurt()]: fewer than four values give [nan]. *)
Definition kurt (a : list R) : pyfloat :=
  let count := len a in
  let m2 := dev_pow_sum 2 a in
  let m4 := dev_pow_sum 4 a in
  let adj := 3 * (count - 1) ^ 2 / ((count - 2) * (count - 3)) in
  let numerator :=
    zero_out_fperr (count * (count + 1) * (count - 1) * m4) in
  let denominator :=
    zero_out_fperr ((count - 2) * (count - 3) * m2 ^ 2) in
  if (length a <? 4)%nat then NaN
  else if Reqb denominator 0 then NaN
  else Fin (numerator / denominator - adj).

(** [Series.mode().iloc[0]] on integers: the smallest of the most
    frequent values. *)
Definition count_of (v : Z) (a : list Z) : nat :=
  length (filter (Z.eqb v) a).

Fixpoint mode_from (best : Z) (all rest : list Z) : Z :=
  match rest with
  | [] => best
  | v :: rest' =>
      let cv := count_of v all in
      let cb := count_of best all in
      if (cb <? cv)%nat || ((cb =? cv)%nat && (v <? best)%Z)
      then mode_from v all rest'
      else mode_from best all rest'
  end.

Definition mode (a : list Z) : result Z :=
  match a with
  | [] => Raise IndexError
  | v :: rest => Ok (mode_from v a rest)
  end.

End Pandas.

(* ================================================================== *)
(** * Helpers shared by the two scripts                                *)
(* ================================================================== *)

(** [int(q)] for a product that is exact in double precision or far from
    an integer ([sr * 0.5], [64 * 0.3], [6 * 32]): truncation towards
    zero. *)
Definition py_int (q : Q) : Z := Z.quot (Qnum q) (Zpos (Qden q)).

(** [a / b] on Python floats: a zero divisor raises. *)
Definition py_truediv (a b : R) : result R :=
  if Reqb b 0 then Raise ZeroDivisionError else Ok (a / b)%R.

(** A feature row: feature name to value, in insertion order. *)
Definition row : Type := dict pyfloat.

(** [{f"{prefix}{k}": v for k, v in d.items()}] *)
Definition prefixed (prefix : string) (d : dict pyfloat) : dict pyfloat :=
  map (fun kv => (String.append prefix (fst kv), snd kv)) d.

(** [arr[peaks]] *)
Definition at_indices (arr : list R) (peaks : list nat) : list R :=
  map (fun i => nth i arr 0%R) peaks.

(** [np.sum(np.abs(rr_diff) > 0.05)] *)
Definition count_above (threshold : R) (a : list R) : nat :=
  length (filter (fun d => Rltb threshold (Rabs d)) a).

(* ================================================================== *)
(** * Double precision                                                 *)
(* ================================================================== *)

(** Python's [float] is IEEE 754 binary64.  The label scale of the
    training loop, a quotient of two lengths that is multiplied by a
    window bound and truncated to a list index, is computed on binary64
    values, every operation rounded to nearest, ties to even, as the
    hardware does it. *)
Module Float64.

Definition prec : Z := 53.
Definition emax : Z := 1024.

Definition float64 : Type := SpecFloat.spec_float.

(** [float(z)] *)
Definition of_int (z : Z) : float64 :=
  SpecFloat.binary_normalize prec emax z 0 false.

Definition add : float64 -> float64 -> float64 := SpecFloat.SFadd prec emax.
Definition sub : float64 -> float64 -> float64 := SpecFloat.SFsub prec emax.
Definition mul : float64 -> float64 -> float64 := SpecFloat.SFmul prec emax.
Definition div : float64 -> float64 -> float64 := SpecFloat.SFdiv prec emax.
Definition sqrt : float64 -> float64 := SpecFloat.SFsqrt prec emax.
Definition eqb : float64 -> float64 -> bool := SpecFloat.SFeqb.

(** [a / b] on two [int]s with [b != 0].  CPython rounds the exact
    quotient once; converting first is the same for operands below
    [2^53], which lengths of sequences are. *)
Definition true_divide (a b : Z) : float64 := div (of_int a) (of_int b).


(** [int(x)]: truncation towards zero.  On [nan] and [inf], where
    [int] raises, the value is 0: in the scripts the operand is a product
    of sequence lengths and window bounds, which is finite. *)
Definition to_int (x : float64) : Z :=
  match x with
  | SpecFloat.S754_finite s m e =>
      let magnitude := Z.shiftl (Zpos m) e in
      if s then - magnitude else magnitude
  | _ => 0
  end.

End Float64.

(** ** [np.std] in double precision *)

(** [np.std(arr)] as numpy computes it on a one-dimensional array of
    doubles: the mean is the sum divided by the count, the variance is
    the sum of the squared deviations divided by the count, and each sum
    is numpy's pairwise summation (fewer than 8 values are added from
    left to right; up to 128 values are added into eight running sums
    that are then combined in pairs, the remainder added one by one;
    longer arrays are cut in two at a multiple of 8). *)
Module Np64.

Import Float64.

Definition isnan (x : float64) : bool :=
  match x with SpecFloat.S754_nan => true | _ => false end.

Definition isinf (x : float64) : bool :=
  match x with SpecFloat.S754_infinity _ => true | _ => false end.

(** The reduction starts from [-0.0]. *)
Definition neg_zero : float64 := SpecFloat.S754_zero true.

Fixpoint add_lanes (r a : list float64) : list float64 :=
  match r, a with
  | x :: r', y :: a' => add x y :: add_lanes r' a'
  | _, _ => r
  end.

(** [blocks] further groups of eight values added onto the eight running
    sums [r]; returns the sums and the values not yet used. *)
Fixpoint accumulate (blocks : nat) (r a : list float64)
  : list float64 * list float64 :=
  match blocks with
  | O => (r, a)
  | S blocks' => accumulate blocks' (add_lanes r (firstn 8 a)) (skipn 8 a)
  end.

Definition sum_block (a : list float64) : float64 :=
  let '(r, rest) :=
    accumulate (length a / 8 - 1) (firstn 8 a) (skipn 8 a) in
  let res :=
    match r with
    | [r0; r1; r2; r3; r4; r5; r6; r7] =>
        add (add (add r0 r1) (add r2 r3)) (add (add r4 r5) (add r6 r7))
    | _ => neg_zero
    end in
  fold_left add rest res.

Fixpoint pairwise_sum (fuel : nat) (a : list float64) : float64 :=
  let n := length a in
  if (n <? 8)%nat then fold_left add a neg_zero
  else if (n <=? 128)%nat then sum_block a
  else
    match fuel with
    | O => sum_block a
    | S fuel' =>
        let n2 := (n / 2 - (n / 2) mod 8)%nat in
        add (pairwise_sum fuel' (firstn n2 a))
            (pairwise_sum fuel' (skipn n2 a))
    end.

(** [np.add.reduce(a)]; the fuel [len(a)] is enough because every cut
    leaves two shorter parts. *)
Definition sum (a : list float64) : float64 :=
  add neg_zero (pairwise_sum (length a) a).

Definition std (a : list float64) : float64 :=
  let count := of_int (Z.of_nat (length a)) in
  let arrmean := div (sum a) count in
  let x := map (fun v => sub v arrmean) a in
  let x := map (fun d => mul d d) x in
  sqrt (div (sum x) count).

End Np64.

(* ================================================================== *)
(** * Training script: [Model+Api/model CatBoost.py]                   *)
(* ================================================================== *)

Module Train.

Local Open Scope R_scope.

Definition WINDOW_SECONDS : Z := 6.
Definition WINDOW_STEP_SECONDS : Z := 3.
Definition DEFAULT_WRIST_SR : Z := 32.
Definition DEFAULT_BVP_SR : Z := 64.
Definition ALLOWED_LABELS : list Z := [0; 1]%Z.

(** The body of the [for] loop either falls through with a value, skips
    the window ([continue]), or raises. *)
Inductive flow (A : Type) : Type :=
| Next (a : A)
| Continue
| Throw (e : exn).
Arguments Next {A} a.
Arguments Continue {A}.
Arguments Throw {A} e.

Definition flow_bind {A B : Type} (m : flow A) (k : A -> flow B) : flow B :=
  match m with
  | Next a => k a
  | Continue => Continue
  | Throw e => Throw e
  end.

Definition lift {A : Type} (m : result A) : flow A :=
  match m with
  | Ok a => Next a
  | Raise e => Throw e
  end.

Notation "x <- m ;; k" := (flow_bind m (fun x => k))
  (at level 61, m at next level, right associativity).

Definition bandpower (arr : list R) (fs low high : R) : R :=
  let (freqs, psd) := Scipy.welch arr fs in
  let mask := map (fun f => Rleb low f && Rleb f high) freqs in
  if negb (existsb (fun b => b) mask) then 0
  else trapezoid (Scipy.take psd mask) (Scipy.take freqs mask).

Definition stats_dict (arr : list R) : dict pyfloat :=
  [ ("mean"%string, Pandas.mean arr);
    ("std"%string, Pandas.std arr);
    ("min"%string, Pandas.min arr);
    ("max"%string, Pandas.max arr);
    ("median"%string, Pandas.median arr);
    ("skew"%string, Pandas.skew arr);
    ("kurt"%string, Pandas.kurt arr) ].

(** [np.std(arr) == 0]; it is evaluated only when [arr] holds neither
    [nan] nor [inf].  This is the exact reading of the test: the deviation
    of the samples as real numbers is 0, that is, the samples are all
    equal.  The script compares the rounded result: where the mean of
    equal samples is not exact it finds a small positive deviation and
    the slice passes ([valid_double], [flat_slice_passes_gate]); where
    the squared deviations underflow it finds 0 for samples that differ.
    The statements below that go through the gate either do not depend
    on this test or say so. *)
Definition std_is_zero (arr : list pyfloat) : bool :=
  match Np.std (finite_part arr) with
  | Fin s => Reqb s 0
  | _ => false
  end.

Definition valid (arr : list pyfloat) : bool :=
  negb (existsb isnan arr || existsb isinf arr || std_is_zero arr).

(** [valid] on the doubles themselves, [np.std] rounded as numpy rounds
    it. *)
Definition valid_double (arr : list Float64.float64) : bool :=
  negb (existsb Np64.isnan arr || existsb Np64.isinf arr
        || Float64.eqb (Np64.std arr) (Float64.of_int 0)).

(** ---------------- EDA FEATURES ---------------- *)
Definition eda_features (signals : dict (list pyfloat)) (sr start end_ : Z)
           (row0 : row) : flow row :=
  match get signals "EDA" with
  | None => Next row0
  | Some channel =>
      let eda_raw := slice channel start end_ in
      if negb (valid eda_raw) then Continue
      else
        let eda := finite_part eda_raw in
        let row1 := update row0 (prefixed "EDA_" (stats_dict eda)) in
        let eda_diff := diff eda in
        let row2 := set row1 "EDA_diff_mean" (Np.mean eda_diff) in
        let row3 := set row2 "EDA_diff_std" (Np.std eda_diff) in
        peaks <- lift (Scipy.find_peaks eda (py_int (inject_Z sr * (5 # 10)))) ;;
        let row4 := set row3 "EDA_peak_count" (of_nat (length peaks)) in
        let row5 := set row4 "EDA_peak_mean_amp"
                        (if (0 <? length peaks)%nat
                         then Np.mean (at_indices eda peaks) else Fin 0) in
        let lf := bandpower eda (IZR sr) 0.01 0.1 in
        let hf := bandpower eda (IZR sr) 0.1 0.25 in
        let row6 := set row5 "EDA_LF" (Fin lf) in
        let row7 := set row6 "EDA_HF" (Fin hf) in
        lfhf <- lift (if Rltb 0 hf then py_truediv lf hf else Ok 0) ;;
        Next (set row7 "EDA_LFHF" (Fin lfhf))
  end.

(** ---------------- TEMP FEATURES ---------------- *)
Definition temp_features (signals : dict (list pyfloat)) (start end_ : Z)
           (row0 : row) : flow row :=
  match get signals "TEMP" with
  | None => Next row0
  | Some channel =>
      let temp_raw := slice channel start end_ in
      if negb (valid temp_raw) then Continue
      else
        let temp := finite_part temp_raw in
        let row1 := update row0 (prefixed "TEMP_" (stats_dict temp)) in
        last <- lift (index temp (-1)) ;;
        first <- lift (index temp 0) ;;
        Next (set row1 "TEMP_slope" (Np.div (last - first) (len temp)))
  end.

(** ---------------- ACC FEATURES ---------------- *)
Definition acc_features (signals : dict (list pyfloat)) (start end_ : Z)
           (row0 : row) : flow row :=
  match get signals "ACC_x", get signals "ACC_y", get signals "ACC_z" with
  | Some cx, Some cy, Some cz =>
      let ax := slice cx start end_ in
      let ay := slice cy start end_ in
      let az := slice cz start end_ in
      xy <- lift (broadcast2 Np.add (map square ax) (map square ay)) ;;
      xyz <- lift (broadcast2 Np.add xy (map square az)) ;;
      let mag_raw := map fsqrt xyz in
      if negb (valid mag_raw) then Continue
      else
        let mag := finite_part mag_raw in
        let row1 := update row0 (prefixed "ACC_mag_" (stats_dict mag)) in
        Next (set row1 "ACC_energy"
                  (Np.div (sum (map (fun m => m * m) mag)) (len mag)))
  | _, _, _ => Next row0
  end.

(** Frequency-domain HRV: the body of the [try]. *)
Definition hrv_bands (ibi : list R) : result (R * R * R) :=
  let times := cumsum ibi in
  bind (index times 0) (fun t_first =>
  bind (index times (-1)) (fun t_last =>
  let interp_times := linspace t_first t_last (length times) in
  bind (interp interp_times times ibi) (fun ibi_interp =>
  let LF := bandpower ibi_interp 4 0.04 0.15 in
  let HF := bandpower ibi_interp 4 0.15 0.4 in
  bind (if Rltb 0 HF then py_truediv LF HF else Ok 0) (fun LFHF =>
  Ok (LF, HF, LFHF))))).

(** The seven HRV values [(hr, sdnn, rmssd, pnn50, LF, HF, LFHF)] from
    the detected pulse peaks. *)
Definition pnn50 (rr_diff : list R) : pyfloat :=
  let nn50 := count_above 0.05 rr_diff in
  if (0 <? length rr_diff)%nat then Np.div (INR nn50) (len rr_diff) else Fin 0.

Definition hrv (peaks : list nat) : list pyfloat :=
  if (1 <? length peaks)%nat then
    let ibi := map (fun d => IZR d / IZR DEFAULT_BVP_SR)
                   (diffz (map Z.of_nat peaks)) in
    let rr_diff := diff ibi in
    let hr := Np.div 60 (rmean ibi) in
    let sdnn := Np.std ibi in
    let rmssd := if (0 <? length rr_diff)%nat
                 then Fin (sqrt (rmean (map (fun d => d * d) rr_diff)))
                 else Fin 0 in
    let '(LF, HF, LFHF) := try_except (hrv_bands ibi) (0, 0, 0) in
    [hr; sdnn; rmssd; pnn50 rr_diff; Fin LF; Fin HF; Fin LFHF]
  else
    [Fin 0; Fin 0; Fin 0; Fin 0; Fin 0; Fin 0; Fin 0].

Definition HRV_NAMES : list string :=
  [ "HR_mean"; "HRV_SDNN"; "HRV_RMSSD"; "HRV_pNN50";
    "HRV_LF"; "HRV_HF"; "HRV_LFHF" ]%string.

(** ---------------- BVP (PPG) + HRV FEATURES ---------------- *)
Definition bvp_features (signals : dict (list pyfloat)) (start end_ : Z)
           (row0 : row) : flow row :=
  match get signals "BVP" with
  | None => Next row0
  | Some channel =>
      let bvp_start := (start * 2)%Z in
      let bvp_end := (end_ * 2)%Z in
      let bvp_raw := slice channel bvp_start bvp_end in
      if negb (valid bvp_raw) then Continue
      else
        let bvp := finite_part bvp_raw in
        let row1 := update row0 (prefixed "BVP_" (stats_dict bvp)) in
        peaks <- lift (Scipy.find_peaks bvp
                         (py_int (inject_Z DEFAULT_BVP_SR * (3 # 10)))) ;;
        Next (update row1 (combine HRV_NAMES (hrv peaks)))
  end.

(** ---------------- LABEL ALIGNMENT ---------------- *)
Definition label_slice (chest_labels : list Z) (scale : Float64.float64)
           (start end_ : Z) : list Z :=
  let chest_len := Z.of_nat (length chest_labels) in
  let c_start := Float64.to_int (Float64.mul (Float64.of_int start) scale) in
  let c_end :=
    Z.min (Float64.to_int (Float64.mul (Float64.of_int end_) scale))
          chest_len in
  slice chest_labels c_start c_end.

Definition align_label (chest_labels : list Z) (scale : Float64.float64)
           (start end_ : Z)
           (row0 : row) : flow row :=
  let lbl := label_slice chest_labels scale start end_ in
  if (0 <? length lbl)%nat then
    m <- lift (Pandas.mode lbl) ;;
    if existsb (Z.eqb m) ALLOWED_LABELS
    then Next (set row0 "label" (of_int m))
    else Next row0
  else Next row0.

(** One iteration of the loop over windows: the four modality blocks,
    then the label. *)
Definition modality_features (signals : dict (list pyfloat))
           (sr start end_ : Z) : flow row :=
  row1 <- eda_features signals sr start end_ [] ;;
  row2 <- temp_features signals start end_ row1 ;;
  row3 <- acc_features signals start end_ row2 ;;
  bvp_features signals start end_ row3.

Definition window_features (signals : dict (list pyfloat))
           (chest_labels : list Z) (scale : Float64.float64)
           (sr start end_ : Z)
  : flow row :=
  row4 <- modality_features signals sr start end_ ;;
  align_label chest_labels scale start end_ row4.

(** [for start in range(0, n - window_samples + 1, step_samples):
       end = start + window_samples] *)
Definition window_bounds (n window_samples step_samples : Z)
  : result (list (Z * Z)) :=
  bind (range 0 (n - window_samples + 1) step_samples) (fun starts =>
  Ok (map (fun start => (start, start + window_samples)%Z) starts)).

Fixpoint loop (signals : dict (list pyfloat)) (chest_labels : list Z)
         (scale : Float64.float64) (sr : Z) (bounds : list (Z * Z))
         (features : list row) : result (list row) :=
  match bounds with
  | [] => Ok features
  | (start, end_) :: bounds' =>
      match window_features signals chest_labels scale sr start end_ with
      | Throw e => Raise e
      | Continue => loop signals chest_labels scale sr bounds' features
      | Next r =>
          loop signals chest_labels scale sr bounds'
               (if contains r "label" then features ++ [r] else features)
      end
  end.

(** [min(len(v) for v in signals.values())] *)
Definition min_length (signals : dict (list pyfloat)) : result Z :=
  match map (fun kv => Z.of_nat (length (snd kv))) signals with
  | [] => Raise ValueError
  | l :: ls => Ok (fold_left Z.min ls l)
  end.

Definition extract_window_features (signals : dict (list pyfloat))
           (chest_labels : list Z) (sr window_samples step_samples : Z)
  : result (list row) :=
  bind (min_length signals) (fun n =>
  let chest_len := Z.of_nat (length chest_labels) in
  if (n =? 0)%Z then Raise ZeroDivisionError
  else
    let scale := Float64.true_divide chest_len n in
    bind (window_bounds n window_samples step_samples) (fun bounds =>
    loop signals chest_labels scale sr bounds [])).

(** The table built by [main]: the columns of
    [pd.DataFrame(all_rows).dropna().reset_index()]. *)
Definition dataframe_columns (rows : list row) : list string :=
  fold_left
    (fun cols r =>
       cols ++ filter (fun k => negb (existsb (String.eqb k) cols)) (keys r))
    rows [].

Definition main_columns (all_rows : list row) : list string :=
  "index"%string :: dataframe_columns all_rows.

Definition WINDOW : Z := py_int (inject_Z WINDOW_SECONDS * inject_Z DEFAULT_WRIST_SR).
Definition STEP : Z := py_int (inject_Z WINDOW_STEP_SECONDS * inject_Z DEFAULT_WRIST_SR).

(** ** Loading one subject *)

(** A numpy array: its shape and its values in row-major order. *)
Record ndarray : Type := {
  shape : list nat;
  values : list pyfloat
}.

(** The unpickled record as far as the loader reads it: [data["signal"]],
    a dictionary of devices, each a dictionary of arrays, and
    [data["label"]]; [None] stands for a missing key. *)
Record subject : Type := {
  signal : option (dict (dict ndarray));
  label : option (list Z)
}.

(** [a.flatten()] *)
Definition flatten (a : ndarray) : list pyfloat := values a.

(** [a[:, j]] for a two-dimensional [a] *)
Definition column (a : ndarray) (j : nat) : list pyfloat :=
  let width := nth 1 (shape a) 0%nat in
  map (fun i => nth (i * width + j) (values a) NaN)
      (seq 0 (nth 0 (shape a) 0%nat)).

Definition load_wesad_subject (data : subject)
  : result (option (dict (list pyfloat) * list Z)) :=
  match signal data with
  | None => Ok None
  | Some devices =>
      match get devices "wrist" with
      | None => Ok None
      | Some wrist =>
          bind (match label data with
                | Some l => Ok l
                | None => Raise KeyError
                end) (fun chest_labels =>
          let signals : dict (list pyfloat) := [] in
          let signals :=
            match get wrist "EDA" with
            | Some a => set signals "EDA" (flatten a)
            | None => signals
            end in
          let signals :=
            match get wrist "TEMP" with
            | Some a => set signals "TEMP" (flatten a)
            | None => signals
            end in
          let signals :=
            match get wrist "ACC" with
            | Some acc =>
                if (length (shape acc) =? 2)%nat
                   && (nth 1 (shape acc) 0 =? 3)%nat
                then set (set (set signals "ACC_x" (column acc 0))
                              "ACC_y" (column acc 1))
                         "ACC_z" (column acc 2)
                else set signals "ACC_x" (flatten acc)
            | None => signals
            end in
          let signals :=
            match get wrist "BVP" with
            | Some a => set signals "BVP" (flatten a)
            | None => signals
            end in
          Ok (Some (signals, chest_labels)))
      end
  end.

(** ** The table of [main] *)

(** The loop of [main] over the unpickled subjects. *)
Fixpoint gather (subjects : list subject) (all_rows : list row)
  : result (list row) :=
  match subjects with
  | [] => Ok all_rows
  | data :: subjects' =>
      match load_wesad_subject data with
      | Raise e => Raise e
      | Ok None => gather subjects' all_rows
      | Ok (Some (signals, labels)) =>
          match extract_window_features signals labels DEFAULT_WRIST_SR
                  WINDOW STEP with
          | Raise e => Raise e
          | Ok feats => gather subjects' (all_rows ++ feats)
          end
      end
  end.

(** A row survives [dropna()] when it has a value other than [nan] in
    every column of the frame; a key the row lacks is a [nan] cell. *)
Definition notna (columns : list string) (r : row) : bool :=
  forallb (fun c => match get r c with
                    | Some v => negb (isnan v)
                    | None => false
                    end) columns.

Definition cell (r : row) (c : string) : pyfloat :=
  match get r c with
  | Some v => v
  | None => NaN
  end.

(** [pd.DataFrame(all_rows).dropna().reset_index()]: the surviving rows,
    each with its position in [all_rows] in the new first column. *)
Definition main_table (all_rows : list row) : list row :=
  let columns := dataframe_columns all_rows in
  map (fun ir => ("index"%string, of_nat (fst ir))
                 :: map (fun c => (c, cell (snd ir) c)) columns)
      (filter (fun ir => notna columns (snd ir))
              (combine (seq 0 (length all_rows)) all_rows)).

End Train.

(* ================================================================== *)
(** * Serving script: [api.py]                                         *)
(* ================================================================== *)

Module Api.

Local Open Scope R_scope.

Notation "x <- m ;; k" := (bind m (fun x => k))
  (at level 61, m at next level, right associativity).

Record SensorInput : Type := {
  BVP : R;
  EDA : R;
  TEMP : R;
  ACC_x : R;
  ACC_y : R;
  ACC_z : R
}.

Definition bandpower (arr : list R) (fs low high : R) : R :=
  let (freqs, psd) := Scipy.welch arr fs in
  let mask := map (fun f => Rleb low f && Rleb f high) freqs in
  if negb (existsb (fun b => b) mask) then 0
  else trapezoid (Scipy.take psd mask) (Scipy.take freqs mask).

(** ** Advice generator *)

Definition generate_advice (features : row) : result string :=
  hr <- getitem features "HR_mean" ;;
  eda <- getitem features "EDA_mean" ;;
  temp <- getitem features "TEMP_mean" ;;
  acc <- getitem features "ACC_mag_mean" ;;
  hrv <- getitem features "HRV_SDNN" ;;
  let m_hr :=
    if gt hr 100 then
      ["Your heart rate is elevated. Try taking slow, deep breaths or pausing for a short rest."%string]
    else if lt hr 55 then
      ["Your heart rate seems low. If you feel sluggish, a brief walk or stretch may help."%string]
    else [] in
  let m_eda :=
    if gt eda 5 then
      ["Skin conductance is high, which may indicate stress. A quick break or hydration may help."%string]
    else if lt eda 0.5 then
      ["Your EDA is very low, suggesting a calm state."%string]
    else [] in
  let m_temp :=
    if gt temp 37.7 then
      ["Your temperature is slightly elevated. Cooling down or drinking water may help."%string]
    else if lt temp 35.5 then
      ["Your temperature is low. Consider warming up or moving gently."%string]
    else [] in
  let m_acc :=
    if gt acc 120 then
      ["Movement level is high, which can reflect physical agitation. Try slowing your pace or sitting comfortably."%string]
    else if lt acc 15 then
      ["Very low movement detected. If you're tense or sitting still for long, consider stretching."%string]
    else [] in
  let m_hrv :=
    if lt hrv 0.03 then
      ["Your HRV is low, which may reflect reduced stress tolerance. A short relaxation exercise could help."%string]
    else [] in
  let advice_messages := (m_hr ++ m_eda ++ m_temp ++ m_acc ++ m_hrv)%list in
  let advice_messages :=
    match advice_messages with
    | [] => ["Everything looks stable. Keep up the good balance!"%string]
    | _ => advice_messages
    end in
  Ok (String.concat " " advice_messages).

(** ** Feature extraction *)

(** The seven summary entries written for each channel:
    [np.mean], [np.std], [np.min], [np.max], [np.median], [skew],
    [kurtosis]. *)
Definition summary (prefix : string) (a : list R) (row0 : row) : result row :=
  let row1 := set row0 (String.append prefix "mean") (Np.mean a) in
  let row2 := set row1 (String.append prefix "std") (Np.std a) in
  lo <- Np.min a ;;
  let row3 := set row2 (String.append prefix "min") (Fin lo) in
  hi <- Np.max a ;;
  let row4 := set row3 (String.append prefix "max") (Fin hi) in
  let row5 := set row4 (String.append prefix "median") (Np.median a) in
  let row6 := set row5 (String.append prefix "skew") (Scipy.skew a) in
  Ok (set row6 (String.append prefix "kurt") (Scipy.kurtosis a)).

(** ---------- EDA ---------- *)
Definition eda_features (signals : dict (list R)) (row0 : row) : result row :=
  eda <- getitem signals "EDA" ;;
  row1 <- summary "EDA_" eda row0 ;;
  let eda_diff := diff eda in
  let row2 := set row1 "EDA_diff_mean" (Np.mean eda_diff) in
  let row3 := set row2 "EDA_diff_std" (Np.std eda_diff) in
  peaks <- Scipy.find_peaks eda 16 ;;
  let row4 := set row3 "EDA_peak_count" (of_nat (length peaks)) in
  let row5 := set row4 "EDA_peak_mean_amp"
                  (if negb (length peaks =? 0)%nat
                   then Np.mean (at_indices eda peaks) else Fin 0) in
  let lf := bandpower eda 32 0.01 0.1 in
  let hf := bandpower eda 32 0.1 0.25 in
  let row6 := set row5 "EDA_LF" (Fin lf) in
  let row7 := set row6 "EDA_HF" (Fin hf) in
  lfhf <- (if negb (Reqb hf 0) then py_truediv lf hf else Ok 0) ;;
  Ok (set row7 "EDA_LFHF" (Fin lfhf)).

(** ---------- TEMP ---------- *)
Definition temp_features (signals : dict (list R)) (row0 : row) : result row :=
  temp <- getitem signals "TEMP" ;;
  row1 <- summary "TEMP_" temp row0 ;;
  last <- index temp (-1) ;;
  first <- index temp 0 ;;
  slope <- py_truediv (last - first) (len temp) ;;
  Ok (set row1 "TEMP_slope" (Fin slope)).

(** ---------- ACC ---------- *)
Definition acc_features (signals : dict (list R)) (row0 : row) : result row :=
  ax <- getitem signals "ACC_x" ;;
  ay <- getitem signals "ACC_y" ;;
  az <- getitem signals "ACC_z" ;;
  let sq := map (fun v => v * v) in
  xy <- broadcast2 Rplus (sq ax) (sq ay) ;;
  xyz <- broadcast2 Rplus xy (sq az) ;;
  let mag := map sqrt xyz in
  row1 <- summary "ACC_mag_" mag row0 ;;
  Ok (set row1 "ACC_energy" (Np.div (sum (sq mag)) (len mag))).

(** The HRV entries from the detected pulse peaks. *)
Definition hrv_bands (ibi : list R) : result (R * R * R) :=
  let times := cumsum ibi in
  t_first <- index times 0 ;;
  t_last <- index times (-1) ;;
  let interp_times := linspace t_first t_last (length times) in
  ibi_interp <- interp interp_times times ibi ;;
  let lf := bandpower ibi_interp 4 0.04 0.15 in
  let hf := bandpower ibi_interp 4 0.15 0.40 in
  lfhf <- (if negb (Reqb hf 0) then py_truediv lf hf else Ok 0) ;;
  Ok (lf, hf, lfhf).

Definition pnn50 (rr_diff : list R) : result R :=
  if negb (length rr_diff =? 0)%nat
  then py_truediv (INR (count_above 0.05 rr_diff)) (len rr_diff)
  else Ok 0.

Definition HRV_NAMES : list string :=
  [ "HR_mean"; "HRV_SDNN"; "HRV_RMSSD"; "HRV_pNN50";
    "HRV_LF"; "HRV_HF"; "HRV_LFHF" ]%string.

Definition hrv_features (peaks : list nat) (row0 : row) : result row :=
  if (1 <? length peaks)%nat then
    let ibi := map (fun d => IZR d / 64.0) (diffz (map Z.of_nat peaks)) in
    let rr_diff := diff ibi in
    let row1 := set row0 "HR_mean" (Np.div 60.0 (rmean ibi)) in
    let row2 := set row1 "HRV_SDNN" (Np.std ibi) in
    let row3 := set row2 "HRV_RMSSD"
                    (if negb (length rr_diff =? 0)%nat
                     then Fin (sqrt (rmean (map (fun d => d * d) rr_diff)))
                     else Fin 0) in
    p <- pnn50 rr_diff ;;
    let row4 := set row3 "HRV_pNN50" (Fin p) in
    let '(lf, hf, lfhf) := try_except (hrv_bands ibi) (0, 0, 0) in
    Ok (set (set (set row4 "HRV_LF" (Fin lf)) "HRV_HF" (Fin hf))
            "HRV_LFHF" (Fin lfhf))
  else
    Ok (fold_left (fun r k => set r k (Fin 0)) HRV_NAMES row0).

(** ---------- BVP ---------- and ---------- HRV ---------- *)
Definition bvp_features (signals : dict (list R)) (row0 : row) : result row :=
  bvp <- getitem signals "BVP" ;;
  row1 <- summary "BVP_" bvp row0 ;;
  peaks <- Scipy.find_peaks bvp 20 ;;
  hrv_features peaks row1.

Definition extract_features_window (signals : dict (list R)) : result row :=
  row1 <- eda_features signals [] ;;
  row2 <- temp_features signals row1 ;;
  row3 <- acc_features signals row2 ;;
  bvp_features signals row3.

(** ** Prediction endpoint *)

(** 4. Correct feature order from the Training *)
Definition order : list string :=
  [ "index";
    "EDA_mean"; "EDA_std"; "EDA_min"; "EDA_max"; "EDA_median"; "EDA_skew"; "EDA_kurt";
    "EDA_diff_mean"; "EDA_diff_std";
    "EDA_peak_count"; "EDA_peak_mean_amp";
    "EDA_LF"; "EDA_HF"; "EDA_LFHF";

    "TEMP_mean"; "TEMP_std"; "TEMP_min"; "TEMP_max"; "TEMP_median";
    "TEMP_skew"; "TEMP_kurt"; "TEMP_slope";

    "ACC_mag_mean"; "ACC_mag_std"; "ACC_mag_min"; "ACC_mag_max";
    "ACC_mag_median"; "ACC_mag_skew"; "ACC_mag_kurt"; "ACC_energy";

    "BVP_mean"; "BVP_std"; "BVP_min"; "BVP_max"; "BVP_median";
    "BVP_skew"; "BVP_kurt";

    "HR_mean"; "HRV_SDNN"; "HRV_RMSSD"; "HRV_pNN50";
    "HRV_LF"; "HRV_HF"; "HRV_LFHF" ]%string.

Definition THRESH : R := 0.70.

(** What the handler does besides computing: draws from the random
    generator and calls into the feature code and the classifier. *)
Inductive event : Type :=
| Randn (count : nat)
| ExtractFeatures
| PredictProba.

(** The generator is a stream of standard-normal draws with a cursor;
    the log records the calls made, oldest first. *)
Record world : Type := {
  cursor : nat;
  log : list event
}.

Inductive response : Type :=
| Prediction (prediction : string) (probability : R) (advice : string)
| Error (e : exn).

Section Endpoint.

(** The draws of [np.random.randn] and the loaded CatBoost model. *)
Variable noise : nat -> R.
Variable predict_proba : row -> R.

(** [np.random.randn(count)] *)
Definition randn (count : nat) (w : world) : list R * world :=
  (map noise (seq (cursor w) count),
   {| cursor := cursor w + count; log := (log w ++ [Randn count])%list |}).

Definition record (e : event) (w : world) : world :=
  {| cursor := cursor w; log := (log w ++ [e])%list |}.

(** [pd.DataFrame([features]).fillna(0)] *)
Definition fillna (features : row) : row :=
  map (fun kv => (fst kv, if isnan (snd kv) then Fin 0 else snd kv)) features.

(** [df[order]] *)
Fixpoint select (df : row) (columns : list string) : result row :=
  match columns with
  | [] => Ok []
  | c :: columns' =>
      v <- getitem df c ;;
      rest <- select df columns' ;;
      Ok ((c, v) :: rest)
  end.

Definition physiological_override (input : SensorInput) : bool :=
  Rleb 36.0 (TEMP input) && Rleb (TEMP input) 37.5
  && Rleb (EDA input) 3.0
  && Rltb (Rabs (ACC_x input)) 50
  && Rltb (Rabs (ACC_y input)) 50
  && Rltb (Rabs (ACC_z input)) 50.

(** Steps 3 to 6, once the synthetic window exists. *)
Definition classify (signals : dict (list R)) (w : world)
  : result response * world :=
  let w1 := record ExtractFeatures w in
  match extract_features_window signals with
  | Raise e => (Raise e, w1)
  | Ok features =>
      let df := (("index"%string, Fin 0) :: fillna features)%list in
      match select df order with
      | Raise e => (Raise e, w1)
      | Ok df' =>
          let w2 := record PredictProba w1 in
          let proba := predict_proba df' in
          let status := if Rleb THRESH proba then "STRESSED"%string
                        else "NOT STRESSED"%string in
          match generate_advice features with
          | Raise e => (Raise e, w2)
          | Ok advice => (Ok (Prediction status proba advice), w2)
          end
      end
  end.

(** [@app.post("/predict")]; the outer [except] turns any exception
    into an error response. *)
Definition predict_stress (input : SensorInput) (w : world)
  : response * world :=
  if physiological_override input then
    (Prediction "NOT STRESSED" 0.0
                "Your vital signs appear normal. Everything looks stable.",
     w)
  else
    let (n_bvp, w1) := randn 384 w in
    let (n_eda, w2) := randn 192 w1 in
    let (n_temp, w3) := randn 192 w2 in
    let (n_x, w4) := randn 192 w3 in
    let (n_y, w5) := randn 192 w4 in
    let (n_z, w6) := randn 192 w5 in
    let signals : dict (list R) :=
      [ ("BVP"%string, map (fun e => BVP input + 0.01 * e) n_bvp);
        ("EDA"%string, map (fun e => EDA input + 0.02 * e) n_eda);
        ("TEMP"%string, map (fun e => TEMP input + 0.005 * e) n_temp);
        ("ACC_x"%string, map (fun e => ACC_x input + 2 * e) n_x);
        ("ACC_y"%string, map (fun e => ACC_y input + 2 * e) n_y);
        ("ACC_z"%string, map (fun e => ACC_z input + 2 * e) n_z) ] in
    match classify signals w6 with
    | (Ok r, w') => (r, w')
    | (Raise e, w') => (Error e, w')
    end.

End Endpoint.

End Api.

(* ================================================================== *)
(** * The written specification                                        *)
(* ================================================================== *)

(** Definitions that follow the words of the specification; the
    properties below compare the code with them. *)
Module Spec.

Local Open Scope R_scope.

(** The canonical column order, without the optional trailing label. *)
Definition schema : list string :=
  [ "index"; "EDA_mean"; "EDA_std"; "EDA_min"; "EDA_max"; "EDA_median";
    "EDA_skew"; "EDA_kurt"; "EDA_diff_mean"; "EDA_diff_std";
    "EDA_peak_count"; "EDA_peak_mean_amp"; "EDA_LF"; "EDA_HF"; "EDA_LFHF";
    "TEMP_mean"; "TEMP_std"; "TEMP_min"; "TEMP_max"; "TEMP_median";
    "TEMP_skew"; "TEMP_kurt"; "TEMP_slope"; "ACC_mag_mean"; "ACC_mag_std";
    "ACC_mag_min"; "ACC_mag_max"; "ACC_mag_median"; "ACC_mag_skew";
    "ACC_mag_kurt"; "ACC_energy"; "BVP_mean"; "BVP_std"; "BVP_min";
    "BVP_max"; "BVP_median"; "BVP_skew"; "BVP_kurt"; "HR_mean"; "HRV_SDNN";
    "HRV_RMSSD"; "HRV_pNN50"; "HRV_LF"; "HRV_HF"; "HRV_LFHF" ]%string.

(** Moments of a sample [a] of size [n]. *)
Definition average (a : list R) : R := sum a / INR (length a).

Definition central_moment (p : nat) (a : list R) : R :=
  sum (map (fun x => (x - average a) ^ p) a) / INR (length a).

(** Population standard deviation (denominator [n]). *)
Definition population_std (a : list R) : R := sqrt (central_moment 2 a).

(** Sample standard deviation (denominator [n - 1]). *)
Definition sample_std (a : list R) : R :=
  sqrt (sum (map (fun x => (x - average a) ^ 2) a) / (INR (length a) - 1)).

(** Fisher-Pearson coefficient of skewness [g1 = m3 / m2^(3/2)] and its
    bias-corrected form [G1 = sqrt(n (n - 1)) / (n - 2) * g1]. *)
Definition g1 (a : list R) : R :=
  central_moment 3 a / (central_moment 2 a * sqrt (central_moment 2 a)).

Definition sample_skewness (a : list R) : R :=
  let n := INR (length a) in
  sqrt (n * (n - 1)) / (n - 2) * g1 a.

(** Excess kurtosis [g2 = m4 / m2^2 - 3] and its bias-corrected form
    [G2 = (n - 1) / ((n - 2) (n - 3)) * ((n + 1) g2 + 6)]. *)
Definition g2 (a : list R) : R :=
  central_moment 4 a / (central_moment 2 a) ^ 2 - 3.

Definition sample_excess_kurtosis (a : list R) : R :=
  let n := INR (length a) in
  (n - 1) / ((n - 2) * (n - 3)) * ((n + 1) * g2 a + 6).

(** A channel slice is invalid if it contains any NaN, any infinite
    value, or has zero variance. *)
Definition zero_variance (a : list R) : Prop :=
  a <> [] /\ central_moment 2 a = 0.

Definition invalid_slice (arr : list pyfloat) : Prop :=
  In NaN arr \/ (exists negative, In (Inf negative) arr)
  \/ zero_variance (finite_part arr).

(** Per-sample magnitude [sqrt(x^2 + y^2 + z^2)] across the three axes. *)
Definition magnitude (ax ay az : list pyfloat) : list pyfloat :=
  map (fun p => fsqrt (add (add (square (fst (fst p))) (square (snd (fst p))))
                           (square (snd p))))
      (combine (combine ax ay) az).

(** [pNN50 = count(|rr_diff| > 0.05) / len(rr_diff)], or 0 if empty. *)
Definition pnn50 (rr_diff : list R) : R :=
  match rr_diff with
  | [] => 0
  | _ => INR (length (filter (fun d => Rltb 0.05 (Rabs d)) rr_diff))
         / INR (length rr_diff)
  end.





End Spec.

(* ================================================================== *)
(** * A small recording                                                *)
(* ================================================================== *)

(** One four-sample window (eight BVP samples) used to run both paths:
    every channel ramps up except two acceleration axes, which are
    flat. *)
Module Example.

Local Open Scope R_scope.

Definition ramp4 : list R := [0; 1; 2; 3].
Definition ramp8 : list R := [0; 1; 2; 3; 4; 5; 6; 7].
Definition flat4 : list R := [0; 0; 0; 0].

(** The window as the serving path takes it. *)
Definition window : dict (list R) :=
  [ ("BVP"%string, ramp8); ("EDA"%string, ramp4); ("TEMP"%string, ramp4);
    ("ACC_x"%string, flat4); ("ACC_y"%string, ramp4); ("ACC_z"%string, flat4) ].

(** The same samples as a recording for the training path. *)
Definition signals : dict (list pyfloat) :=
  map (fun kv => (fst kv, of_reals (snd kv))) window.

Definition chest_labels : list Z := [1; 1; 1; 1]%Z.

(** A pulse slice with one beat at sample 1 and a weaker one at sample
    20, that is 19 samples later. *)
Definition two_beats : list R :=
  [0; 2; 0; 0; 0; 0; 0; 0; 0; 0; 0; 0; 0; 0; 0; 0; 0; 0; 0; 0; 1; 0].

(** A pickled subject with a wrist EDA channel only: one window of 192
    samples, a spike followed by zeros, and one chest label. *)
Definition spike : list R := 1 :: repeat 0 191.

Definition eda_only : Train.subject :=
  {| Train.signal :=
       Some [("wrist"%string,
              [("EDA"%string,
                {| Train.shape := [192%nat];
                   Train.values := of_reals spike |})])];
     Train.label := Some [1%Z] |}.

End Example.

(* ================================================================== *)
(** * Properties                                                       *)
(* ================================================================== *)

Lemma range_up_spec (fuel : nat) (start stop step : Z) :
  0 < step -> (Z.to_nat (stop - start) <= fuel)%nat ->
  range_up fuel start stop step
  = map (fun k => start + step * Z.of_nat k)
        (seq 0 (Z.to_nat ((stop - start + step - 1) / step))).
Proof.
  intros Hstep. revert start.
  assert (Hsmall : forall start, stop <= start ->
            Z.to_nat ((stop - start + step - 1) / step) = 0%nat).
  { intros start Hle.
    assert ((stop - start + step - 1) / step < 1)
      by (apply Z.div_lt_upper_bound; lia).
    lia. }
  induction fuel as [|fuel IH]; intros start Hfuel; simpl.
  - rewrite Hsmall by lia. reflexivity.
  - destruct (Z.ltb_spec start stop) as [Hlt|Hge].
    + rewrite IH by lia.
      replace (stop - start + step - 1)
        with ((stop - (start + step) + step - 1) + 1 * step) by lia.
      rewrite Z.div_add by lia.
      assert (0 <= (stop - (start + step) + step - 1) / step)
        by (apply Z.div_pos; lia).
      rewrite Z.add_1_r, Z2Nat.inj_succ by lia.
      simpl. f_equal; [lia|].
      rewrite <- seq_shift, map_map.
      apply map_ext. intros k. lia.
    + rewrite Hsmall by lia. reflexivity.
Qed.

(** ** Window enumeration *)

Lemma window_count_spec (n w step : Z) :
  0 < step ->
  Train.window_bounds n w step
  = Ok (map (fun k => (step * Z.of_nat k, step * Z.of_nat k + w))
            (seq 0 (Z.to_nat ((n - w) / step + 1)))).
Proof.
  intros Hstep. unfold Train.window_bounds, range.
  destruct (Z.eqb_spec step 0) as [|_]; [lia|].
  destruct (Z.ltb_spec 0 step) as [_|]; [|lia].
  cbn [bind]. rewrite range_up_spec by (assumption || lia).
  rewrite map_map. f_equal. 
  replace (n - w + 1 - 0 + step - 1) with ((n - w) + 1 * step) by lia.
  rewrite Z.div_add by lia. reflexivity.
Qed.

(** Claim C8.  For [step_samples > 0] (and any [window_samples], in
    particular a positive one) the loop header enumerates the boundaries
    [(start, start + window_samples)] for [start = 0, step, 2*step, ...]
    exactly while [start + window_samples <= n]: the [k]-th boundary
    starts at [k * step_samples], and there is a [k]-th boundary iff
    [k * step_samples + window_samples <= n].  Nothing is enumerated when
    [n < window_samples], and for [n >= window_samples] there are
    [floor((n - window_samples) / step_samples) + 1] windows. *)
Theorem window_bounds_enumeration (n window_samples step_samples : Z) :
  0 < window_samples -> 0 < step_samples ->
  exists bounds,
    Train.window_bounds n window_samples step_samples = Ok bounds
    /\ (forall k : nat,
          nth_error bounds k
          = if Z.of_nat k * step_samples + window_samples <=? n
            then Some (Z.of_nat k * step_samples,
                       Z.of_nat k * step_samples + window_samples)
            else None)
    /\ (n < window_samples -> bounds = [])
    /\ (window_samples <= n ->
        Z.of_nat (length bounds) = (n - window_samples) / step_samples + 1).
Proof.
  intros _ Hstep.
  eexists. split; [apply window_count_spec; assumption|].
  set (count := (n - window_samples) / step_samples + 1).
  assert (Hcount : forall k : Z, k < count <-> k * step_samples + window_samples <= n).
  { intros k. unfold count. split; intros H.
    - assert (k <= (n - window_samples) / step_samples) by lia.
      assert (step_samples * ((n - window_samples) / step_samples) <= n - window_samples)
        by (apply Z.mul_div_le; lia).
      nia.
    - assert (k <= (n - window_samples) / step_samples); [|lia].
      apply Z.div_le_lower_bound; lia. }
  split; [|split].
  - intros k.
    destruct (Z.leb_spec (Z.of_nat k * step_samples + window_samples) n) as [Hin|Hout].
    + apply Hcount in Hin.
      rewrite nth_error_map, nth_error_nth' with (d := O)
        by (rewrite length_seq; lia).
      rewrite seq_nth by lia. cbn. do 2 f_equal; lia.
    + apply nth_error_None. rewrite length_map, length_seq.
      assert (~ Z.of_nat k < count) by (rewrite Hcount; lia). lia.
  - intros Hlt. assert (~ 0 < count) by (rewrite Hcount; lia).
    replace (Z.to_nat count) with O by lia. reflexivity.
  - intros Hle. rewrite length_map, length_seq.
    assert (0 < count) by (rewrite Hcount; lia). lia.
Qed.

Lemma window_bounds_enumeration_witness :
  exists bounds,
    Train.window_bounds 400 192 96 = Ok bounds
    /\ (forall k : nat,
          nth_error bounds k
          = if Z.of_nat k * 96 + 192 <=? 400
            then Some (Z.of_nat k * 96, Z.of_nat k * 96 + 192)
            else None)
    /\ (400 < 192 -> bounds = [])
    /\ (192 <= 400 -> Z.of_nat (length bounds) = (400 - 192) / 96 + 1).
Proof.
  apply (window_bounds_enumeration 400 192 96); lia.
Defined.

Example window_bounds_example :
  Train.window_bounds 400 192 96 = Ok [(0, 192); (96, 288); (192, 384)].
Proof. reflexivity. Qed.

(** ** Comparisons of reals *)

Lemma Rltb_true (x y : R) : (x < y)%R -> Rltb x y = true.
Proof. intros H. unfold Rltb. destruct (Rlt_dec x y); [reflexivity|contradiction]. Qed.

Lemma Rltb_false (x y : R) : (y <= x)%R -> Rltb x y = false.
Proof. intros H. unfold Rltb. destruct (Rlt_dec x y); [lra|reflexivity]. Qed.

Lemma Rleb_true (x y : R) : (x <= y)%R -> Rleb x y = true.
Proof. intros H. unfold Rleb. destruct (Rle_dec x y); [reflexivity|contradiction]. Qed.

Lemma Rleb_false (x y : R) : (y < x)%R -> Rleb x y = false.
Proof. intros H. unfold Rleb. destruct (Rle_dec x y); [lra|reflexivity]. Qed.

Lemma Reqb_true (x y : R) : x = y -> Reqb x y = true.
Proof. intros H. unfold Reqb. destruct (Req_dec_T x y); [reflexivity|contradiction]. Qed.

Lemma Reqb_false (x y : R) : x <> y -> Reqb x y = false.
Proof. intros H. unfold Reqb. destruct (Req_dec_T x y); [contradiction|reflexivity]. Qed.

Lemma Rltb_spec (x y : R) : reflect (x < y)%R (Rltb x y).
Proof. unfold Rltb. destruct (Rlt_dec x y); constructor; assumption. Qed.

Lemma Rleb_spec (x y : R) : reflect (x <= y)%R (Rleb x y).
Proof. unfold Rleb. destruct (Rle_dec x y); constructor; assumption. Qed.

Lemma Reqb_spec (x y : R) : reflect (x = y) (Reqb x y).
Proof. unfold Reqb. destruct (Req_dec_T x y); constructor; assumption. Qed.

(** ** The prediction endpoint *)

(** Claim C10.  When the scalar readings satisfy
    [36.0 <= TEMP <= 37.5], [EDA <= 3.0] and [|ACC_x|, |ACC_y|, |ACC_z| < 50],
    the endpoint answers "NOT STRESSED" with probability 0.0 and leaves
    the world as it found it: no random draw (no synthetic window), no
    call of the feature extraction, no call of the classifier.  The BVP
    reading, the classifier and the noise source are arbitrary. *)
Theorem predict_stress_override
        (noise : nat -> R) (predict_proba : row -> R)
        (input : Api.SensorInput) (w : Api.world) :
  (36.0 <= Api.TEMP input <= 37.5)%R ->
  (Api.EDA input <= 3.0)%R ->
  (Rabs (Api.ACC_x input) < 50)%R ->
  (Rabs (Api.ACC_y input) < 50)%R ->
  (Rabs (Api.ACC_z input) < 50)%R ->
  Api.predict_stress noise predict_proba input w
  = (Api.Prediction "NOT STRESSED" 0
       "Your vital signs appear normal. Everything looks stable.", w).
Proof.
  intros [Hlo Hhi] Heda Hx Hy Hz.
  unfold Api.predict_stress, Api.physiological_override.
  rewrite !Rleb_true, !Rltb_true by assumption. cbn [andb].
  f_equal. f_equal. lra.
Qed.

Lemma predict_stress_override_witness :
  Api.predict_stress (fun _ => 0%R) (fun _ => 1%R)
    {| Api.BVP := 1000; Api.EDA := 2; Api.TEMP := 36.5;
       Api.ACC_x := 10; Api.ACC_y := -20; Api.ACC_z := 49 |}
    {| Api.cursor := 0; Api.log := [] |}
  = (Api.Prediction "NOT STRESSED" 0
       "Your vital signs appear normal. Everything looks stable.",
     {| Api.cursor := 0; Api.log := [] |}).
Proof.
  apply (predict_stress_override (fun _ => 0%R) (fun _ => 1%R)
           {| Api.BVP := 1000; Api.EDA := 2; Api.TEMP := 36.5;
              Api.ACC_x := 10; Api.ACC_y := -20; Api.ACC_z := 49 |}
           {| Api.cursor := 0; Api.log := [] |});
    cbn [Api.TEMP Api.EDA Api.ACC_x Api.ACC_y Api.ACC_z];
    try (unfold Rabs; destruct (Rcase_abs _)); lra.
Defined.

(** ** Sequencing and dictionaries *)

Lemma bind_ok {A B : Type} (m : result A) (k : A -> result B) (b : B) :
  bind m k = Ok b -> exists a, m = Ok a /\ k a = Ok b.
Proof. destruct m; cbn; [eauto|discriminate]. Qed.

Lemma flow_bind_next {A B : Type}
      (m : Train.flow A) (k : A -> Train.flow B) (b : B) :
  Train.flow_bind m k = Train.Next b ->
  exists a, m = Train.Next a /\ k a = Train.Next b.
Proof. destruct m; cbn; [eauto|discriminate|discriminate]. Qed.

Lemma lift_next {A : Type} (m : result A) (a : A) :
  Train.lift m = Train.Next a -> m = Ok a.
Proof. destruct m; cbn; congruence. Qed.

(** Peel the successful prefix of a chain of binds in [H]. *)
Ltac inv_bind H :=
  repeat (apply bind_ok in H;
          let x := fresh "x" in
          let E := fresh "E" in
          destruct H as (x & E & H)).

Ltac inv_flow H :=
  repeat (apply flow_bind_next in H;
          let x := fresh "x" in
          let E := fresh "E" in
          destruct H as (x & E & H); try apply lift_next in E).

Lemma get_set {V : Type} (d : dict V) (k k' : string) (v : V) :
  get (set d k v) k' = if String.eqb k' k then Some v else get d k'.
Proof.
  induction d as [|[k0 v0] d IH]; cbn.
  - reflexivity.
  - destruct (String.eqb_spec k k0) as [->|Hk]; cbn.
    + destruct (String.eqb_spec k' k0); reflexivity.
    + rewrite IH. destruct (String.eqb_spec k' k0) as [->|]; [|reflexivity].
      destruct (String.eqb_spec k0 k); [congruence|reflexivity].
Qed.

(** Reduce the string comparisons and the fixed key lists of a row. *)
Ltac row_cbn :=
  cbn [get set update keys contains fold_left map fst snd prefixed combine app
       String.append String.eqb Ascii.eqb Bool.eqb tl hd
       Train.stats_dict Train.HRV_NAMES Api.HRV_NAMES Api.order Spec.schema].

Ltac row_cbn_in H :=
  cbn [get set update keys contains fold_left map fst snd prefixed combine app
       String.append String.eqb Ascii.eqb Bool.eqb tl hd
       Train.stats_dict Train.HRV_NAMES Api.HRV_NAMES Api.order Spec.schema] in H.

(** Look a key up through a chain of [set]s. *)
Ltac get_through := row_cbn; repeat (rewrite get_set; row_cbn).

(** ** pNN50 *)

Lemma INR_length_nonzero {A : Type} (x : A) (a : list A) :
  INR (length (x :: a)) <> 0%R.
Proof. apply not_0_INR. discriminate. Qed.

Lemma train_pnn50_spec (rr_diff : list R) :
  Train.pnn50 rr_diff = Fin (Spec.pnn50 rr_diff).
Proof.
  unfold Train.pnn50, Spec.pnn50. destruct rr_diff as [|d rr]; [reflexivity|].
  cbn [length Nat.ltb Nat.leb]. unfold Np.div, Np.len.
  rewrite Reqb_false by apply INR_length_nonzero. reflexivity.
Qed.

Lemma api_pnn50_spec (rr_diff : list R) :
  Api.pnn50 rr_diff = Ok (Spec.pnn50 rr_diff).
Proof.
  unfold Api.pnn50, Spec.pnn50. destruct rr_diff as [|d rr]; [reflexivity|].
  cbn [length Nat.eqb negb]. unfold py_truediv, Np.len.
  rewrite Reqb_false by apply INR_length_nonzero. reflexivity.
Qed.

Lemma diff_length (a : list R) : length (diff a) = (length a - 1)%nat.
Proof.
  induction a as [|x [|y a] IH]; [reflexivity|reflexivity|].
  change (diff (x :: y :: a)) with ((y - x)%R :: diff (y :: a)).
  cbn [length] in *. lia.
Qed.

Lemma diffz_length (a : list Z) : length (diffz a) = (length a - 1)%nat.
Proof.
  induction a as [|x [|y a] IH]; [reflexivity|reflexivity|].
  change (diffz (x :: y :: a)) with ((y - x) :: diffz (y :: a)).
  cbn [length] in *. lia.
Qed.

(** The inter-beat intervals each script derives from the peak indices. *)
Lemma train_hrv_two_peaks (peaks : list nat) :
  (1 < length peaks)%nat ->
  exists hr sdnn rmssd LF HF LFHF,
    Train.hrv peaks
    = [hr; sdnn; rmssd;
       Train.pnn50 (diff (map (fun d => (IZR d / IZR Train.DEFAULT_BVP_SR)%R)
                              (diffz (map Z.of_nat peaks))));
       Fin LF; Fin HF; Fin LFHF].
Proof.
  intros Hlen. unfold Train.hrv.
  destruct (Nat.ltb_spec 1 (length peaks)) as [_|]; [|lia].
  destruct (try_except _ _) as [[LF HF] LFHF]. eauto 10.
Qed.

Lemma train_hrv_few_peaks (peaks : list nat) :
  (length peaks < 2)%nat ->
  Train.hrv peaks = [Fin 0; Fin 0; Fin 0; Fin 0; Fin 0; Fin 0; Fin 0].
Proof.
  intros Hlen. unfold Train.hrv.
  destruct (Nat.ltb_spec 1 (length peaks)) as [|_]; [lia|reflexivity].
Qed.

Lemma api_hrv_features_total (peaks : list nat) (row0 : row) :
  exists r, Api.hrv_features peaks row0 = Ok r.
Proof.
  unfold Api.hrv_features.
  destruct (1 <? length peaks)%nat; [|eauto].
  rewrite api_pnn50_spec. cbn [bind].
  destruct (try_except _ _) as [[lf hf] lfhf]. eauto.
Qed.

(** Claim C9.  The pNN50 computation cannot divide by zero: for every
    sequence of successive differences, both scripts return
    [count(|rr_diff| > 0.05) / len(rr_diff)], and 0 when the sequence is
    empty; two peaks give one interval and hence an empty sequence.  The
    serving script, where a zero divisor would raise, always completes
    the HRV block, and the value it stores under [HRV_pNN50] is that
    number (0 with fewer than two peaks); the training script stores the
    same expression. *)
Theorem pnn50_never_divides_by_zero :
  (forall rr_diff : list R,
      Train.pnn50 rr_diff = Fin (Spec.pnn50 rr_diff)
      /\ Api.pnn50 rr_diff = Ok (Spec.pnn50 rr_diff)
      /\ (rr_diff = [] -> Spec.pnn50 rr_diff = 0%R))
  /\ (forall (ibi : list R), length ibi = 1%nat -> diff ibi = [])
  /\ (forall peaks : list nat,
        length peaks = 2%nat -> length (diffz (map Z.of_nat peaks)) = 1%nat)
  /\ (forall (peaks : list nat) (row0 : row),
        let ibi := map (fun d => (IZR d / 64.0)%R) (diffz (map Z.of_nat peaks)) in
        exists r,
          Api.hrv_features peaks row0 = Ok r
          /\ get r "HRV_pNN50"
             = Some (Fin (if (1 <? length peaks)%nat
                          then Spec.pnn50 (diff ibi) else 0%R)))
  /\ (forall peaks : list nat,
        let ibi := map (fun d => (IZR d / IZR Train.DEFAULT_BVP_SR)%R)
                       (diffz (map Z.of_nat peaks)) in
        nth 3 (Train.hrv peaks) NaN
        = Fin (if (1 <? length peaks)%nat
               then Spec.pnn50 (diff ibi) else 0%R)).
Proof.
  split; [|split; [|split; [|split]]].
  - intros rr. split; [apply train_pnn50_spec|].
    split; [apply api_pnn50_spec|]. intros ->. reflexivity.
  - intros [|x [|y ibi]]; cbn; intros H; (discriminate || reflexivity).
  - intros peaks H. rewrite diffz_length, length_map. lia.
  - intros peaks row0 ibi. unfold Api.hrv_features.
    destruct (1 <? length peaks)%nat.
    + fold ibi. rewrite api_pnn50_spec. cbn [bind].
      destruct (try_except _ _) as [[lf hf] lfhf].
      eexists. split; [reflexivity|]. get_through. reflexivity.
    + eexists. split; [reflexivity|]. get_through. reflexivity.
  - intros peaks ibi.
    destruct (Nat.ltb_spec 1 (length peaks)) as [Hlen|Hlen].
    + destruct (train_hrv_two_peaks peaks Hlen) as (hr & sdnn & rmssd & LF & HF & LFHF & ->).
      cbn [nth]. apply train_pnn50_spec.
    + rewrite train_hrv_few_peaks by lia. reflexivity.
Qed.

(** ** The HRV block inside the rows *)

(** The label step never skips or raises; it adds the key [label] or
    leaves the row alone. *)
Lemma align_label_eq (labels : list Z) (scale : Float64.float64) (start end_ : Z) (row0 : row) :
  Train.align_label labels scale start end_ row0
  = Train.Next
      match Train.label_slice labels scale start end_ with
      | [] => row0
      | v :: rest =>
          let m := Pandas.mode_from v (v :: rest) rest in
          if existsb (Z.eqb m) Train.ALLOWED_LABELS
          then set row0 "label" (of_int m) else row0
      end.
Proof.
  unfold Train.align_label.
  destruct (Train.label_slice labels scale start end_) as [|v rest]; [reflexivity|].
  cbn [length Nat.ltb Nat.leb Pandas.mode Train.lift Train.flow_bind].
  destruct (existsb _ _); reflexivity.
Qed.

Lemma align_label_get (labels : list Z) (scale : Float64.float64) (start end_ : Z)
      (row0 r : row) (k : string) :
  Train.align_label labels scale start end_ row0 = Train.Next r ->
  String.eqb k "label" = false ->
  get r k = get row0 k.
Proof.
  rewrite align_label_eq. intros [= <-] Hk.
  destruct (Train.label_slice _ _ _ _) as [|v rest]; [reflexivity|].
  cbv zeta.
  match goal with |- context [if ?c then _ else _] => destruct c end;
    [|reflexivity].
  rewrite get_set, Hk. reflexivity.
Qed.

Lemma train_window_inv (signals : dict (list pyfloat)) (labels : list Z)
      (scale : Float64.float64) (sr start end_ : Z) (r : row) :
  Train.window_features signals labels scale sr start end_ = Train.Next r ->
  exists row3 row4,
    Train.bvp_features signals start end_ row3 = Train.Next row4
    /\ Train.modality_features signals sr start end_ = Train.Next row4
    /\ Train.align_label labels scale start end_ row4 = Train.Next r.
Proof.
  unfold Train.window_features. intros H.
  apply flow_bind_next in H. destruct H as (row4 & Hm & Ha).
  pose proof Hm as Hm'. unfold Train.modality_features in Hm'.
  inv_flow Hm'. eauto.
Qed.

Lemma train_bvp_inv (signals : dict (list pyfloat)) (start end_ : Z)
      (row3 row4 : row) (channel : list pyfloat) :
  get signals "BVP" = Some channel ->
  Train.bvp_features signals start end_ row3 = Train.Next row4 ->
  let bvp_raw := slice channel (start * 2) (end_ * 2) in
  Train.valid bvp_raw = true
  /\ exists peaks,
      Scipy.find_peaks (finite_part bvp_raw) 19 = Ok peaks
      /\ row4 = update (update row3 (prefixed "BVP_" (Train.stats_dict (finite_part bvp_raw))))
                       (combine Train.HRV_NAMES (Train.hrv peaks)).
Proof.
  intros Hb H. unfold Train.bvp_features in H. rewrite Hb in H.
  destruct (Train.valid _) eqn:Hv; cbn [negb] in H; [|discriminate].
  inv_flow H. injection H as <-. cbv zeta. split; [assumption|].
  eexists. split; [exact E|reflexivity].
Qed.

Lemma train_hrv_shape (peaks : list nat) :
  exists h1 h2 h3 h4 h5 h6 h7, Train.hrv peaks = [h1; h2; h3; h4; h5; h6; h7].
Proof.
  unfold Train.hrv. destruct (1 <? length peaks)%nat; [|eauto 10].
  destruct (try_except _ _) as [[LF HF] LFHF]. eauto 10.
Qed.

Lemma api_bvp_inv (signals : dict (list R)) (r : row) :
  Api.extract_features_window signals = Ok r ->
  exists bvp row1 peaks,
    get signals "BVP" = Some bvp
    /\ Scipy.find_peaks bvp 20 = Ok peaks
    /\ Api.hrv_features peaks row1 = Ok r.
Proof.
  unfold Api.extract_features_window. intros H. inv_bind H.
  unfold Api.bvp_features in H. inv_bind H.
  unfold getitem in E2. destruct (get signals "BVP") as [bvp|] eqn:Hb; [|discriminate].
  injection E2 as <-. eauto 10.
Qed.

(** Claim C5.  In both scripts, when peak detection on the window's BVP
    slice (minimum distance 19 samples in training, 20 in serving) finds
    fewer than two peaks, the seven HRV entries of the row produced for
    that window ([HR_mean], [HRV_SDNN], [HRV_RMSSD], [HRV_pNN50],
    [HRV_LF], [HRV_HF], [HRV_LFHF]) are all exactly 0. *)
Theorem hrv_zero_below_two_peaks
        (signals : dict (list pyfloat)) (labels : list Z) (scale : Float64.float64)
        (sr start end_ : Z) (channel : list pyfloat)
        (train_peaks : list nat) (train_row : row)
        (window : dict (list R)) (bvp : list R)
        (api_peaks : list nat) (api_row : row) :
  get signals "BVP" = Some channel ->
  Scipy.find_peaks (finite_part (slice channel (start * 2) (end_ * 2))) 19
  = Ok train_peaks ->
  (length train_peaks < 2)%nat ->
  Train.window_features signals labels scale sr start end_ = Train.Next train_row ->
  get window "BVP" = Some bvp ->
  Scipy.find_peaks bvp 20 = Ok api_peaks ->
  (length api_peaks < 2)%nat ->
  Api.extract_features_window window = Ok api_row ->
  Forall (fun k => get train_row k = Some (Fin 0)) Train.HRV_NAMES
  /\ Forall (fun k => get api_row k = Some (Fin 0)) Api.HRV_NAMES.
Proof.
  intros Hb Hpeaks Hlen Hrow Hb' Hpeaks' Hlen' Hrow'. split.
  - apply train_window_inv in Hrow. destruct Hrow as (row3 & row4 & Hbvp & _ & Hal).
    destruct (train_bvp_inv _ _ _ _ _ _ Hb Hbvp) as (_ & peaks & Hp & ->).
    rewrite Hpeaks in Hp. injection Hp as <-.
    repeat constructor;
      (erewrite align_label_get by (exact Hal || reflexivity));
      rewrite train_hrv_few_peaks by assumption;
      get_through; reflexivity.
  - apply api_bvp_inv in Hrow'. destruct Hrow' as (bvp' & row1 & peaks & Hg & Hp & Hh).
    rewrite Hb' in Hg. injection Hg as <-.
    rewrite Hpeaks' in Hp. injection Hp as <-.
    unfold Api.hrv_features in Hh.
    destruct (Nat.ltb_spec 1 (length api_peaks)) as [|_]; [lia|].
    injection Hh as <-.
    repeat constructor; get_through; reflexivity.
Qed.

(** ** Variance and the validity gate *)

Section Variance.

Local Open Scope R_scope.

Lemma sum_nonneg (a : list R) : Forall (fun x => 0 <= x) a -> 0 <= sum a.
Proof.
  induction 1 as [|x a Hx _ IH]; unfold sum in *; cbn; lra.
Qed.

Lemma sum_sq_nonneg (m : R) (a : list R) :
  0 <= sum (map (fun v => (v - m) ^ 2) a).
Proof.
  apply sum_nonneg, Forall_map, Forall_forall. intros v _. apply pow2_ge_0.
Qed.

Lemma sum_sq_ge (m x : R) (a : list R) :
  In x a -> (x - m) ^ 2 <= sum (map (fun v => (v - m) ^ 2) a).
Proof.
  induction a as [|y a IH]; [contradiction|].
  intros [->|Hin]; cbn [map sum fold_right].
  - pose proof (sum_sq_nonneg m a). unfold sum in *. lra.
  - specialize (IH Hin). pose proof (pow2_ge_0 (y - m)). unfold sum in *. lra.
Qed.

Lemma pow2_pos (x : R) : x <> 0 -> 0 < x ^ 2.
Proof. intros H. pose proof (Rsqr_pos_lt x H) as G. unfold Rsqr in G. lra. Qed.

Lemma dev_pow_sum_2_nonneg (a : list R) : 0 <= dev_pow_sum 2 a.
Proof. apply sum_sq_nonneg. Qed.

(** Two different samples give a positive sum of squared deviations. *)
Lemma dev_pow_sum_2_pos (a : list R) (x y : R) :
  In x a -> In y a -> x <> y -> 0 < dev_pow_sum 2 a.
Proof.
  intros Hx Hy Hxy. unfold dev_pow_sum.
  pose proof (sum_sq_ge (rmean a) x a Hx) as Gx.
  pose proof (sum_sq_ge (rmean a) y a Hy) as Gy.
  destruct (Req_dec x (rmean a)) as [Hm|Hm].
  - assert (0 < (y - rmean a) ^ 2) by (apply pow2_pos; lra). lra.
  - assert (0 < (x - rmean a) ^ 2) by (apply pow2_pos; lra). lra.
Qed.

Lemma sum_constant (c : R) (a : list R) :
  (forall x, In x a -> x = c) -> sum a = INR (length a) * c.
Proof.
  induction a as [|y a IH]; intros H.
  - cbn. lra.
  - change (length (y :: a)) with (S (length a)). rewrite S_INR.
    change (sum (y :: a)) with (y + sum a).
    rewrite IH by (intros; apply H; right; assumption).
    rewrite (H y) by (left; reflexivity). lra.
Qed.

(** Equal samples give zero deviations. *)
Lemma dev_pow_sum_2_constant (c : R) (a : list R) :
  a <> [] -> (forall x, In x a -> x = c) -> dev_pow_sum 2 a = 0.
Proof.
  intros Hne Hc. unfold dev_pow_sum.
  assert (Hmean : rmean a = c).
  { unfold rmean, len. rewrite (sum_constant c a Hc).
    field. destruct a; [congruence|apply INR_length_nonzero]. }
  rewrite Hmean.
  rewrite (sum_constant 0 (map (fun x => (x - c) ^ 2) a)); [lra|].
  intros v Hv. apply in_map_iff in Hv. destruct Hv as (x & <- & Hx).
  rewrite (Hc x Hx). lra.
Qed.

Lemma central_moment_dev (p : nat) (a : list R) :
  Spec.central_moment p a = dev_pow_sum p a / INR (length a).
Proof. reflexivity. Qed.

Lemma rvar_0_central (a : list R) : rvar 0 a = Spec.central_moment 2 a.
Proof.
  unfold rvar. rewrite Nat.sub_0_r. reflexivity. 
Qed.

Lemma central_moment_2_nonneg (a : list R) : 0 <= Spec.central_moment 2 a.
Proof.
  rewrite central_moment_dev.
  destruct a as [|x a].
  - cbn. unfold dev_pow_sum. cbn. lra.
  - apply Rmult_le_pos; [apply dev_pow_sum_2_nonneg|].
    left. apply Rinv_0_lt_compat. apply lt_0_INR. cbn. lia.
Qed.

(** Zero variance means that all samples are equal. *)
Lemma zero_variance_iff (a : list R) :
  Spec.zero_variance a <-> a <> [] /\ forall x y, In x a -> In y a -> x = y.
Proof.
  unfold Spec.zero_variance. rewrite central_moment_dev. split.
  - intros [Hne H0]. split; [assumption|]. intros x y Hx Hy.
    destruct (Req_dec x y) as [|Hxy]; [assumption|exfalso].
    pose proof (dev_pow_sum_2_pos a x y Hx Hy Hxy) as Hpos.
    assert (0 < INR (length a)) by (apply lt_0_INR; destruct a; [congruence|cbn; lia]).
    assert (0 < dev_pow_sum 2 a / INR (length a)) by (apply Rdiv_lt_0_compat; assumption).
    lra.
  - intros [Hne Heq]. split; [assumption|].
    destruct a as [|c a]; [congruence|].
    rewrite (dev_pow_sum_2_constant c); [unfold Rdiv; lra|assumption|].
    intros x Hx. apply Heq; [assumption|left; reflexivity].
Qed.

Lemma existsb_isnan (arr : list pyfloat) :
  existsb isnan arr = true <-> In NaN arr.
Proof.
  rewrite existsb_exists. split.
  - intros ([| |] & Hin & H); try discriminate. assumption.
  - intros H. exists NaN. split; [assumption|reflexivity].
Qed.

Lemma existsb_isinf (arr : list pyfloat) :
  existsb isinf arr = true <-> exists negative, In (Inf negative) arr.
Proof.
  rewrite existsb_exists. split.
  - intros ([|s|] & Hin & H); try discriminate. eauto.
  - intros [s H]. exists (Inf s). split; [assumption|reflexivity].
Qed.

Lemma std_is_zero_iff (arr : list pyfloat) :
  Train.std_is_zero arr = true <-> Spec.zero_variance (finite_part arr).
Proof.
  unfold Train.std_is_zero, Np.std, Spec.zero_variance.
  destruct (finite_part arr) as [|x a] eqn:E.
  - split; [discriminate|]. intros [H _]. congruence.
  - rewrite rvar_0_central.
    pose proof (central_moment_2_nonneg (x :: a)) as Hnn.
    destruct (Reqb_spec (sqrt (Spec.central_moment 2 (x :: a))) 0) as [H0|H0].
    + split; [|reflexivity]. intros _. split; [discriminate|].
      apply sqrt_eq_0; assumption.
    + split; [discriminate|]. intros [_ Hz]. rewrite Hz, sqrt_0 in H0. congruence.
Qed.

(** Under the exact reading of the deviation test, the gate rejects
    exactly the slices the specification calls invalid. *)
Lemma valid_false_iff (arr : list pyfloat) :
  Train.valid arr = false <-> Spec.invalid_slice arr.
Proof.
  unfold Train.valid, Spec.invalid_slice.
  rewrite negb_false_iff, !orb_true_iff.
  rewrite existsb_isnan, existsb_isinf, std_is_zero_iff. tauto.
Qed.

Lemma valid_true_iff (arr : list pyfloat) :
  Train.valid arr = true <-> ~ Spec.invalid_slice arr.
Proof.
  rewrite <- valid_false_iff. destruct (Train.valid arr); split; congruence.
Qed.

End Variance.


(** ** The acceleration magnitude *)

Lemma broadcast2_same_length {A B C : Type} (f : A -> B -> C)
      (a : list A) (b : list B) :
  length a = length b ->
  broadcast2 f a b = Ok (map (fun p => f (fst p) (snd p)) (combine a b)).
Proof.
  intros H. unfold broadcast2. rewrite H, Nat.eqb_refl. reflexivity.
Qed.

Lemma magnitude_steps (ax ay az : list pyfloat) :
  length ax = length ay -> length ay = length az ->
  map fsqrt
      (map (fun p => Np.add (fst p) (snd p))
           (combine (map (fun p => Np.add (fst p) (snd p))
                         (combine (map square ax) (map square ay)))
                    (map square az)))
  = Spec.magnitude ax ay az.
Proof.
  revert ay az. induction ax as [|x ax IH]; intros [|y ay] [|z az] Hxy Hyz;
    try discriminate; [reflexivity|].
  cbn in Hxy, Hyz. unfold Spec.magnitude in *. cbn [map combine fst snd].
  f_equal. apply IH; congruence.
Qed.

Lemma magnitude_point_nonfinite (x y z : pyfloat) :
  isfinite x && isfinite y && isfinite z = false ->
  isfinite (fsqrt (Np.add (Np.add (square x) (square y)) (square z))) = false.
Proof.
  destruct x as [|[|]|x], y as [|[|]|y], z as [|[|]|z]; cbn;
    intros H; try reflexivity; discriminate.
Qed.

Lemma nonfinite_in (arr : list pyfloat) (v : pyfloat) :
  In v arr -> isfinite v = false ->
  In NaN arr \/ exists negative, In (Inf negative) arr.
Proof.
  destruct v as [|s|r]; intros Hin H; [left|right; exists s|discriminate];
    assumption.
Qed.

(** A NaN or an infinite sample on any axis makes the magnitude there NaN
    or infinite. *)
Lemma magnitude_point_in (ax ay az : list pyfloat) (v : pyfloat) :
  length ax = length ay -> length ay = length az ->
  In v ax \/ In v ay \/ In v az -> isfinite v = false ->
  exists m, In m (Spec.magnitude ax ay az) /\ isfinite m = false.
Proof.
  revert ay az.
  induction ax as [|x ax IH]; intros [|y ay] [|z az] Hxy Hyz Hin Hv;
    try discriminate.
  - cbn in Hin. tauto.
  - cbn in Hxy, Hyz.
    destruct (isfinite x && isfinite y && isfinite z) eqn:Hhead.
    + apply andb_prop in Hhead. destruct Hhead as [Hhead Hz].
      apply andb_prop in Hhead. destruct Hhead as [Hx Hy].
      destruct (IH ay az) as (m & Hm & Hf); [congruence|congruence| |exact Hv|].
      * cbn [In] in Hin.
        destruct Hin as [[->|H]|[[->|H]|[->|H]]]; try congruence; tauto.
      * exists m. split; [right; exact Hm|exact Hf].
    + eexists. split; [left; reflexivity|].
      cbn [fst snd]. apply magnitude_point_nonfinite. assumption.
Qed.

Lemma magnitude_nonfinite (ax ay az : list pyfloat) (v : pyfloat) :
  length ax = length ay -> length ay = length az ->
  In v ax \/ In v ay \/ In v az -> isfinite v = false ->
  Spec.invalid_slice (Spec.magnitude ax ay az).
Proof.
  intros Hxy Hyz Hin Hv.
  destruct (magnitude_point_in ax ay az v Hxy Hyz Hin Hv) as (m & Hm & Hf).
  unfold Spec.invalid_slice.
  destruct (nonfinite_in _ _ Hm Hf) as [H|H]; tauto.
Qed.

Lemma train_acc_gate (signals : dict (list pyfloat)) (start end_ : Z)
      (row0 : row) (cx cy cz : list pyfloat) :
  get signals "ACC_x" = Some cx ->
  get signals "ACC_y" = Some cy ->
  get signals "ACC_z" = Some cz ->
  let ax := slice cx start end_ in
  let ay := slice cy start end_ in
  let az := slice cz start end_ in
  length ax = length ay -> length ay = length az ->
  Train.acc_features signals start end_ row0
  = if Train.valid (Spec.magnitude ax ay az)
    then
      let mag := finite_part (Spec.magnitude ax ay az) in
      Train.Next
        (set (update row0 (prefixed "ACC_mag_" (Train.stats_dict mag)))
             "ACC_energy"
             (Np.div (sum (map (fun m => (m * m)%R) mag)) (len mag)))
    else Train.Continue.
Proof.
  intros Hx Hy Hz ax ay az Hxy Hyz.
  unfold Train.acc_features. rewrite Hx, Hy, Hz. fold ax ay az.
  rewrite broadcast2_same_length by (rewrite !length_map; assumption).
  cbn [Train.lift Train.flow_bind].
  rewrite broadcast2_same_length
    by (rewrite !length_map, length_combine, !length_map, Hxy, Nat.min_id; assumption).
  cbn [Train.lift Train.flow_bind].
  rewrite magnitude_steps by assumption.
  destruct (Train.valid _); reflexivity.
Qed.

(** ** Dropping windows *)

Lemma train_modality_inv (signals : dict (list pyfloat)) (sr start end_ : Z)
      (row4 : row) :
  Train.modality_features signals sr start end_ = Train.Next row4 ->
  exists row1 row2 row3,
    Train.eda_features signals sr start end_ [] = Train.Next row1
    /\ Train.temp_features signals start end_ row1 = Train.Next row2
    /\ Train.acc_features signals start end_ row2 = Train.Next row3
    /\ Train.bvp_features signals start end_ row3 = Train.Next row4.
Proof.
  unfold Train.modality_features. intros H. inv_flow H. eauto 10.
Qed.

Lemma train_eda_gate (signals : dict (list pyfloat)) (sr start end_ : Z)
      (row0 : row) (ch : list pyfloat) :
  get signals "EDA" = Some ch ->
  Train.valid (slice ch start end_) = false ->
  Train.eda_features signals sr start end_ row0 = Train.Continue.
Proof.
  intros Hg Hv. unfold Train.eda_features. rewrite Hg, Hv. reflexivity.
Qed.

Lemma train_temp_gate (signals : dict (list pyfloat)) (start end_ : Z)
      (row0 : row) (ch : list pyfloat) :
  get signals "TEMP" = Some ch ->
  Train.valid (slice ch start end_) = false ->
  Train.temp_features signals start end_ row0 = Train.Continue.
Proof.
  intros Hg Hv. unfold Train.temp_features. rewrite Hg, Hv. reflexivity.
Qed.

Lemma train_bvp_gate (signals : dict (list pyfloat)) (start end_ : Z)
      (row0 : row) (ch : list pyfloat) :
  get signals "BVP" = Some ch ->
  Train.valid (slice ch (start * 2) (end_ * 2)) = false ->
  Train.bvp_features signals start end_ row0 = Train.Continue.
Proof.
  intros Hg Hv. unfold Train.bvp_features. rewrite Hg, Hv. reflexivity.
Qed.





(** The same gate on doubles.  The double nearest to 0.1 repeated six
    times, or 192 times as in a window of [main], has the rounded mean
    [0.09999999999999999] and the deviation [2^-56]: the test
    [np.std(arr) == 0] is false and the flat slice passes.  A flat slice
    at 0.5, whose sums are exact, is rejected. *)
Lemma flat_slice_passes_gate :
  let tenth := Float64.true_divide 1 10 in
  let half := Float64.true_divide 1 2 in
  Np64.std (repeat tenth 6)
  = SpecFloat.S754_finite false 4503599627370496 (-108)
  /\ Train.valid_double (repeat tenth 6) = true
  /\ Train.valid_double (repeat tenth 192) = true
  /\ Train.valid_double (repeat half 6) = false.
Proof. vm_compute. repeat split. Qed.

(** ** Label alignment *)













(** ** Which keys a block writes *)

Lemma prefix_append (p s : string) : String.prefix p (String.append p s) = true.
Proof.
  induction p as [|c p IH]; cbn.
  - destruct s; reflexivity.
  - destruct (Ascii.ascii_dec c c) as [_|H]; [exact IH|congruence].
Qed.

Lemma eqb_prefix_false (p k key : string) :
  String.prefix p k = false -> String.prefix p key = true ->
  String.eqb k key = false.
Proof.
  intros Hk Hkey. destruct (String.eqb_spec k key) as [->|]; congruence.
Qed.

(** Look [k] up through [set]s of keys that carry a prefix [k] lacks. *)
Ltac get_other p Hk :=
  row_cbn;
  repeat (rewrite get_set;
          match goal with
          | |- context [String.eqb ?k ?key] =>
              rewrite (eqb_prefix_false p k key Hk (eq_refl true))
          end).

Lemma train_eda_preserves (signals : dict (list pyfloat)) (sr start end_ : Z)
      (row0 row1 : row) (k : string) :
  Train.eda_features signals sr start end_ row0 = Train.Next row1 ->
  String.prefix "EDA_" k = false ->
  get row1 k = get row0 k.
Proof.
  intros H Hk. unfold Train.eda_features in H.
  destruct (get signals "EDA"); [|injection H as <-; reflexivity].
  destruct (Train.valid _); cbn [negb] in H; [|discriminate].
  inv_flow H. injection H as <-.
  get_other "EDA_"%string Hk. reflexivity.
Qed.

Lemma train_temp_preserves (signals : dict (list pyfloat)) (start end_ : Z)
      (row0 row1 : row) (k : string) :
  Train.temp_features signals start end_ row0 = Train.Next row1 ->
  String.prefix "TEMP_" k = false ->
  get row1 k = get row0 k.
Proof.
  intros H Hk. unfold Train.temp_features in H.
  destruct (get signals "TEMP"); [|injection H as <-; reflexivity].
  destruct (Train.valid _); cbn [negb] in H; [|discriminate].
  inv_flow H. injection H as <-.
  get_other "TEMP_"%string Hk. reflexivity.
Qed.

Lemma train_acc_preserves (signals : dict (list pyfloat)) (start end_ : Z)
      (row0 row1 : row) (k : string) :
  Train.acc_features signals start end_ row0 = Train.Next row1 ->
  String.prefix "ACC_" k = false ->
  get row1 k = get row0 k.
Proof.
  intros H Hk. unfold Train.acc_features in H.
  destruct (get signals "ACC_x"); [|injection H as <-; reflexivity].
  destruct (get signals "ACC_y"); [|injection H as <-; reflexivity].
  destruct (get signals "ACC_z"); [|injection H as <-; reflexivity].
  inv_flow H.
  destruct (Train.valid _); cbn [negb] in H; [|discriminate].
  injection H as <-.
  get_other "ACC_"%string Hk. reflexivity.
Qed.

Lemma train_bvp_preserves (signals : dict (list pyfloat)) (start end_ : Z)
      (row0 row1 : row) (k : string) :
  Train.bvp_features signals start end_ row0 = Train.Next row1 ->
  String.prefix "BVP_" k = false -> String.prefix "HR" k = false ->
  get row1 k = get row0 k.
Proof.
  intros H Hk Hk'. unfold Train.bvp_features in H.
  destruct (get signals "BVP"); [|injection H as <-; reflexivity].
  destruct (Train.valid _); cbn [negb] in H; [|discriminate].
  inv_flow H. injection H as <-.
  destruct (train_hrv_shape x) as (h1 & h2 & h3 & h4 & h5 & h6 & h7 & ->).
  get_other "HR"%string Hk'. get_other "BVP_"%string Hk. reflexivity.
Qed.

(** The modality blocks never write the key [label]. *)
Lemma train_modality_no_label (signals : dict (list pyfloat)) (sr start end_ : Z)
      (row4 : row) :
  Train.modality_features signals sr start end_ = Train.Next row4 ->
  get row4 "label" = None.
Proof.
  intros H. apply train_modality_inv in H.
  destruct H as (row1 & row2 & row3 & He & Ht & Ha & Hb).
  rewrite (train_bvp_preserves _ _ _ _ _ _ Hb) by reflexivity.
  rewrite (train_acc_preserves _ _ _ _ _ _ Ha) by reflexivity.
  rewrite (train_temp_preserves _ _ _ _ _ _ Ht) by reflexivity.
  rewrite (train_eda_preserves _ _ _ _ _ _ _ He) by reflexivity.
  reflexivity.
Qed.

(** ** The loop over windows *)

(** What one window adds to the output. *)
Lemma loop_spec (signals : dict (list pyfloat)) (labels : list Z) (scale : Float64.float64)
      (sr : Z) (bounds : list (Z * Z)) (features out : list row) :
  Train.loop signals labels scale sr bounds features = Ok out ->
  out = features
        ++ flat_map
             (fun b =>
                match Train.window_features signals labels scale sr (fst b) (snd b) with
                | Train.Next r => if contains r "label" then [r] else []
                | _ => []
                end)
             bounds.
Proof.
  revert features. induction bounds as [|[start end_] bounds IH]; intros features H.
  - cbn in *. injection H as <-. rewrite app_nil_r. reflexivity.
  - cbn [Train.loop] in H. cbn [flat_map fst snd].
    destruct (Train.window_features signals labels scale sr start end_) as [r| |e].
    + apply IH in H. rewrite H.
      destruct (contains r "label"); [rewrite <- app_assoc|]; reflexivity.
    + apply IH in H. exact H.
    + discriminate.
Qed.



Lemma fold_left_min_in (ls : list Z) (l : Z) : In (fold_left Z.min ls l) (l :: ls).
Proof.
  revert l. induction ls as [|x ls IH]; intros l; cbn [fold_left].
  - left. reflexivity.
  - destruct (IH (Z.min l x)) as [H|H].
    + rewrite <- H. destruct (Z.min_spec l x) as [[_ ->]|[_ ->]];
        [left|right; left]; reflexivity.
    + right. right. assumption.
Qed.

Lemma min_length_nonneg (signals : dict (list pyfloat)) (n : Z) :
  Train.min_length signals = Ok n -> 0 <= n.
Proof.
  unfold Train.min_length.
  destruct (map _ signals) as [|l ls] eqn:E; [discriminate|].
  intros [= <-].
  pose proof (fold_left_min_in ls l) as Hin. rewrite <- E in Hin.
  apply in_map_iff in Hin. destruct Hin as (kv & <- & _). lia.
Qed.

Lemma train_extract_inv (signals : dict (list pyfloat)) (labels : list Z)
      (sr window_samples step_samples : Z) (rows : list row) :
  Train.extract_window_features signals labels sr window_samples step_samples
  = Ok rows ->
  exists N bounds,
    Train.min_length signals = Ok N /\ 0 < N
    /\ Train.window_bounds N window_samples step_samples = Ok bounds
    /\ Train.loop signals labels
         (Float64.true_divide (Z.of_nat (length labels)) N) sr bounds []
       = Ok rows.
Proof.
  unfold Train.extract_window_features. intros H.
  apply bind_ok in H. destruct H as (N & HN & H).
  destruct (Z.eqb_spec N 0) as [|Hne]; [discriminate|].
  apply bind_ok in H. destruct H as (bounds & Hb & H).
  pose proof (min_length_nonneg _ _ HN).
  exists N, bounds. repeat split; (assumption || lia).
Qed.




(** ** Band power *)

Section Bandpower.

Local Open Scope R_scope.

Lemma take_Forall {A : Type} (P : A -> Prop) (a : list A) (keep : list bool) :
  Forall P a -> Forall P (Scipy.take a keep).
Proof.
  intros H. revert keep. induction H as [|x a Hx _ IH]; intros keep.
  - reflexivity || constructor.
  - destruct keep as [|[|] keep]; unfold Scipy.take in *; cbn.
    + constructor.
    + constructor; [assumption|apply IH].
    + apply IH.
Qed.

Lemma take_sorted (a : list R) (keep : list bool) :
  StronglySorted Rle a -> StronglySorted Rle (Scipy.take a keep).
Proof.
  intros H. revert keep. induction H as [|x a _ IH Hx]; intros keep.
  - constructor.
  - destruct keep as [|[|] keep].
    + constructor.
    + change (Scipy.take (x :: a) (true :: keep)) with (x :: Scipy.take a keep).
      constructor; [apply IH|apply take_Forall; assumption].
    + change (Scipy.take (x :: a) (false :: keep)) with (Scipy.take a keep).
      apply IH.
Qed.

(** The trapezoidal rule over ascending abscissas and non-negative
    ordinates is non-negative. *)
Lemma trapezoid_nonneg (y x : list R) :
  Forall (fun v => 0 <= v) y -> StronglySorted Rle x -> 0 <= trapezoid y x.
Proof.
  revert x. induction y as [|y0 y IH]; intros x Hy Hx; [cbn; lra|].
  destruct y as [|y1 y]; [cbn; lra|].
  destruct x as [|x0 [|x1 x]]; [cbn; lra|cbn; lra|].
  change (trapezoid (y0 :: y1 :: y) (x0 :: x1 :: x))
    with ((x1 - x0) * (y0 + y1) / 2 + trapezoid (y1 :: y) (x1 :: x)).
  apply StronglySorted_inv in Hx. destruct Hx as [Hx Hx0].
  inversion Hy as [|? ? Hy0 Hy']; subst.
  specialize (IH (x1 :: x) Hy' Hx).
  inversion Hy' as [|? ? Hy1 _]; subst.
  inversion Hx0 as [|? ? Hle _]; subst.
  assert (0 <= (x1 - x0) * (y0 + y1)) by (apply Rmult_le_pos; lra).
  lra.
Qed.

Lemma map_seq_sorted (f : nat -> R) (a k : nat) :
  (forall i j, (i <= j)%nat -> f i <= f j) ->
  StronglySorted Rle (map f (seq a k)).
Proof.
  intros Hmono. revert a. induction k as [|k IH]; intros a; cbn.
  - constructor.
  - constructor; [apply IH|].
    apply Forall_map, Forall_forall. intros j Hj.
    apply in_seq in Hj. apply Hmono. lia.
Qed.

Lemma Rinv_INR_nonneg (n : nat) : 0 <= / INR n.
Proof.
  destruct n as [|n].
  - cbn. rewrite Rinv_0. lra.
  - left. apply Rinv_0_lt_compat, lt_0_INR. lia.
Qed.

(** The frequency bins [k * fs / n] ascend. *)
Lemma rfftfreq_sorted (n : nat) (fs : R) :
  0 < fs -> StronglySorted Rle (Scipy.rfftfreq n fs).
Proof.
  intros Hfs. unfold Scipy.rfftfreq. apply map_seq_sorted.
  intros i j Hij. apply le_INR in Hij.
  pose proof (Rinv_INR_nonneg n). unfold Rdiv.
  apply Rmult_le_compat_r; [assumption|].
  apply Rmult_le_compat_r; lra.
Qed.

Lemma onesided_factor_nonneg (n k : nat) : 0 <= Scipy.onesided_factor n k.
Proof.
  unfold Scipy.onesided_factor.
  destruct (Nat.eqb k 0); [lra|]. destruct (_ && _); lra.
Qed.

Lemma sum_squares_nonneg (w : list R) : 0 <= sum (map (fun v => v * v) w).
Proof.
  apply sum_nonneg, Forall_map, Forall_forall. intros v _. nra.
Qed.

(** Every value of the spectral density estimate is non-negative. *)
Lemma welch_psd_nonneg (x : list R) (fs : R) :
  0 < fs -> Forall (fun v => 0 <= v) (snd (Scipy.welch x fs)).
Proof.
  intros Hfs. unfold Scipy.welch. destruct x as [|x0 x]; [constructor|].
  cbn [snd]. apply Forall_map, Forall_forall. intros k _.
  apply Rmult_le_pos; [apply onesided_factor_nonneg|].
  apply Rmult_le_pos; [nra|].
  set (S := sum (map (fun v => v * v) (Scipy.hann (length (x0 :: x))))).
  assert (HS : 0 <= S) by apply sum_squares_nonneg.
  destruct (Req_dec (fs * S) 0) as [->|Hne].
  - unfold Rdiv. rewrite Rinv_0. lra.
  - assert (0 < fs * S) by nra.
    apply Rlt_le, Rdiv_lt_0_compat; lra.
Qed.

Lemma welch_freqs (x : list R) (fs : R) :
  fst (Scipy.welch x fs)
  = match x with [] => [] | _ => Scipy.rfftfreq (length x) fs end.
Proof. destruct x; reflexivity. Qed.

Lemma welch_freqs_sorted (x : list R) (fs : R) :
  0 < fs -> StronglySorted Rle (fst (Scipy.welch x fs)).
Proof.
  intros Hfs. rewrite welch_freqs. destruct x; [constructor|].
  apply rfftfreq_sorted. assumption.
Qed.

Lemma bandpower_same (x : list R) (fs low high : R) :
  Api.bandpower x fs low high = Train.bandpower x fs low high.
Proof. reflexivity. Qed.

Lemma train_bandpower_ge_0 (x : list R) (fs low high : R) :
  0 < fs -> 0 <= Train.bandpower x fs low high.
Proof.
  intros Hfs. unfold Train.bandpower.
  pose proof (welch_psd_nonneg x fs Hfs) as Hpsd.
  pose proof (welch_freqs_sorted x fs Hfs) as Hfreqs.
  destruct (Scipy.welch x fs) as [freqs psd]. cbn [fst snd] in *.
  destruct (negb _); [lra|].
  apply trapezoid_nonneg; [apply take_Forall|apply take_sorted]; assumption.
Qed.

Lemma train_bandpower_empty_band (x : list R) (fs low high : R) :
  (forall f, In f (fst (Scipy.welch x fs)) -> ~ (low <= f <= high)) ->
  Train.bandpower x fs low high = 0.
Proof.
  intros Hnone. unfold Train.bandpower.
  destruct (Scipy.welch x fs) as [freqs psd]. cbn [fst] in Hnone.
  replace (existsb (fun b : bool => b)
                   (map (fun f => Rleb low f && Rleb f high) freqs))
    with false; [reflexivity|].
  symmetry. apply not_true_is_false. intros H.
  apply existsb_exists in H. destruct H as (b & Hin & ->).
  apply in_map_iff in Hin. destruct Hin as (f & Hf & Hin).
  apply andb_prop in Hf. destruct Hf as [H1 H2].
  apply (Hnone f Hin).
  destruct (Rleb_spec low f); [|discriminate].
  destruct (Rleb_spec f high); [|discriminate]. lra.
Qed.

End Bandpower.

(** Claim C6.  For a positive sample rate, every input array and every
    band, [bandpower] returns a value [>= 0] in both scripts, and exactly
    0 when no frequency bin [f] of the spectral estimate satisfies
    [low <= f <= high]. *)
Theorem bandpower_nonneg (x : list R) (fs low high : R) :
  (0 < fs)%R ->
  (0 <= Train.bandpower x fs low high)%R
  /\ (0 <= Api.bandpower x fs low high)%R
  /\ ((forall f, In f (fst (Scipy.welch x fs)) -> ~ (low <= f <= high)%R) ->
      Train.bandpower x fs low high = 0%R
      /\ Api.bandpower x fs low high = 0%R).
Proof.
  intros Hfs. repeat split.
  - apply train_bandpower_ge_0. assumption.
  - rewrite bandpower_same. apply train_bandpower_ge_0. assumption.
  - apply train_bandpower_empty_band. assumption.
  - rewrite bandpower_same. apply train_bandpower_empty_band. assumption.
Qed.

Lemma bandpower_nonneg_witness :
  let x := [1; 2; 4; 3]%R in
  (0 <= Train.bandpower x 32 0.01 0.1)%R
  /\ (0 <= Api.bandpower x 32 0.01 0.1)%R
  /\ ((forall f, In f (fst (Scipy.welch x 32)) -> ~ (0.01 <= f <= 0.1)%R) ->
      Train.bandpower x 32 0.01 0.1 = 0%R
      /\ Api.bandpower x 32 0.01 0.1 = 0%R).
Proof.
  intros x. apply (bandpower_nonneg x 32 0.01 0.1). lra.
Defined.

(** ** Summary statistics *)

Section Statistics.

Local Open Scope R_scope.

Lemma INR_length_ge (a : list R) (k : nat) :
  (k <= length a)%nat -> INR k <= INR (length a).
Proof. apply le_INR. Qed.

Lemma central_moment_2_pos (a : list R) :
  a <> [] -> Spec.central_moment 2 a <> 0 -> 0 < dev_pow_sum 2 a.
Proof.
  intros Hne Hm.
  destruct (Rle_lt_or_eq_dec _ _ (dev_pow_sum_2_nonneg a)) as [H|H]; [assumption|].
  exfalso. apply Hm. rewrite central_moment_dev, <- H. unfold Rdiv. lra.
Qed.

(** [Series.mean()] is the arithmetic mean. *)
Lemma pandas_mean_average (a : list R) :
  a <> [] -> Pandas.mean a = Fin (Spec.average a).
Proof. destruct a; [congruence|reflexivity]. Qed.

(** [Series.std()] divides by [n - 1]. *)
Lemma pandas_std_sample (a : list R) :
  (2 <= length a)%nat -> Pandas.std a = Fin (Spec.sample_std a).
Proof.
  intros Hlen. unfold Pandas.std, Spec.sample_std, rvar.
  destruct (Nat.leb_spec (length a) 1) as [|_]; [lia|].
  rewrite minus_INR by lia. reflexivity.
Qed.

(** [np.std] divides by [n]. *)
Lemma numpy_std_population (a : list R) :
  a <> [] -> Np.std a = Fin (Spec.population_std a).
Proof.
  intros Hne. unfold Np.std, Spec.population_std.
  destruct a; [congruence|]. rewrite rvar_0_central. reflexivity.
Qed.

(** [scipy.stats.skew] and [kurtosis] are the uncorrected [g1], [g2]. *)
Lemma scipy_skew_biased (a : list R) :
  a <> [] -> Spec.central_moment 2 a <> 0 -> Scipy.skew a = Fin (Spec.g1 a).
Proof.
  intros Hne Hm2. unfold Scipy.skew, Spec.g1.
  destruct a; [congruence|].
  change (Scipy.moment 2 (r :: a)) with (Spec.central_moment 2 (r :: a)).
  change (Scipy.moment 3 (r :: a)) with (Spec.central_moment 3 (r :: a)).
  cbv zeta. rewrite Reqb_false by assumption. reflexivity.
Qed.

Lemma scipy_kurtosis_biased (a : list R) :
  a <> [] -> Spec.central_moment 2 a <> 0 -> Scipy.kurtosis a = Fin (Spec.g2 a).
Proof.
  intros Hne Hm2. unfold Scipy.kurtosis, Spec.g2.
  destruct a; [congruence|].
  change (Scipy.moment 2 (r :: a)) with (Spec.central_moment 2 (r :: a)).
  change (Scipy.moment 4 (r :: a)) with (Spec.central_moment 4 (r :: a)).
  cbv zeta. rewrite Reqb_false by assumption. f_equal. field. assumption.
Qed.

End Statistics.

(** The sample [0, 1, 2, 3]. *)
Lemma ramp_average : Spec.average [0; 1; 2; 3]%R = (3 / 2)%R.
Proof. unfold Spec.average, sum. cbn. field. Qed.

Lemma ramp_squares :
  sum (map (fun x => (x - Spec.average [0; 1; 2; 3]) ^ 2) [0; 1; 2; 3])%R = 5%R.
Proof. rewrite ramp_average. unfold sum. cbn. field. Qed.

Lemma ramp_central_moment_2 : Spec.central_moment 2 [0; 1; 2; 3]%R = (5 / 4)%R.
Proof.
  unfold Spec.central_moment. rewrite ramp_squares. cbn. field.
Qed.

Lemma ramp_sample_std : Spec.sample_std [0; 1; 2; 3]%R = sqrt (5 / 3).
Proof.
  unfold Spec.sample_std. rewrite ramp_squares. f_equal. cbn. field.
Qed.

Lemma ramp_population_std : Spec.population_std [0; 1; 2; 3]%R = sqrt (5 / 4).
Proof. unfold Spec.population_std. rewrite ramp_central_moment_2. reflexivity. Qed.

Lemma ramp_std_differ :
  Spec.sample_std [0; 1; 2; 3]%R <> Spec.population_std [0; 1; 2; 3]%R.
Proof.
  rewrite ramp_sample_std, ramp_population_std. intros H.
  apply sqrt_inj in H; lra.
Qed.

(** ** When a window does yield a row *)

Lemma finite_part_reals (a : list R) : finite_part (map Fin a) = a.
Proof.
  induction a as [|x a IH]; [reflexivity|]. cbn. f_equal. exact IH.
Qed.

Lemma in_finite_part (arr : list pyfloat) (x : R) :
  In (Fin x) arr -> In x (finite_part arr).
Proof.
  intros H. unfold finite_part. apply in_flat_map.
  exists (Fin x). split; [assumption|left; reflexivity].
Qed.

(** Finite samples that are not all equal pass the gate. *)
Lemma valid_reals (a : list R) (x y : R) :
  In x a -> In y a -> x <> y -> Train.valid (map Fin a) = true.
Proof.
  intros Hx Hy Hxy. apply valid_true_iff. intros [H|[[s H]|H]].
  - apply in_map_iff in H. destruct H as (? & ? & _). discriminate.
  - apply in_map_iff in H. destruct H as (? & ? & _). discriminate.
  - rewrite finite_part_reals in H. apply zero_variance_iff in H.
    destruct H as [_ H]. apply Hxy, H; assumption.
Qed.

Lemma valid_all_finite (arr : list pyfloat) :
  Train.valid arr = true -> length (finite_part arr) = length arr.
Proof.
  intros H. apply valid_true_iff in H.
  induction arr as [|v arr IH]; [reflexivity|].
  destruct v as [|s|r].
  - exfalso. apply H. left. left. reflexivity.
  - exfalso. apply H. right. left. exists s. left. reflexivity.
  - cbn. f_equal.
    assert (Hfin : forall w, In w arr -> isfinite w = true).
    { intros [|s|r'] Hw; [| |reflexivity]; exfalso; apply H.
      - left. right. assumption.
      - right. left. exists s. right. assumption. }
    clear IH H. induction arr as [|w arr IH]; [reflexivity|].
    pose proof (Hfin w (or_introl eq_refl)) as Hw.
    destruct w; try discriminate. cbn. f_equal.
    apply IH. intros u Hu. apply Hfin. right. assumption.
Qed.

Lemma find_peaks_ok (x : list R) (distance : Z) :
  1 <= distance -> exists peaks, Scipy.find_peaks x distance = Ok peaks.
Proof.
  intros H. unfold Scipy.find_peaks.
  destruct (Z.ltb_spec distance 1); [lia|]. eauto.
Qed.

Lemma half_rate_distance (sr : Z) : 2 <= sr -> 1 <= py_int (inject_Z sr * (5 # 10)).
Proof.
  intros H. unfold py_int, Qmult, inject_Z. cbn [Qnum Qden].
  apply Z.quot_le_lower_bound; lia.
Qed.

Lemma guarded_ratio_ok (lf hf : R) :
  exists v, (if Rltb 0 hf then py_truediv lf hf else Ok 0%R) = Ok v.
Proof.
  destruct (Rltb_spec 0 hf) as [H|H]; [|eauto].
  unfold py_truediv. rewrite Reqb_false by lra. eauto.
Qed.

Lemma truthy_ratio_ok (lf hf : R) :
  exists v, (if negb (Reqb hf 0) then py_truediv lf hf else Ok 0%R) = Ok v.
Proof.
  unfold py_truediv. destruct (Reqb hf 0); cbn [negb]; eauto.
Qed.

Lemma index_first_ok {A : Type} (a : list A) :
  a <> [] -> exists v, index a 0 = Ok v.
Proof.
  destruct a as [|x a]; [congruence|]. intros _. exists x.
  unfold index. cbn [length]. 
  destruct (Z.ltb_spec 0 0); [lia|].
  destruct (Z.leb_spec (Z.of_nat (S (length a))) 0); [lia|]. reflexivity.
Qed.

Lemma index_last_ok {A : Type} (a : list A) :
  a <> [] -> exists v, index a (-1) = Ok v.
Proof.
  intros Hne. unfold index.
  assert (0 < Z.of_nat (length a)) by (destruct a; [congruence|cbn; lia]).
  destruct (Z.ltb_spec (-1) 0); [|lia].
  destruct (Z.ltb_spec (-1 + Z.of_nat (length a)) 0); [lia|].
  destruct (Z.leb_spec (Z.of_nat (length a)) (-1 + Z.of_nat (length a))); [lia|].
  cbn [orb].
  destruct (nth_error a (Z.to_nat (-1 + Z.of_nat (length a)))) eqn:E; [eauto|].
  apply nth_error_None in E. lia.
Qed.

Lemma train_eda_next (signals : dict (list pyfloat)) (sr start end_ : Z)
      (row0 : row) (ch : list pyfloat) :
  get signals "EDA" = Some ch ->
  Train.valid (slice ch start end_) = true ->
  2 <= sr ->
  exists row1, Train.eda_features signals sr start end_ row0 = Train.Next row1.
Proof.
  intros Hg Hv Hsr. unfold Train.eda_features. rewrite Hg, Hv. cbn [negb].
  destruct (find_peaks_ok (finite_part (slice ch start end_)) _
              (half_rate_distance sr Hsr)) as [peaks ->].
  cbn [Train.lift Train.flow_bind].
  match goal with
  | |- context [Train.lift (if Rltb 0 ?hf then py_truediv ?lf ?hf else _)] =>
      destruct (guarded_ratio_ok lf hf) as [v ->]
  end.
  cbn [Train.lift Train.flow_bind]. eauto.
Qed.

Lemma train_temp_next (signals : dict (list pyfloat)) (start end_ : Z)
      (row0 : row) (ch : list pyfloat) :
  get signals "TEMP" = Some ch ->
  Train.valid (slice ch start end_) = true ->
  slice ch start end_ <> [] ->
  exists row1, Train.temp_features signals start end_ row0 = Train.Next row1.
Proof.
  intros Hg Hv Hne. unfold Train.temp_features. rewrite Hg, Hv. cbn [negb].
  assert (Hfp : finite_part (slice ch start end_) <> []).
  { pose proof (valid_all_finite _ Hv) as Hlen.
    destruct (finite_part (slice ch start end_)); [|discriminate].
    destruct (slice ch start end_); [congruence|discriminate]. }
  destruct (index_last_ok _ Hfp) as [last ->].
  destruct (index_first_ok _ Hfp) as [first ->].
  cbn [Train.lift Train.flow_bind]. eauto.
Qed.

Lemma train_bvp_next (signals : dict (list pyfloat)) (start end_ : Z)
      (row0 : row) (ch : list pyfloat) :
  get signals "BVP" = Some ch ->
  Train.valid (slice ch (start * 2) (end_ * 2)) = true ->
  exists row1, Train.bvp_features signals start end_ row0 = Train.Next row1.
Proof.
  intros Hg Hv. unfold Train.bvp_features. rewrite Hg, Hv. cbn [negb].
  destruct (find_peaks_ok (finite_part (slice ch (start * 2) (end_ * 2))) 19)
    as [peaks Hp]; [lia|].
  change (py_int (inject_Z Train.DEFAULT_BVP_SR * (3 # 10))) with 19.
  rewrite Hp. cbn [Train.lift Train.flow_bind]. eauto.
Qed.

(** A window whose four gates pass yields a row (for a base rate of at
    least 2 Hz and a non-empty window inside all channels). *)
Lemma train_modality_next (signals : dict (list pyfloat)) (sr start end_ : Z)
      (ce ct cx cy cz cb : list pyfloat) :
  get signals "EDA" = Some ce -> get signals "TEMP" = Some ct ->
  get signals "ACC_x" = Some cx -> get signals "ACC_y" = Some cy ->
  get signals "ACC_z" = Some cz -> get signals "BVP" = Some cb ->
  2 <= sr ->
  Train.valid (slice ce start end_) = true ->
  Train.valid (slice ct start end_) = true ->
  slice ct start end_ <> [] ->
  length (slice cx start end_) = length (slice cy start end_) ->
  length (slice cy start end_) = length (slice cz start end_) ->
  Train.valid (Spec.magnitude (slice cx start end_) (slice cy start end_)
                              (slice cz start end_)) = true ->
  Train.valid (slice cb (start * 2) (end_ * 2)) = true ->
  exists row4, Train.modality_features signals sr start end_ = Train.Next row4.
Proof.
  intros He Ht Hx Hy Hz Hb Hsr Ve Vt Hne Hxy Hyz Va Vb.
  unfold Train.modality_features.
  destruct (train_eda_next signals sr start end_ [] ce He Ve Hsr) as [row1 ->].
  cbn [Train.flow_bind].
  destruct (train_temp_next signals start end_ row1 ct Ht Vt Hne) as [row2 ->].
  cbn [Train.flow_bind].
  rewrite (train_acc_gate signals start end_ row2 cx cy cz Hx Hy Hz Hxy Hyz), Va.
  cbn [Train.flow_bind].
  apply (train_bvp_next signals start end_ _ cb Hb Vb).
Qed.

Lemma magnitude_of_reals (rx ry rz : list R) :
  Spec.magnitude (map Fin rx) (map Fin ry) (map Fin rz)
  = map Fin
        (map (fun p => sqrt (fst (fst p) * fst (fst p)
                             + snd (fst p) * snd (fst p)
                             + snd p * snd p)%R)
             (combine (combine rx ry) rz)).
Proof.
  unfold Spec.magnitude. revert ry rz.
  induction rx as [|x rx IH]; intros [|y ry] [|z rz]; try reflexivity.
  cbn [map combine fst snd]. f_equal; [|apply IH].
  cbn [square Np.add fsqrt]. rewrite Rltb_false by nra. reflexivity.
Qed.

(** ** Signals without peaks *)

Lemma plateau_end_bounds (fuel : nat) (x : list R) (i_max i : nat) (xi : R) :
  (i <= Scipy.plateau_end fuel x i_max i xi)%nat
  /\ (Scipy.plateau_end fuel x i_max i xi <= Nat.max i i_max)%nat.
Proof.
  revert i. induction fuel as [|fuel IH]; intros i; cbn [Scipy.plateau_end].
  - lia.
  - destruct (Nat.ltb_spec i i_max) as [Hlt|Hge]; cbn [andb]; [|lia].
    destruct (Reqb _ _); [|lia].
    specialize (IH (S i)). lia.
Qed.

(** A signal that never decreases has no local maximum. *)
Lemma local_maxima_monotone (x : list R) :
  (forall i j, (i <= j)%nat -> (j < length x)%nat ->
               (nth i x 0 <= nth j x 0)%R) ->
  Scipy.local_maxima x = [].
Proof.
  intros Hmono. unfold Scipy.local_maxima.
  generalize (length x) at 1. intros fuel. generalize 1%nat at 2. 
  induction fuel as [|fuel IH]; intros i; [reflexivity|].
  cbn [Scipy.local_maxima_from].
  destruct (Nat.ltb_spec i (length x - 1)) as [Hlt|Hge]; [|reflexivity].
  destruct (Rltb _ _); [|apply IH].
  cbv zeta.
  pose proof (plateau_end_bounds fuel x (length x - 1) (i + 1) (nth i x 0%R))
    as [Hlo Hhi].
  rewrite Rltb_false; [apply IH|].
  apply Hmono; lia.
Qed.

Lemma sorted_nth (x : list R) :
  StronglySorted Rle x ->
  forall i j, (i <= j)%nat -> (j < length x)%nat -> (nth i x 0 <= nth j x 0)%R.
Proof.
  induction 1 as [|v x Hs IH Hv]; intros i j Hij Hj; [cbn in Hj; lia|].
  destruct j as [|j].
  - replace i with O by lia. cbn. lra.
  - destruct i as [|i].
    + cbn [nth]. rewrite Forall_forall in Hv. apply Hv, nth_In. cbn in Hj. lia.
    + cbn [nth]. apply IH; [lia|cbn in Hj; lia].
Qed.

Lemma find_peaks_sorted (x : list R) (distance : Z) :
  1 <= distance -> StronglySorted Rle x -> Scipy.find_peaks x distance = Ok [].
Proof.
  intros Hd Hs. unfold Scipy.find_peaks.
  destruct (Z.ltb_spec distance 1); [lia|].
  rewrite (local_maxima_monotone x (sorted_nth x Hs)). reflexivity.
Qed.

(** ** When the serving path yields a row *)

Lemma api_summary_ok (prefix : string) (a : list R) (row0 : row) :
  a <> [] -> exists row1, Api.summary prefix a row0 = Ok row1.
Proof.
  destruct a as [|x a]; [congruence|]. intros _.
  unfold Api.summary. cbn [Np.min Np.max bind]. eauto.
Qed.

(** The serving path returns a row whenever the six arrays are present
    and non-empty and the three axes have one length. *)
Lemma api_extract_total (signals : dict (list R))
      (eda temp ax ay az bvp : list R) :
  get signals "EDA" = Some eda -> get signals "TEMP" = Some temp ->
  get signals "ACC_x" = Some ax -> get signals "ACC_y" = Some ay ->
  get signals "ACC_z" = Some az -> get signals "BVP" = Some bvp ->
  eda <> [] -> temp <> [] -> ax <> [] -> bvp <> [] ->
  length ax = length ay -> length ay = length az ->
  exists r, Api.extract_features_window signals = Ok r.
Proof.
  intros He Ht Hx Hy Hz Hb Ne Nt Nx Nb Hxy Hyz.
  unfold Api.extract_features_window.
  (* EDA *)
  unfold Api.eda_features, getitem. rewrite He. cbn [bind].
  destruct (api_summary_ok "EDA_" eda [] Ne) as [row1 ->]. cbn [bind].
  destruct (find_peaks_ok eda 16) as [peaks ->]; [lia|]. cbn [bind].
  match goal with
  | |- context [bind (if negb (Reqb ?hf 0) then py_truediv ?lf ?hf else _)] =>
      destruct (truthy_ratio_ok lf hf) as [v ->]
  end.
  cbn [bind].
  (* TEMP *)
  unfold Api.temp_features, getitem. rewrite Ht. cbn [bind].
  match goal with
  | |- context [Api.summary "TEMP_" temp ?r] =>
      destruct (api_summary_ok "TEMP_" temp r Nt) as [row2 ->]
  end.
  cbn [bind].
  destruct (index_last_ok temp Nt) as [last ->].
  destruct (index_first_ok temp Nt) as [first ->]. cbn [bind].
  unfold py_truediv at 1. unfold len.
  rewrite Reqb_false
    by (destruct temp; [congruence|apply INR_length_nonzero]).
  cbn [bind].
  (* ACC *)
  unfold Api.acc_features, getitem. rewrite Hx, Hy, Hz. cbn [bind].
  rewrite broadcast2_same_length by (rewrite !length_map; assumption).
  cbn [bind].
  rewrite broadcast2_same_length
    by (rewrite !length_map, length_combine, !length_map, Hxy, Nat.min_id;
        assumption).
  cbn [bind].
  match goal with
  | |- context [Api.summary "ACC_mag_" ?mag ?r] =>
      destruct (api_summary_ok "ACC_mag_" mag r) as [row3 ->]
  end.
  { destruct ax as [|x ax]; [congruence|].
    destruct ay as [|y ay]; [discriminate|].
    destruct az as [|z az]; [discriminate|]. discriminate. }
  cbn [bind].
  (* BVP *)
  unfold Api.bvp_features, getitem. rewrite Hb. cbn [bind].
  match goal with
  | |- context [Api.summary "BVP_" bvp ?r] =>
      destruct (api_summary_ok "BVP_" bvp r Nb) as [row4 ->]
  end.
  cbn [bind].
  destruct (find_peaks_ok bvp 20) as [peaks' ->]; [lia|]. cbn [bind].
  apply api_hrv_features_total.
Qed.


(** ** Column names *)

Lemma keys_set_fresh {V : Type} (d : dict V) (k : string) (v : V) :
  get d k = None -> keys (set d k v) = (keys d ++ [k])%list.
Proof.
  induction d as [|[k0 v0] d IH]; cbn; [reflexivity|].
  destruct (String.eqb_spec k k0) as [->|Hk]; [discriminate|].
  intros H. cbn. f_equal. apply IH. exact H.
Qed.

Lemma train_modality_keys (signals : dict (list pyfloat)) (sr start end_ : Z)
      (ce ct cx cy cz cb : list pyfloat) (row4 : row) :
  get signals "EDA" = Some ce -> get signals "TEMP" = Some ct ->
  get signals "ACC_x" = Some cx -> get signals "ACC_y" = Some cy ->
  get signals "ACC_z" = Some cz -> get signals "BVP" = Some cb ->
  Train.modality_features signals sr start end_ = Train.Next row4 ->
  keys row4 = tl Spec.schema.
Proof.
  intros He Ht Hx Hy Hz Hb H.
  apply train_modality_inv in H.
  destruct H as (row1 & row2 & row3 & H1 & H2 & H3 & H4).
  unfold Train.eda_features in H1. rewrite He in H1.
  destruct (Train.valid _) in H1; cbn [negb] in H1; [|discriminate].
  inv_flow H1. injection H1 as <-.
  unfold Train.temp_features in H2. rewrite Ht in H2.
  destruct (Train.valid _) in H2; cbn [negb] in H2; [|discriminate].
  inv_flow H2. injection H2 as <-.
  unfold Train.acc_features in H3. rewrite Hx, Hy, Hz in H3. inv_flow H3.
  destruct (Train.valid _) in H3; cbn [negb] in H3; [|discriminate].
  injection H3 as <-.
  unfold Train.bvp_features in H4. rewrite Hb in H4.
  destruct (Train.valid _) in H4; cbn [negb] in H4; [|discriminate].
  inv_flow H4. injection H4 as <-.
  match goal with
  | |- context [Train.hrv ?p] =>
      destruct (train_hrv_shape p) as (h1 & h2 & h3 & h4 & h5 & h6 & h7 & ->)
  end.
  row_cbn. reflexivity.
Qed.

Lemma train_window_keys (signals : dict (list pyfloat)) (labels : list Z)
      (scale : Float64.float64) (sr start end_ : Z)
      (ce ct cx cy cz cb : list pyfloat) (r : row) :
  get signals "EDA" = Some ce -> get signals "TEMP" = Some ct ->
  get signals "ACC_x" = Some cx -> get signals "ACC_y" = Some cy ->
  get signals "ACC_z" = Some cz -> get signals "BVP" = Some cb ->
  Train.window_features signals labels scale sr start end_ = Train.Next r ->
  contains r "label" = true ->
  keys r = (tl Spec.schema ++ ["label"%string])%list.
Proof.
  intros He Ht Hx Hy Hz Hb H Hl.
  apply train_window_inv in H. destruct H as (_ & row4 & _ & Hm & Ha).
  pose proof (train_modality_no_label _ _ _ _ _ Hm) as Hnone.
  pose proof (train_modality_keys _ _ _ _ _ _ _ _ _ _ _ He Ht Hx Hy Hz Hb Hm) as Hk.
  rewrite align_label_eq in Ha. injection Ha as <-.
  destruct (Train.label_slice _ _ _ _) as [|v rest].
  - unfold contains in Hl. rewrite Hnone in Hl. discriminate.
  - cbv zeta in *.
    match type of Hl with
    | context [if ?c then _ else _] => destruct c
    end.
    + rewrite keys_set_fresh by assumption. rewrite Hk. reflexivity.
    + unfold contains in Hl. rewrite Hnone in Hl. discriminate.
Qed.

Lemma api_summary_shape (p : string) (a : list R) (row0 r : row) :
  Api.summary p a row0 = Ok r ->
  exists lo hi,
    r = set (set (set (set (set (set (set row0
          (String.append p "mean") (Np.mean a))
          (String.append p "std") (Np.std a))
          (String.append p "min") (Fin lo))
          (String.append p "max") (Fin hi))
          (String.append p "median") (Np.median a))
          (String.append p "skew") (Scipy.skew a))
          (String.append p "kurt") (Scipy.kurtosis a).
Proof.
  unfold Api.summary. intros H. inv_bind H. injection H as <-. eauto.
Qed.

(** Unfold a successful run of the serving path into the chain of [set]s
    that built the row. *)
Ltac api_invert H :=
  unfold Api.extract_features_window in H; inv_bind H;
  match goal with
  | E : Api.eda_features _ _ = Ok _ |- _ => unfold Api.eda_features in E; inv_bind E
  end;
  match goal with
  | E : Api.temp_features _ _ = Ok _ |- _ => unfold Api.temp_features in E; inv_bind E
  end;
  match goal with
  | E : Api.acc_features _ _ = Ok _ |- _ => unfold Api.acc_features in E; inv_bind E
  end;
  unfold Api.bvp_features in H; inv_bind H;
  repeat match goal with
         | E : Api.summary _ _ _ = Ok _ |- _ =>
             apply api_summary_shape in E; destruct E as (? & ? & E)
         | E : Ok _ = Ok _ |- _ => injection E as E
         end;
  unfold Api.hrv_features in H;
  destruct (1 <? length _)%nat in H;
  [ inv_bind H; destruct (try_except _ _) as [[? ?] ?]; injection H as H
  | injection H as H ];
  subst.

Lemma api_row_keys (signals : dict (list R)) (r : row) :
  Api.extract_features_window signals = Ok r -> keys r = tl Spec.schema.
Proof.
  intros H. api_invert H; row_cbn; reflexivity.
Qed.

Lemma getitem_some {V : Type} (d : dict V) (k : string) (v : V) :
  getitem d k = Ok v -> get d k = Some v.
Proof. unfold getitem. destruct (get d k); congruence. Qed.

(** The [std] entries of the two paths. *)
Lemma api_row_eda_std (signals : dict (list R)) (eda : list R) (r : row) :
  get signals "EDA" = Some eda ->
  Api.extract_features_window signals = Ok r ->
  get r "EDA_std" = Some (Np.std eda).
Proof.
  intros He H. api_invert H;
    repeat match goal with
           | E : getitem _ _ = Ok _ |- _ => apply getitem_some in E
           end;
    match goal with
    | E : get signals "EDA" = Some ?e |- _ =>
        rewrite He in E; injection E as <-
    end;
    get_through; reflexivity.
Qed.

Lemma train_row_eda_std (signals : dict (list pyfloat)) (labels : list Z)
      (scale : Float64.float64) (sr start end_ : Z) (ch : list pyfloat) (r : row) :
  get signals "EDA" = Some ch ->
  Train.window_features signals labels scale sr start end_ = Train.Next r ->
  get r "EDA_std" = Some (Pandas.std (finite_part (slice ch start end_))).
Proof.
  intros He H.
  apply train_window_inv in H. destruct H as (_ & row4 & _ & Hm & Ha).
  apply train_modality_inv in Hm.
  destruct Hm as (row1 & row2 & row3 & H1 & H2 & H3 & H4).
  rewrite (align_label_get _ _ _ _ _ _ _ Ha) by reflexivity.
  rewrite (train_bvp_preserves _ _ _ _ _ _ H4) by reflexivity.
  rewrite (train_acc_preserves _ _ _ _ _ _ H3) by reflexivity.
  rewrite (train_temp_preserves _ _ _ _ _ _ H2) by reflexivity.
  unfold Train.eda_features in H1. rewrite He in H1.
  destruct (Train.valid _) in H1; cbn [negb] in H1; [|discriminate].
  inv_flow H1. injection H1 as <-.
  get_through. reflexivity.
Qed.

(** ** Running the example recording *)

Lemma ramp4_valid : Train.valid (map Fin Example.ramp4) = true.
Proof.
  apply (valid_reals Example.ramp4 0 1); [cbn; tauto|cbn; tauto|lra].
Qed.

Lemma ramp8_valid : Train.valid (map Fin Example.ramp8) = true.
Proof.
  apply (valid_reals Example.ramp8 0 1); [cbn; tauto|cbn; tauto|lra].
Qed.

Lemma example_magnitude_valid :
  Train.valid (Spec.magnitude (map Fin Example.flat4) (map Fin Example.ramp4)
                              (map Fin Example.flat4)) = true.
Proof.
  rewrite magnitude_of_reals.
  apply (valid_reals _ (sqrt (0 * 0 + 0 * 0 + 0 * 0)) (sqrt (0 * 0 + 1 * 1 + 0 * 0))).
  - left. reflexivity.
  - right. left. reflexivity.
  - intros H. apply sqrt_inj in H; lra.
Qed.

Lemma example_modality :
  exists row4,
    Train.modality_features Example.signals 32 0 4 = Train.Next row4.
Proof.
  apply (train_modality_next Example.signals 32 0 4
           (map Fin Example.ramp4) (map Fin Example.ramp4)
           (map Fin Example.flat4) (map Fin Example.ramp4)
           (map Fin Example.flat4) (map Fin Example.ramp8));
    try reflexivity; try lia.
  - exact ramp4_valid.
  - exact ramp4_valid.
  - discriminate.
  - exact example_magnitude_valid.
  - exact ramp8_valid.
Qed.

Lemma example_window (row4 : row) :
  Train.modality_features Example.signals 32 0 4 = Train.Next row4 ->
  Train.window_features Example.signals Example.chest_labels
    (Float64.true_divide 4 4) 32 0 4
  = Train.Next (set row4 "label" (of_int 1)).
Proof.
  intros Hm. unfold Train.window_features. rewrite Hm. cbn [Train.flow_bind].
  rewrite align_label_eq. reflexivity.
Qed.

Lemma example_training_run (row4 : row) :
  Train.modality_features Example.signals 32 0 4 = Train.Next row4 ->
  Train.extract_window_features Example.signals Example.chest_labels 32 4 4
  = Ok [set row4 "label" (of_int 1)].
Proof.
  intros Hm. unfold Train.extract_window_features.
  change (Train.min_length Example.signals) with (@Ok Z 4).
  cbn [bind Z.eqb].
  change (Train.window_bounds 4 4 4) with (@Ok (list (Z * Z)) [(0, 4)]).
  cbn [bind Train.loop].
  change (Z.of_nat (length Example.chest_labels)) with 4.
  rewrite (example_window row4 Hm).
  unfold contains. rewrite get_set. reflexivity.
Qed.

Lemma example_serving_run :
  exists r, Api.extract_features_window Example.window = Ok r.
Proof.
  apply (api_extract_total Example.window Example.ramp4 Example.ramp4
           Example.flat4 Example.ramp4 Example.flat4 Example.ramp8);
    try reflexivity; discriminate.
Qed.

Lemma ramp4_sorted : StronglySorted Rle Example.ramp4.
Proof. repeat constructor; lra. Qed.

Lemma ramp8_sorted : StronglySorted Rle Example.ramp8.
Proof. repeat constructor; lra. Qed.

Lemma hrv_zero_below_two_peaks_witness :
  exists train_row api_row,
    Train.window_features Example.signals Example.chest_labels
      (Float64.true_divide 4 4) 32 0 4 = Train.Next train_row
    /\ Api.extract_features_window Example.window = Ok api_row
    /\ Forall (fun k => get train_row k = Some (Fin 0)) Train.HRV_NAMES
    /\ Forall (fun k => get api_row k = Some (Fin 0)) Api.HRV_NAMES.
Proof.
  destruct example_modality as [row4 Hm].
  destruct example_serving_run as [api_row Hr].
  exists (set row4 "label" (of_int 1)), api_row.
  split; [exact (example_window row4 Hm)|]. split; [exact Hr|].
  apply (hrv_zero_below_two_peaks
           Example.signals Example.chest_labels (Float64.true_divide 4 4)
           32 0 4 (map Fin Example.ramp8) [] (set row4 "label" (of_int 1))
           Example.window Example.ramp8 [] api_row).
  - reflexivity.
  - change (finite_part (slice (map Fin Example.ramp8) (0 * 2) (4 * 2)))
      with Example.ramp8.
    apply find_peaks_sorted; [lia|exact ramp8_sorted].
  - cbn. lia.
  - exact (example_window row4 Hm).
  - reflexivity.
  - apply find_peaks_sorted; [lia|exact ramp8_sorted].
  - cbn. lia.
  - exact Hr.
Defined.



(** ** The column schema *)

Lemma filter_known_keys (ks : list string) :
  filter (fun k => negb (existsb (String.eqb k) ks)) ks = [].
Proof.
  assert (H : forall sub, (forall k, In k sub -> In k ks) ->
                          filter (fun k => negb (existsb (String.eqb k) ks)) sub = []).
  { induction sub as [|k sub IH]; intros Hsub; [reflexivity|]. cbn.
    replace (existsb (String.eqb k) ks) with true.
    - cbn. apply IH. intros k' Hk'. apply Hsub. right. assumption.
    - symmetry. apply existsb_exists. exists k.
      split; [apply Hsub; left; reflexivity|apply String.eqb_refl]. }
  apply H. auto.
Qed.

Lemma filter_no_columns (ks : list string) :
  filter (fun k => negb (existsb (String.eqb k) [])) ks = ks.
Proof.
  induction ks as [|k ks IH]; [reflexivity|]. cbn. f_equal. exact IH.
Qed.

Lemma dataframe_columns_uniform (rows : list row) (ks : list string) :
  rows <> [] -> Forall (fun r => keys r = ks) rows ->
  Train.dataframe_columns rows = ks.
Proof.
  intros Hne Hall. destruct rows as [|r rows]; [congruence|].
  unfold Train.dataframe_columns. cbn [fold_left app].
  inversion Hall as [|? ? Hr Hrest]; subst.
  rewrite filter_no_columns.
  clear Hne Hall.
  induction Hrest as [|r' rows' Hr' _ IH]; [reflexivity|].
  cbn [fold_left]. rewrite Hr', filter_known_keys, app_nil_r. exact IH.
Qed.

Lemma train_rows_keys (signals : dict (list pyfloat)) (labels : list Z)
      (sr window_samples step_samples : Z)
      (ce ct cx cy cz cb : list pyfloat) (rows : list row) :
  get signals "EDA" = Some ce -> get signals "TEMP" = Some ct ->
  get signals "ACC_x" = Some cx -> get signals "ACC_y" = Some cy ->
  get signals "ACC_z" = Some cz -> get signals "BVP" = Some cb ->
  Train.extract_window_features signals labels sr window_samples step_samples
  = Ok rows ->
  Forall (fun r => keys r = (tl Spec.schema ++ ["label"%string])%list) rows.
Proof.
  intros He Ht Hx Hy Hz Hb H.
  apply train_extract_inv in H. destruct H as (N & bounds & _ & _ & _ & Hloop).
  apply loop_spec in Hloop. cbn [app] in Hloop. subst rows.
  apply Forall_forall. intros r Hin.
  apply in_flat_map in Hin. destruct Hin as ([start end_] & _ & Hin).
  cbn [fst snd] in Hin.
  destruct (Train.window_features _ _ _ _ start end_) as [r'| |] eqn:Hw;
    try contradiction.
  destruct (contains r' "label") eqn:Hl; [|contradiction].
  destruct Hin as [<-|[]].
  eapply train_window_keys; eassumption.
Qed.

Lemma fillna_keys (features : row) : keys (Api.fillna features) = keys features.
Proof.
  unfold Api.fillna, keys. rewrite map_map. reflexivity.
Qed.

(** Claim C3 as written fails on the count: the enumerated order has 45
    names, 46 with the label, not 41. *)
Lemma schema_has_45_columns :
  length Api.order = 45%nat
  /\ length Api.order <> 41%nat
  /\ length (Api.order ++ ["label"%string]) <> 41%nat.
Proof. repeat split; cbn; lia. Qed.

(** Claim C3, as the code has it.  The rows follow one fixed column
    order of 45 names, [index] first and then the 44 features in the
    enumerated order (EDA statistics, differences, peaks and bands; TEMP
    statistics and slope; ACC magnitude statistics and energy; BVP
    statistics; the seven HRV values); the training table has the label
    as a 46th, last column.  The serving path's [order] is that list,
    every row it extracts has exactly the 44 feature names in that order,
    and the ordered vector passed to the classifier exists and has the 45
    columns; every row of the training path (all six channels present)
    has the 44 names followed by [label], and so has the table. *)
Theorem feature_schema
        (signals : dict (list pyfloat)) (labels : list Z)
        (sr window_samples step_samples : Z)
        (ce ct cx cy cz cb : list pyfloat) (rows : list row)
        (window : dict (list R)) (features : row) :
  get signals "EDA" = Some ce -> get signals "TEMP" = Some ct ->
  get signals "ACC_x" = Some cx -> get signals "ACC_y" = Some cy ->
  get signals "ACC_z" = Some cz -> get signals "BVP" = Some cb ->
  Train.extract_window_features signals labels sr window_samples step_samples
  = Ok rows ->
  Api.extract_features_window window = Ok features ->
  length Spec.schema = 45%nat
  /\ hd ""%string Spec.schema = "index"%string
  /\ Api.order = Spec.schema
  /\ keys features = tl Spec.schema
  /\ (exists df,
         Api.select (("index"%string, Fin 0) :: Api.fillna features) Api.order
         = Ok df
         /\ keys df = Spec.schema)
  /\ Forall (fun r => keys r = (tl Spec.schema ++ ["label"%string])%list) rows
  /\ (rows <> [] ->
      Train.main_columns rows = (Spec.schema ++ ["label"%string])%list
      /\ length (Train.main_columns rows) = 46%nat).
Proof.
  intros He Ht Hx Hy Hz Hb Hrows Hfeat.
  pose proof (train_rows_keys _ _ _ _ _ _ _ _ _ _ _ _ He Ht Hx Hy Hz Hb Hrows)
    as Hkeys.
  split; [reflexivity|]. split; [reflexivity|]. split; [reflexivity|].
  split; [apply (api_row_keys window); assumption|].
  split.
  - pose proof Hfeat as H. api_invert H;
      (eexists; split; [reflexivity|reflexivity]).
  - split; [assumption|]. intros Hne.
    unfold Train.main_columns.
    rewrite (dataframe_columns_uniform rows _ Hne Hkeys).
    split; reflexivity.
Qed.

Lemma feature_schema_witness :
  exists rows features,
    Train.extract_window_features Example.signals Example.chest_labels 32 4 4
    = Ok rows
    /\ Api.extract_features_window Example.window = Ok features
    /\ length Spec.schema = 45%nat
    /\ hd ""%string Spec.schema = "index"%string
    /\ Api.order = Spec.schema
    /\ keys features = tl Spec.schema
    /\ (exists df,
           Api.select (("index"%string, Fin 0) :: Api.fillna features) Api.order
           = Ok df
           /\ keys df = Spec.schema)
    /\ Forall (fun r => keys r = (tl Spec.schema ++ ["label"%string])%list) rows
    /\ (rows <> [] ->
        Train.main_columns rows = (Spec.schema ++ ["label"%string])%list
        /\ length (Train.main_columns rows) = 46%nat).
Proof.
  destruct example_modality as [row4 Hm].
  destruct example_serving_run as [features Hr].
  exists [set row4 "label" (of_int 1)], features.
  split; [exact (example_training_run row4 Hm)|]. split; [exact Hr|].
  apply (feature_schema Example.signals Example.chest_labels 32 4 4
           (map Fin Example.ramp4) (map Fin Example.ramp4)
           (map Fin Example.flat4) (map Fin Example.ramp4)
           (map Fin Example.flat4) (map Fin Example.ramp8)
           [set row4 "label" (of_int 1)] Example.window features);
    try reflexivity.
  - exact (example_training_run row4 Hm).
  - exact Hr.
Defined.

(** ** Training against serving *)

Section Mismatch.

Local Open Scope R_scope.

(** With at least two samples that are not all equal, dividing by
    [n - 1] and dividing by [n] give different standard deviations. *)
Lemma std_conventions_differ (a : list R) :
  (2 <= length a)%nat -> Spec.central_moment 2 a <> 0 ->
  Pandas.std a <> Np.std a.
Proof.
  intros Hlen Hm2.
  assert (Hne : a <> []) by (destruct a; [cbn in Hlen; lia|discriminate]).
  rewrite pandas_std_sample, numpy_std_population by assumption.
  pose proof (central_moment_2_pos a Hne Hm2) as HD.
  pose proof (INR_length_ge a 2 Hlen) as Hn. cbn [INR] in Hn.
  unfold Spec.sample_std, Spec.population_std.
  rewrite central_moment_dev. unfold dev_pow_sum in *.
  change (rmean a) with (Spec.average a) in *.
  set (D := sum (map (fun x => (x - Spec.average a) ^ 2) a)) in *.
  set (n := INR (length a)) in *.
  intros [= H]. apply sqrt_inj in H.
  - assert (D / (n - 1) - D / n = D / (n * (n - 1))) as E by (field; lra).
    assert (0 < D / (n * (n - 1))) by (apply Rdiv_lt_0_compat; nra).
    lra.
  - apply Rlt_le, Rdiv_lt_0_compat; lra.
  - apply Rlt_le, Rdiv_lt_0_compat; lra.
Qed.

Lemma not_zero_variance_size (a : list R) :
  a <> [] -> ~ Spec.zero_variance a ->
  (2 <= length a)%nat /\ Spec.central_moment 2 a <> 0.
Proof.
  intros Hne Hz. split.
  - destruct a as [|x [|y a]]; [congruence| |cbn; lia].
    exfalso. apply Hz, zero_variance_iff. split; [discriminate|].
    intros u v [<-|[]] [<-|[]]. reflexivity.
  - intros H. apply Hz. split; assumption.
Qed.

Lemma train_eda_valid (signals : dict (list pyfloat)) (labels : list Z)
      (scale : Float64.float64) (sr start end_ : Z) (ch : list pyfloat) (r : row) :
  get signals "EDA" = Some ch ->
  Train.window_features signals labels scale sr start end_ = Train.Next r ->
  Train.valid (slice ch start end_) = true.
Proof.
  intros He H.
  apply train_window_inv in H. destruct H as (_ & row4 & _ & Hm & _).
  apply train_modality_inv in Hm. destruct Hm as (row1 & _ & _ & H1 & _).
  unfold Train.eda_features in H1. rewrite He in H1.
  destruct (Train.valid _); [reflexivity|discriminate].
Qed.

Lemma api_eda_nonempty (window : dict (list R)) (eda : list R) (r : row) :
  get window "EDA" = Some eda ->
  Api.extract_features_window window = Ok r ->
  eda <> [].
Proof.
  intros He H. unfold Api.extract_features_window in H.
  apply bind_ok in H. destruct H as (row1 & H & _).
  unfold Api.eda_features, getitem in H. rewrite He in H. cbn [bind] in H.
  apply bind_ok in H. destruct H as (row0 & H & _).
  unfold Api.summary in H. intros ->. discriminate.
Qed.

End Mismatch.

(** Claim C1 fails on the code.  Whenever the two paths are given the
    same EDA slice and both produce a row, the rows disagree on
    [EDA_std]: the training path stores the sample standard deviation,
    the serving path the population one. *)
Theorem train_serve_std_mismatch
        (signals : dict (list pyfloat)) (labels : list Z) (scale : Float64.float64)
        (sr start end_ : Z) (ch : list pyfloat) (train_row : row)
        (window : dict (list R)) (serve_row : row) :
  get signals "EDA" = Some ch ->
  Train.window_features signals labels scale sr start end_
  = Train.Next train_row ->
  get window "EDA" = Some (finite_part (slice ch start end_)) ->
  Api.extract_features_window window = Ok serve_row ->
  get train_row "EDA_std" <> get serve_row "EDA_std".
Proof.
  intros He Htrain Hw Hserve.
  rewrite (train_row_eda_std _ _ _ _ _ _ _ _ He Htrain).
  rewrite (api_row_eda_std _ _ _ Hw Hserve).
  pose proof (train_eda_valid _ _ _ _ _ _ _ _ He Htrain) as Hv.
  pose proof (api_eda_nonempty _ _ _ Hw Hserve) as Hne.
  apply valid_true_iff in Hv.
  destruct (not_zero_variance_size (finite_part (slice ch start end_)) Hne)
    as [Hlen Hm2].
  { intros Hz. apply Hv. right. right. exact Hz. }
  intros [= H]. exact (std_conventions_differ _ Hlen Hm2 H).
Qed.

Lemma train_serve_std_mismatch_witness :
  exists train_row serve_row,
    Train.extract_window_features Example.signals Example.chest_labels 32 4 4
    = Ok [train_row]
    /\ Api.extract_features_window Example.window = Ok serve_row
    /\ get train_row "EDA_std" <> get serve_row "EDA_std".
Proof.
  destruct example_modality as [row4 Hm].
  destruct example_serving_run as [serve_row Hr].
  exists (set row4 "label" (of_int 1)), serve_row.
  split; [exact (example_training_run row4 Hm)|]. split; [exact Hr|].
  apply (train_serve_std_mismatch
           Example.signals Example.chest_labels (Float64.true_divide 4 4)
           32 0 4 (map Fin Example.ramp4) (set row4 "label" (of_int 1))
           Example.window serve_row).
  - reflexivity.
  - exact (example_window row4 Hm).
  - reflexivity.
  - exact Hr.
Defined.

(** The two values at the example recording. *)
Lemma example_std_values :
  forall train_row serve_row,
    Train.window_features Example.signals Example.chest_labels
      (Float64.true_divide 4 4) 32 0 4 = Train.Next train_row ->
    Api.extract_features_window Example.window = Ok serve_row ->
    get train_row "EDA_std" = Some (Fin (sqrt (5 / 3)))
    /\ get serve_row "EDA_std" = Some (Fin (sqrt (5 / 4))).
Proof.
  intros train_row serve_row Ht Hs. split.
  - rewrite (train_row_eda_std Example.signals _ _ _ _ _
               (map Fin Example.ramp4) _ eq_refl Ht).
    change (finite_part (slice (map Fin Example.ramp4) 0 4)) with Example.ramp4.
    rewrite pandas_std_sample by (cbn; lia).
    unfold Example.ramp4. rewrite ramp_sample_std. reflexivity.
  - rewrite (api_row_eda_std Example.window Example.ramp4 _ eq_refl Hs).
    rewrite numpy_std_population by discriminate.
    unfold Example.ramp4. rewrite ramp_population_std. reflexivity.
Qed.


(** ** The two peak distances *)

Ltac R_decide :=
  repeat (match goal with
          | |- context [Rltb ?a ?b] =>
              first [ rewrite (Rltb_true a b) by lra
                    | rewrite (Rltb_false a b) by lra ]
          | |- context [Reqb ?a ?b] =>
              first [ rewrite (Reqb_true a b) by lra
                    | rewrite (Reqb_false a b) by lra ]
          end).

Lemma local_maxima_from_step (fuel : nat) (x : list R) (i_max i : nat) :
  Scipy.local_maxima_from (S fuel) x i_max i
  = if (i <? i_max)%nat then
      if Rltb (nth (i - 1) x 0%R) (nth i x 0%R) then
        if Rltb (nth (Scipy.plateau_end fuel x i_max (i + 1) (nth i x 0%R)) x 0%R)
                (nth i x 0%R)
        then ((i + (Scipy.plateau_end fuel x i_max (i + 1) (nth i x 0%R) - 1)) / 2)%nat
               :: Scipy.local_maxima_from fuel x i_max
                    (Scipy.plateau_end fuel x i_max (i + 1) (nth i x 0%R) + 1)
        else Scipy.local_maxima_from fuel x i_max (i + 1)
      else Scipy.local_maxima_from fuel x i_max (i + 1)
    else [].
Proof. reflexivity. Qed.

Lemma plateau_end_step (fuel : nat) (x : list R) (i_max i : nat) (xi : R) :
  Scipy.plateau_end (S fuel) x i_max i xi
  = if (i <? i_max)%nat && Reqb (nth i x 0%R) xi
    then Scipy.plateau_end fuel x i_max (S i) xi else i.
Proof. reflexivity. Qed.

Ltac scan_cbn :=
  cbn [Nat.ltb Nat.leb Nat.sub Nat.add nth andb orb negb Example.two_beats
       Nat.div Nat.divmod fst snd].

Lemma two_beats_maxima : Scipy.local_maxima Example.two_beats = [1; 20]%nat.
Proof.
  unfold Scipy.local_maxima.
  change (length Example.two_beats) with 22%nat. scan_cbn.
  repeat (first [rewrite plateau_end_step | rewrite local_maxima_from_step];
          scan_cbn; R_decide; scan_cbn).
  reflexivity.
Qed.

Ltac select_cbn :=
  cbn [Scipy.select_by_peak_distance Scipy.argsort Scipy.insert_by fold_left seq
       length map nth rev app repeat Scipy.take combine flat_map
       Example.two_beats];
  R_decide;
  cbn [Scipy.select_by_peak_distance Scipy.argsort Scipy.insert_by fold_left seq
       length map nth rev app repeat Scipy.take combine flat_map
       Scipy.suppress_around Nat.eqb orb andb fst snd].

(** With the training distance both beats are kept, with the serving
    distance the weaker one is removed; the training path then reports a
    heart rate, the serving path zeros. *)
Lemma peak_distance_mismatch :
  py_int (inject_Z Train.DEFAULT_BVP_SR * (3 # 10)) = 19
  /\ Scipy.find_peaks Example.two_beats 19 = Ok [1; 20]%nat
  /\ Scipy.find_peaks Example.two_beats 20 = Ok [1]%nat
  /\ nth 0 (Train.hrv [1; 20]%nat) NaN = Fin (3840 / 19)
  /\ forall row0, exists r,
       Api.hrv_features [1]%nat row0 = Ok r
       /\ get r "HR_mean" = Some (Fin 0).
Proof.
  split; [reflexivity|]. split; [|split; [|split]].
  - unfold Scipy.find_peaks. rewrite two_beats_maxima.
    change (19 <? 1) with false. cbv iota. select_cbn. reflexivity.
  - unfold Scipy.find_peaks. rewrite two_beats_maxima.
    change (20 <? 1) with false. cbv iota. select_cbn. reflexivity.
  - destruct (train_hrv_two_peaks [1; 20]%nat) as (hr & sdnn & rmssd & LF & HF & LFHF & E);
      [cbn; lia|].
    unfold Train.hrv in *. cbn [length Nat.ltb Nat.leb] in *.
    destruct (try_except _ _) as [[LF' HF'] LFHF']. injection E as <- _ _ _ _ _.
    cbn [nth map diffz Z.of_nat Pos.of_succ_nat Pos.succ]. unfold Np.div, rmean, sum, len.
    cbn [fold_right length INR Z.sub Z.add Z.opp Z.pos_sub Pos.pred_double
         Pos.succ Z.succ_double Z.pred_double Z.double Train.DEFAULT_BVP_SR].
    change (IZR Train.DEFAULT_BVP_SR) with 64%R.
    rewrite Reqb_false by lra. f_equal. field.
  - intros row0. eexists. split; [reflexivity|]. get_through. reflexivity.
Qed.

(** The kurtosis entries of the two paths on [0, 1, 2, 3]. *)
Lemma ramp_dev_sums :
  dev_pow_sum 2 [0; 1; 2; 3]%R = 5%R
  /\ dev_pow_sum 4 [0; 1; 2; 3]%R = (41 / 4)%R.
Proof.
  unfold dev_pow_sum, rmean, sum, len. cbn. split; field.
Qed.

Lemma ramp_kurtosis_differ :
  Pandas.kurt Example.ramp4 = Fin (- (6 / 5))
  /\ Scipy.kurtosis Example.ramp4 = Fin (- (34 / 25)).
Proof.
  assert (H4 : Spec.central_moment 4 [0; 1; 2; 3]%R = (41 / 16)%R).
  { unfold Spec.central_moment. rewrite ramp_average. unfold sum. cbn. field. }
  assert (H2 : Spec.central_moment 2 [0; 1; 2; 3]%R <> 0%R)
    by (rewrite ramp_central_moment_2; lra).
  destruct ramp_dev_sums as [D2 D4].
  unfold Example.ramp4. split.
  - unfold Pandas.kurt. cbv zeta. rewrite D2, D4.
    change (length [0; 1; 2; 3]%R <? 4)%nat with false. cbv iota.
    unfold len. change (INR (length [0; 1; 2; 3]%R)) with (INR 4).
    replace (INR 4) with 4%R by (cbn; lra).
    unfold Pandas.zero_out_fperr.
    rewrite (Rltb_false (Rabs (4 * (4 + 1) * (4 - 1) * (41 / 4))) 1e-14)
      by (rewrite Rabs_right; lra).
    rewrite (Rltb_false (Rabs ((4 - 2) * (4 - 3) * 5 ^ 2)) 1e-14)
      by (rewrite Rabs_right; lra).
    rewrite Reqb_false by lra. f_equal. field.
  - rewrite scipy_kurtosis_biased by (assumption || discriminate).
    unfold Spec.g2. rewrite H4, ramp_central_moment_2. f_equal. field.
Qed.

Lemma ramp_sample_kurtosis :
  Spec.sample_excess_kurtosis [0; 1; 2; 3]%R = (- (6 / 5))%R.
Proof.
  assert (H4 : Spec.central_moment 4 [0; 1; 2; 3]%R = (41 / 16)%R).
  { unfold Spec.central_moment. rewrite ramp_average. unfold sum. cbn. field. }
  unfold Spec.sample_excess_kurtosis, Spec.g2.
  rewrite H4, ramp_central_moment_2. cbn. field.
Qed.

(** Claim C2 fails on both paths, each on the convention that the other
    path follows.  On the slice [0, 1, 2, 3] the population standard
    deviation of the claim is [sqrt(5/4)]: the serving summary stores it,
    the training summary stores [sqrt(5/3)], the sample standard
    deviation.  The bias-corrected excess kurtosis of the claim is
    [-6/5]: the training summary stores it, the serving summary stores
    the uncorrected [-34/25]. *)
Theorem summary_conventions_diverge :
  let a := [0; 1; 2; 3]%R in
  Spec.population_std a = sqrt (5 / 4)
  /\ Spec.sample_excess_kurtosis a = (- (6 / 5))%R
  /\ get (Train.stats_dict a) "std" = Some (Fin (sqrt (5 / 3)))
  /\ get (Train.stats_dict a) "std" <> Some (Fin (Spec.population_std a))
  /\ get (Train.stats_dict a) "kurt" = Some (Fin (- (6 / 5)))
  /\ exists r,
       Api.summary "EDA_" a [] = Ok r
       /\ get r "EDA_std" = Some (Fin (sqrt (5 / 4)))
       /\ get r "EDA_kurt" = Some (Fin (- (34 / 25)))
       /\ get r "EDA_kurt" <> Some (Fin (Spec.sample_excess_kurtosis a)).
Proof.
  intros a. unfold a.
  destruct ramp_kurtosis_differ as [Kp Ks]. unfold Example.ramp4 in Kp, Ks.
  split; [exact ramp_population_std|]. split; [exact ramp_sample_kurtosis|].
  assert (Hstd : get (Train.stats_dict [0; 1; 2; 3]%R) "std"
                 = Some (Fin (sqrt (5 / 3)))).
  { row_cbn. rewrite pandas_std_sample by (cbn; lia).
    rewrite ramp_sample_std. reflexivity. }
  split; [exact Hstd|]. split; [|split].
  - rewrite Hstd, ramp_population_std. intros [= H].
    apply sqrt_inj in H; lra.
  - row_cbn. rewrite Kp. reflexivity.
  - destruct (api_summary_ok "EDA_" [0; 1; 2; 3]%R []) as [r Hr];
      [discriminate|].
    exists r. split; [exact Hr|].
    apply api_summary_shape in Hr. destruct Hr as (lo & hi & ->).
    assert (Hk : get
                   (set (set (set (set (set (set (set []
                      (String.append "EDA_" "mean") (Np.mean [0; 1; 2; 3]%R))
                      (String.append "EDA_" "std") (Np.std [0; 1; 2; 3]%R))
                      (String.append "EDA_" "min") (Fin lo))
                      (String.append "EDA_" "max") (Fin hi))
                      (String.append "EDA_" "median") (Np.median [0; 1; 2; 3]%R))
                      (String.append "EDA_" "skew") (Scipy.skew [0; 1; 2; 3]%R))
                      (String.append "EDA_" "kurt") (Scipy.kurtosis [0; 1; 2; 3]%R))
                   "EDA_kurt"
                 = Some (Fin (- (34 / 25)))).
    { get_through. rewrite Ks. reflexivity. }
    split; [|split; [exact Hk|]].
    + get_through. rewrite numpy_std_population by discriminate.
      rewrite ramp_population_std. reflexivity.
    + rewrite Hk, ramp_sample_kurtosis. intros [= H]. lra.
Qed.

(** ** The endpoint outside the override *)

(** For comparison with the override: any other request draws the 1344
    noise samples of the synthetic window and calls the feature
    extraction. *)
Lemma predict_stress_otherwise
      (noise : nat -> R) (predict_proba : row -> R)
      (input : Api.SensorInput) (w : Api.world) :
  Api.physiological_override input = false ->
  let w' := snd (Api.predict_stress noise predict_proba input w) in
  Api.cursor w' = (Api.cursor w + 1344)%nat
  /\ exists rest,
      Api.log w'
      = (Api.log w
         ++ [Api.Randn 384; Api.Randn 192; Api.Randn 192; Api.Randn 192;
             Api.Randn 192; Api.Randn 192; Api.ExtractFeatures] ++ rest)%list.
Proof.
  intros H. unfold Api.predict_stress. rewrite H.
  cbn [Api.randn Api.cursor Api.log].
  unfold Api.classify.
  destruct (Api.extract_features_window _) as [features|e].
  - destruct (Api.select _ _) as [df|e].
    + destruct (Api.generate_advice features) as [advice|e];
        cbn [snd Api.record Api.cursor Api.log];
        (split; [lia|]); exists [Api.PredictProba];
        rewrite <- !app_assoc; reflexivity.
    + cbn [snd Api.record Api.cursor Api.log].
      split; [lia|]. exists []. rewrite <- !app_assoc. reflexivity.
  - cbn [snd Api.record Api.cursor Api.log].
    split; [lia|]. exists []. rewrite <- !app_assoc. reflexivity.
Qed.


(* ================================================================== *)
(** * Further properties of the two scripts                            *)
(* ================================================================== *)

(** ** Where the two paths agree *)

Lemma api_magnitude_eq (ax ay az : list R) :
  map sqrt
      (map (fun p => (fst p + snd p)%R)
           (combine (map (fun p => (fst p + snd p)%R)
                         (combine (map (fun v => (v * v)%R) ax)
                                  (map (fun v => (v * v)%R) ay)))
                    (map (fun v => (v * v)%R) az)))
  = map (fun p => sqrt (fst (fst p) * fst (fst p)
                        + snd (fst p) * snd (fst p)
                        + snd p * snd p)%R)
        (combine (combine ax ay) az).
Proof.
  revert ay az. induction ax as [|x ax IH]; intros [|y ay] [|z az]; try reflexivity.
  cbn [map combine fst snd]. f_equal. apply IH.
Qed.



Lemma api_summary_full (p : string) (a : list R) (row0 r : row) :
  Api.summary p a row0 = Ok r ->
  a <> []
  /\ r = set (set (set (set (set (set (set row0
          (String.append p "mean") (Pandas.mean a))
          (String.append p "std") (Np.std a))
          (String.append p "min") (Pandas.min a))
          (String.append p "max") (Pandas.max a))
          (String.append p "median") (Pandas.median a))
          (String.append p "skew") (Scipy.skew a))
          (String.append p "kurt") (Scipy.kurtosis a).
Proof.
  unfold Api.summary. destruct a as [|x a]; [discriminate|].
  cbn [Np.min Np.max bind]. intros [= <-]. split; [discriminate|reflexivity].
Qed.

Lemma api_eda_full (window : dict (list R)) (eda : list R) (row0 row1 : row) :
  get window "EDA" = Some eda ->
  Api.eda_features window row0 = Ok row1 ->
  exists summary_row peaks lfhf,
    Api.summary "EDA_" eda row0 = Ok summary_row
    /\ Scipy.find_peaks eda 16 = Ok peaks
    /\ (if negb (Reqb (Api.bandpower eda 32 0.1 0.25) 0)
        then py_truediv (Api.bandpower eda 32 0.01 0.1) (Api.bandpower eda 32 0.1 0.25)
        else Ok 0%R) = Ok lfhf
    /\ row1
       = set (set (set (set (set (set (set summary_row
           "EDA_diff_mean" (Np.mean (diff eda)))
           "EDA_diff_std" (Np.std (diff eda)))
           "EDA_peak_count" (of_nat (length peaks)))
           "EDA_peak_mean_amp"
             (if negb (length peaks =? 0)%nat
              then Np.mean (at_indices eda peaks) else Fin 0))
           "EDA_LF" (Fin (Api.bandpower eda 32 0.01 0.1)))
           "EDA_HF" (Fin (Api.bandpower eda 32 0.1 0.25)))
           "EDA_LFHF" (Fin lfhf).
Proof.
  intros Hg H. unfold Api.eda_features, getitem in H. rewrite Hg in H.
  cbn [bind] in H.
  apply bind_ok in H. destruct H as (summary_row & Hs & H).
  apply bind_ok in H. destruct H as (peaks & Hp & H).
  apply bind_ok in H. destruct H as (lfhf & Hl & H).
  injection H as <-. eauto 10.
Qed.

Lemma api_temp_full (window : dict (list R)) (temp : list R) (row0 row1 : row) :
  get window "TEMP" = Some temp ->
  Api.temp_features window row0 = Ok row1 ->
  exists summary_row last first,
    Api.summary "TEMP_" temp row0 = Ok summary_row
    /\ index temp (-1) = Ok last /\ index temp 0 = Ok first
    /\ row1 = set summary_row "TEMP_slope" (Fin ((last - first) / len temp)%R)
    /\ len temp <> 0%R.
Proof.
  intros Hg H. unfold Api.temp_features, getitem in H. rewrite Hg in H.
  cbn [bind] in H.
  apply bind_ok in H. destruct H as (summary_row & Hs & H).
  apply bind_ok in H. destruct H as (last & Hl & H).
  apply bind_ok in H. destruct H as (first & Hf & H).
  apply bind_ok in H. destruct H as (slope & Hd & H).
  injection H as <-. unfold py_truediv in Hd.
  destruct (Reqb_spec (len temp) 0) as [|Hne]; [discriminate|].
  injection Hd as <-. eauto 10.
Qed.

Lemma api_acc_full (window : dict (list R)) (ax ay az : list R) (row0 row1 : row) :
  get window "ACC_x" = Some ax -> get window "ACC_y" = Some ay ->
  get window "ACC_z" = Some az ->
  length ax = length ay -> length ay = length az ->
  Api.acc_features window row0 = Ok row1 ->
  let mag := map (fun p => sqrt (fst (fst p) * fst (fst p)
                                 + snd (fst p) * snd (fst p)
                                 + snd p * snd p)%R)
                 (combine (combine ax ay) az) in
  exists summary_row,
    Api.summary "ACC_mag_" mag row0 = Ok summary_row
    /\ row1 = set summary_row "ACC_energy"
                  (Np.div (sum (map (fun v => (v * v)%R) mag)) (len mag)).
Proof.
  intros Hx Hy Hz Lxy Lyz H. unfold Api.acc_features, getitem in H.
  rewrite Hx, Hy, Hz in H. cbn [bind] in H.
  rewrite broadcast2_same_length in H by (rewrite !length_map; assumption).
  cbn [bind] in H.
  rewrite broadcast2_same_length in H
    by (rewrite !length_map, length_combine, !length_map, Lxy, Nat.min_id;
        assumption).
  cbn [bind] in H. rewrite api_magnitude_eq in H.
  apply bind_ok in H. destruct H as (summary_row & Hs & H).
  injection H as <-. cbv zeta. eauto.
Qed.

Lemma api_bvp_full (window : dict (list R)) (bvp : list R) (row0 row1 : row) :
  get window "BVP" = Some bvp ->
  Api.bvp_features window row0 = Ok row1 ->
  exists summary_row peaks,
    Api.summary "BVP_" bvp row0 = Ok summary_row
    /\ Scipy.find_peaks bvp 20 = Ok peaks
    /\ Api.hrv_features peaks summary_row = Ok row1.
Proof.
  intros Hg H. unfold Api.bvp_features, getitem in H. rewrite Hg in H.
  cbn [bind] in H.
  apply bind_ok in H. destruct H as (summary_row & Hs & H).
  apply bind_ok in H. destruct H as (peaks & Hp & H). eauto 10.
Qed.

Lemma api_hrv_shape (peaks : list nat) (row0 r : row) :
  Api.hrv_features peaks row0 = Ok r ->
  exists h1 h2 h3 h4 h5 h6 h7,
    r = set (set (set (set (set (set (set row0
          "HR_mean" h1) "HRV_SDNN" h2) "HRV_RMSSD" h3) "HRV_pNN50" h4)
          "HRV_LF" h5) "HRV_HF" h6) "HRV_LFHF" h7.
Proof.
  unfold Api.hrv_features. destruct (1 <? length peaks)%nat.
  - intros H. apply bind_ok in H. destruct H as (p & _ & H).
    destruct (try_except _ _) as [[lf hf] lfhf]. injection H as <-. eauto 10.
  - intros [= <-]. cbn [fold_left Api.HRV_NAMES]. eauto 10.
Qed.

Lemma api_extract_sections (window : dict (list R)) (r : row) :
  Api.extract_features_window window = Ok r ->
  exists row1 row2 row3,
    Api.eda_features window [] = Ok row1
    /\ Api.temp_features window row1 = Ok row2
    /\ Api.acc_features window row2 = Ok row3
    /\ Api.bvp_features window row3 = Ok r.
Proof.
  unfold Api.extract_features_window. intros H.
  apply bind_ok in H. destruct H as (row1 & H1 & H).
  apply bind_ok in H. destruct H as (row2 & H2 & H).
  apply bind_ok in H. destruct H as (row3 & H3 & H). eauto 10.
Qed.

Lemma guarded_ratio_agree (lf hf a b : R) :
  (0 <= hf)%R ->
  (if Rltb 0 hf then py_truediv lf hf else Ok 0%R) = Ok a ->
  (if negb (Reqb hf 0) then py_truediv lf hf else Ok 0%R) = Ok b ->
  a = b.
Proof.
  intros Hhf Ha Hb.
  destruct (Rltb_spec 0 hf) as [Hpos|Hzero].
  - rewrite Reqb_false in Hb by lra. cbn [negb] in Hb. congruence.
  - rewrite Reqb_true in Hb by lra. cbn [negb] in Hb. congruence.
Qed.
(** On one window, with the base rate of 32 Hz and the same samples in
    both paths, the two rows agree on every entry that does not depend on
    the standard deviation, skewness or kurtosis convention or on the
    pulse peak distance: the mean, minimum, maximum and median of each
    channel, the EDA differences, peaks and band powers, the temperature
    slope and the acceleration energy. *)
Theorem train_serve_agree_elsewhere
        (signals : dict (list pyfloat)) (labels : list Z) (scale : Float64.float64)
        (start end_ : Z) (ce ct cx cy cz cb : list pyfloat) (train_row : row)
        (window : dict (list R)) (eda temp ax ay az bvp : list R) (serve_row : row) :
  get signals "EDA" = Some ce -> get signals "TEMP" = Some ct ->
  get signals "ACC_x" = Some cx -> get signals "ACC_y" = Some cy ->
  get signals "ACC_z" = Some cz -> get signals "BVP" = Some cb ->
  get window "EDA" = Some eda -> get window "TEMP" = Some temp ->
  get window "ACC_x" = Some ax -> get window "ACC_y" = Some ay ->
  get window "ACC_z" = Some az -> get window "BVP" = Some bvp ->
  slice ce start end_ = map Fin eda -> slice ct start end_ = map Fin temp ->
  slice cx start end_ = map Fin ax -> slice cy start end_ = map Fin ay ->
  slice cz start end_ = map Fin az ->
  slice cb (start * 2) (end_ * 2) = map Fin bvp ->
  length ax = length ay -> length ay = length az ->
  Train.window_features signals labels scale 32 start end_ = Train.Next train_row ->
  Api.extract_features_window window = Ok serve_row ->
  Forall (fun k => get train_row k = get serve_row k)
    [ "EDA_mean"; "EDA_min"; "EDA_max"; "EDA_median"; "EDA_diff_mean";
      "EDA_diff_std"; "EDA_peak_count"; "EDA_peak_mean_amp"; "EDA_LF"; "EDA_HF";
      "EDA_LFHF"; "TEMP_mean"; "TEMP_min"; "TEMP_max"; "TEMP_median";
      "TEMP_slope"; "ACC_mag_mean"; "ACC_mag_min"; "ACC_mag_max";
      "ACC_mag_median"; "ACC_energy"; "BVP_mean"; "BVP_min"; "BVP_max";
      "BVP_median" ]%string.
Proof.
  intros * He Ht Hx Hy Hz Hb We Wt Wx Wy Wz Wb Se St Sx Sy Sz Sb Lxy Lyz Htrain Hserve.
  (* training row *)
  apply train_window_inv in Htrain. destruct Htrain as (_ & row4 & _ & Hm & Ha).
  apply train_modality_inv in Hm.
  destruct Hm as (row1 & row2 & row3 & H1 & H2 & H3 & H4).
  unfold Train.eda_features in H1. rewrite He, Se, finite_part_reals in H1.
  destruct (Train.valid _) in H1; cbn [negb] in H1; [|discriminate].
  inv_flow H1. injection H1 as <-.
  unfold Train.temp_features in H2. rewrite Ht, St, finite_part_reals in H2.
  destruct (Train.valid _) in H2; cbn [negb] in H2; [|discriminate].
  inv_flow H2. injection H2 as <-.
  rewrite (train_acc_gate _ _ _ _ _ _ _ Hx Hy Hz) in H3
    by (rewrite ?Sx, ?Sy, ?Sz, !length_map; assumption).
  rewrite Sx, Sy, Sz, magnitude_of_reals, finite_part_reals in H3.
  destruct (Train.valid _) in H3; [|discriminate].
  cbv zeta in H3. injection H3 as <-.
  unfold Train.bvp_features in H4. rewrite Hb, Sb, finite_part_reals in H4.
  destruct (Train.valid _) in H4; cbn [negb] in H4; [|discriminate].
  inv_flow H4. injection H4 as <-.
  match goal with
  | H : context [Train.hrv ?p] |- _ =>
      destruct (train_hrv_shape p) as (h1 & h2 & h3 & h4 & h5 & h6 & h7 & Eh);
      rewrite Eh in H
  end.
  (* serving row *)
  apply api_extract_sections in Hserve.
  destruct Hserve as (s1 & s2 & s3 & G1 & G2 & G3 & G4).
  destruct (api_eda_full _ _ _ _ We G1) as (se & pe & lfhf & Gs1 & Gp & Gl & ->).
  apply api_summary_full in Gs1. destruct Gs1 as [Ne ->].
  destruct (api_temp_full _ _ _ _ Wt G2) as (st & last & first & Gs2 & Glast & Gfirst & -> & Nlen).
  apply api_summary_full in Gs2. destruct Gs2 as [Nt ->].
  destruct (api_acc_full _ _ _ _ _ _ Wx Wy Wz Lxy Lyz G3) as (sa & Gs3 & ->).
  apply api_summary_full in Gs3. destruct Gs3 as [Na ->].
  destruct (api_bvp_full _ _ _ _ Wb G4) as (sb & pb & Gs4 & Gpb & Gh).
  apply api_summary_full in Gs4. destruct Gs4 as [Nb ->].
  apply api_hrv_shape in Gh.
  destruct Gh as (g1 & g2 & g3 & g4 & g5 & g6 & g7 & ->).
  (* the shared intermediate values *)
  change (py_int (inject_Z 32 * (5 # 10))) with 16 in *.
  repeat match goal with
         | H1 : ?t = Ok ?a, H2 : ?t = Ok ?b |- _ =>
             rewrite H1 in H2; injection H2 as <-
         end.
  assert (Hlfhf : x0 = lfhf).
  { eapply guarded_ratio_agree; [|eassumption|eassumption].
    apply train_bandpower_ge_0. lra. }
  subst.
  repeat constructor;
    (erewrite align_label_get by (exact Ha || reflexivity));
    row_cbn; try reflexivity.
  - destruct x; reflexivity.
  - unfold Np.div. rewrite Reqb_false by assumption. reflexivity.
Qed.

Lemma train_serve_agree_elsewhere_witness :
  exists train_row serve_row,
    Train.window_features Example.signals Example.chest_labels
      (Float64.true_divide 4 4) 32 0 4 = Train.Next train_row
    /\ Api.extract_features_window Example.window = Ok serve_row
    /\ Forall (fun k => get train_row k = get serve_row k)
         [ "EDA_mean"; "EDA_min"; "EDA_max"; "EDA_median"; "EDA_diff_mean";
           "EDA_diff_std"; "EDA_peak_count"; "EDA_peak_mean_amp"; "EDA_LF";
           "EDA_HF"; "EDA_LFHF"; "TEMP_mean"; "TEMP_min"; "TEMP_max";
           "TEMP_median"; "TEMP_slope"; "ACC_mag_mean"; "ACC_mag_min";
           "ACC_mag_max"; "ACC_mag_median"; "ACC_energy"; "BVP_mean";
           "BVP_min"; "BVP_max"; "BVP_median" ]%string.
Proof.
  destruct example_modality as [row4 Hm].
  destruct example_serving_run as [serve_row Hr].
  exists (set row4 "label" (of_int 1)), serve_row.
  split; [exact (example_window row4 Hm)|]. split; [exact Hr|].
  apply (train_serve_agree_elsewhere
           Example.signals Example.chest_labels (Float64.true_divide 4 4) 0 4
           (map Fin Example.ramp4) (map Fin Example.ramp4)
           (map Fin Example.flat4) (map Fin Example.ramp4)
           (map Fin Example.flat4) (map Fin Example.ramp8)
           (set row4 "label" (of_int 1))
           Example.window Example.ramp4 Example.ramp4 Example.flat4
           Example.ramp4 Example.flat4 Example.ramp8 serve_row);
    try reflexivity.
  - exact (example_window row4 Hm).
  - exact Hr.
Defined.

(** ** Bands narrower than the frequency resolution *)

Section NarrowBand.
Local Open Scope R_scope.

Lemma take_all_false {A : Type} (a : list A) (mask : list bool) :
  Forall (fun b => b = false) mask -> Scipy.take a mask = [].
Proof.
  intros H. revert a. induction H as [|b mask Hb _ IH]; intros [|v a];
    try reflexivity.
  subst b. change (Scipy.take (v :: a) (false :: mask)) with (Scipy.take a mask).
  apply IH.
Qed.

Lemma map_seq_spaced (Rel : R -> R -> Prop) (f : nat -> R) (a k : nat) :
  (forall i j, (i < j)%nat -> Rel (f i) (f j)) ->
  StronglySorted Rel (map f (seq a k)).
Proof.
  intros Hrel. revert a. induction k as [|k IH]; intros a; cbn.
  - constructor.
  - constructor; [apply IH|].
    apply Forall_map, Forall_forall. intros j Hj.
    apply in_seq in Hj. apply Hrel. lia.
Qed.

(** Of bins at least [d] apart, a band narrower than [d] holds at most one. *)
Lemma take_narrow {A : Type} (a : list A) (l : list R) (d low high : R) :
  high - low < d ->
  StronglySorted (fun u v => u + d <= v) l ->
  (length (Scipy.take a (map (fun f => Rleb low f && Rleb f high) l)) <= 1)%nat.
Proof.
  intros Hd Hs. revert a. induction Hs as [|f l _ IH Hf]; intros a.
  - destruct a; cbn; lia.
  - destruct a as [|v a]; [cbn; lia|]. cbn [map].
    destruct (Rleb low f && Rleb f high) eqn:Hband.
    + change (Scipy.take (v :: a) (true :: ?m)) with (v :: Scipy.take a m).
      rewrite take_all_false; [cbn; lia|].
      apply Forall_map. eapply Forall_impl; [|exact Hf].
      intros u Hu. cbv beta in Hu.
      apply andb_prop in Hband. destruct Hband as [H1 _].
      destruct (Rleb_spec low f); [|discriminate].
      rewrite (Rleb_false u high) by lra. apply andb_false_r.
    + change (Scipy.take (v :: a) (false :: ?m)) with (Scipy.take a m). apply IH.
Qed.

Lemma trapezoid_short (y x : list R) : (length y <= 1)%nat -> trapezoid y x = 0.
Proof.
  destruct y as [|y0 [|y1 y]]; cbn; intros H; try reflexivity; lia.
Qed.

Lemma rfftfreq_spaced (n : nat) (fs : R) :
  (0 < n)%nat -> 0 < fs ->
  StronglySorted (fun u v => u + fs / INR n <= v) (Scipy.rfftfreq n fs).
Proof.
  intros Hn Hfs. unfold Scipy.rfftfreq. apply map_seq_spaced.
  intros i j Hij.
  assert (0 < INR n) by (apply lt_0_INR; lia).
  assert (INR i + 1 <= INR j) by (rewrite <- S_INR; apply le_INR; lia).
  assert (Ht : 0 < fs * / INR n)
    by (apply Rmult_lt_0_compat; [|apply Rinv_0_lt_compat]; assumption).
  unfold Rdiv. rewrite !Rmult_assoc.
  generalize dependent (fs * / INR n). intros t Ht. nra.
Qed.

Lemma train_bandpower_narrow (x : list R) (fs low high : R) :
  0 < fs -> (high - low) * INR (length x) < fs ->
  Train.bandpower x fs low high = 0.
Proof.
  intros Hfs Hw. unfold Train.bandpower.
  destruct x as [|x0 x]; [reflexivity|].
  set (n := length (x0 :: x)) in *.
  assert (Hn : (0 < n)%nat) by (unfold n; cbn; lia).
  assert (0 < INR n) by (apply lt_0_INR; assumption).
  assert (Hd : high - low < fs / INR n).
  { apply Rmult_lt_reg_r with (INR n); [assumption|].
    unfold Rdiv. rewrite Rmult_assoc, Rinv_l by lra. lra. }
  pose proof (welch_freqs (x0 :: x) fs) as Hfreqs. cbv iota in Hfreqs.
  destruct (Scipy.welch (x0 :: x) fs) as [freqs psd]. cbn [fst] in Hfreqs.
  subst freqs. fold n.
  destruct (negb _); [reflexivity|].
  apply trapezoid_short, (take_narrow psd _ (fs / INR n)); [assumption|].
  apply rfftfreq_spaced; assumption.
Qed.

End NarrowBand.

(** A band narrower than the spacing [fs / len(arr)] of the frequency
    bins holds at most one bin, and the trapezoidal rule over fewer than
    two points is 0: [bandpower] then returns 0 in both scripts, whatever
    the samples. *)
Theorem bandpower_zero_on_narrow_band (x : list R) (fs low high : R) :
  (0 < fs)%R -> ((high - low) * INR (length x) < fs)%R ->
  Train.bandpower x fs low high = 0%R /\ Api.bandpower x fs low high = 0%R.
Proof.
  intros Hfs Hw. split; [|rewrite bandpower_same];
    apply train_bandpower_narrow; assumption.
Qed.

Lemma bandpower_zero_on_narrow_band_witness :
  let x := [3; 1; 4; 1; 5; 9; 2; 6]%R in
  Train.bandpower x 32 0.1 0.25 = 0%R /\ Api.bandpower x 32 0.1 0.25 = 0%R.
Proof.
  intros x. apply (bandpower_zero_on_narrow_band x 32 0.1 0.25); [lra|].
  unfold x. cbn [length INR]. lra.
Defined.

Lemma slice_length_le {A : Type} (a : list A) (i j : Z) :
  0 <= i -> 0 <= j -> (length (slice a i j) <= Z.to_nat (j - i))%nat.
Proof.
  intros Hi Hj. unfold slice, clamp_index.
  destruct (Z.ltb_spec i 0); [lia|].
  destruct (Z.ltb_spec j 0); [lia|].
  rewrite length_firstn. lia.
Qed.

Lemma finite_part_length_le (arr : list pyfloat) :
  (length (finite_part arr) <= length arr)%nat.
Proof.
  induction arr as [|v arr IH]; [cbn; lia|].
  change (finite_part (v :: arr))
    with ((match v with Fin r => [r] | _ => [] end) ++ finite_part arr)%list.
  rewrite length_app. destruct v; cbn [length]; lia.
Qed.

Lemma train_row_eda_bands (signals : dict (list pyfloat)) (labels : list Z)
      (scale : Float64.float64) (sr start end_ : Z) (ch : list pyfloat) (r : row) :
  get signals "EDA" = Some ch ->
  Train.window_features signals labels scale sr start end_ = Train.Next r ->
  let eda := finite_part (slice ch start end_) in
  let lf := Train.bandpower eda (IZR sr) 0.01 0.1 in
  let hf := Train.bandpower eda (IZR sr) 0.1 0.25 in
  exists lfhf,
    (if Rltb 0 hf then py_truediv lf hf else Ok 0%R) = Ok lfhf
    /\ get r "EDA_LF" = Some (Fin lf)
    /\ get r "EDA_HF" = Some (Fin hf)
    /\ get r "EDA_LFHF" = Some (Fin lfhf).
Proof.
  intros He H.
  apply train_window_inv in H. destruct H as (_ & row4 & _ & Hm & Ha).
  apply train_modality_inv in Hm.
  destruct Hm as (row1 & row2 & row3 & H1 & H2 & H3 & H4).
  unfold Train.eda_features in H1. rewrite He in H1.
  destruct (Train.valid _) in H1; cbn [negb] in H1; [|discriminate].
  apply flow_bind_next in H1. destruct H1 as (peaks & _ & H1).
  apply flow_bind_next in H1. destruct H1 as (lfhf & Hl & H1).
  apply lift_next in Hl. injection H1 as <-.
  cbv zeta. exists lfhf. split; [exact Hl|].
  repeat split;
    rewrite (align_label_get _ _ _ _ _ _ _ Ha) by reflexivity;
    rewrite (train_bvp_preserves _ _ _ _ _ _ H4) by reflexivity;
    rewrite (train_acc_preserves _ _ _ _ _ _ H3) by reflexivity;
    rewrite (train_temp_preserves _ _ _ _ _ _ H2) by reflexivity;
    get_through; reflexivity.
Qed.

Lemma api_row_eda_bands (window : dict (list R)) (eda : list R) (r : row) :
  get window "EDA" = Some eda ->
  Api.extract_features_window window = Ok r ->
  exists lfhf,
    (if negb (Reqb (Api.bandpower eda 32 0.1 0.25) 0)
     then py_truediv (Api.bandpower eda 32 0.01 0.1) (Api.bandpower eda 32 0.1 0.25)
     else Ok 0%R) = Ok lfhf
    /\ get r "EDA_LF" = Some (Fin (Api.bandpower eda 32 0.01 0.1))
    /\ get r "EDA_HF" = Some (Fin (Api.bandpower eda 32 0.1 0.25))
    /\ get r "EDA_LFHF" = Some (Fin lfhf).
Proof.
  intros He H. pose proof H as H'.
  apply api_extract_sections in H.
  destruct H as (s1 & s2 & s3 & G1 & _).
  destruct (api_eda_full _ _ _ _ He G1) as (se & pe & lfhf & Gs1 & Gp & Gl & E1).
  exists lfhf. split; [exact Gl|].
  clear G1 Gs1 E1.
  api_invert H';
    repeat match goal with
           | E : getitem _ _ = Ok _ |- _ => apply getitem_some in E
           end;
    match goal with
    | E : get window "EDA" = Some ?e |- _ => rewrite He in E; injection E as <-
    end;
    match goal with
    | E : (if negb (Reqb (Api.bandpower eda _ _ _) 0) then _ else _) = Ok ?v |- _ =>
        rewrite Gl in E; injection E as <-
    end;
    (repeat split; get_through; reflexivity).
Qed.

(** With the base rate of 32 Hz and a window of at most 213 samples (the
    scripts use 192), the EDA bands 0.01-0.1 Hz and 0.1-0.25 Hz are
    narrower than the spacing of the frequency bins: [EDA_LF], [EDA_HF]
    and [EDA_LFHF] are 0 in every row of both paths. *)
Theorem eda_bands_zero_in_short_windows
        (signals : dict (list pyfloat)) (labels : list Z) (scale : Float64.float64)
        (start end_ : Z) (ch : list pyfloat) (train_row : row)
        (window : dict (list R)) (eda : list R) (serve_row : row) :
  get signals "EDA" = Some ch ->
  0 <= start <= end_ -> end_ - start <= 213 ->
  Train.window_features signals labels scale 32 start end_ = Train.Next train_row ->
  get window "EDA" = Some eda ->
  (length eda <= 213)%nat ->
  Api.extract_features_window window = Ok serve_row ->
  Forall (fun k => get train_row k = Some (Fin 0) /\ get serve_row k = Some (Fin 0))
         ["EDA_LF"; "EDA_HF"; "EDA_LFHF"]%string.
Proof.
  intros He Hs Hw Htrain We Hlen Hserve.
  destruct (train_row_eda_bands _ _ _ _ _ _ _ _ He Htrain)
    as (t & Ht & Tlf & Thf & Tlfhf).
  destruct (api_row_eda_bands _ _ _ We Hserve) as (s & Hsv & Slf & Shf & Slfhf).
  cbv zeta in *.
  set (teda := finite_part (slice ch start end_)) in *.
  assert (Hn : (INR (length teda) <= 213)%R).
  { pose proof (finite_part_length_le (slice ch start end_)).
    pose proof (slice_length_le ch start end_ (proj1 Hs) ltac:(lia)).
    replace 213%R with (INR 213) by (cbn; lra).
    apply le_INR. fold teda in H. lia. }
  assert (Hn' : (INR (length eda) <= 213)%R).
  { replace 213%R with (INR 213) by (cbn; lra). apply le_INR. exact Hlen. }
  pose proof (pos_INR (length teda)). pose proof (pos_INR (length eda)).
  rewrite (train_bandpower_narrow teda 32 0.01 0.1) in * by lra.
  rewrite (train_bandpower_narrow teda 32 0.1 0.25) in * by lra.
  rewrite !bandpower_same in *.
  rewrite (train_bandpower_narrow eda 32 0.01 0.1) in * by lra.
  rewrite (train_bandpower_narrow eda 32 0.1 0.25) in * by lra.
  rewrite Rltb_false in Ht by lra. injection Ht as <-.
  rewrite Reqb_true in Hsv by reflexivity. cbn [negb] in Hsv. injection Hsv as <-.
  repeat constructor; assumption.
Qed.

Lemma eda_bands_zero_in_short_windows_witness :
  exists train_row serve_row,
    Train.window_features Example.signals Example.chest_labels
      (Float64.true_divide 4 4) 32 0 4 = Train.Next train_row
    /\ Api.extract_features_window Example.window = Ok serve_row
    /\ Forall (fun k => get train_row k = Some (Fin 0)
                        /\ get serve_row k = Some (Fin 0))
              ["EDA_LF"; "EDA_HF"; "EDA_LFHF"]%string.
Proof.
  destruct example_modality as [row4 Hm].
  destruct example_serving_run as [serve_row Hr].
  exists (set row4 "label" (of_int 1)), serve_row.
  split; [exact (example_window row4 Hm)|]. split; [exact Hr|].
  apply (eda_bands_zero_in_short_windows
           Example.signals Example.chest_labels (Float64.true_divide 4 4) 0 4
           (map Fin Example.ramp4) (set row4 "label" (of_int 1))
           Example.window Example.ramp4 serve_row).
  - reflexivity.
  - lia.
  - lia.
  - exact (example_window row4 Hm).
  - reflexivity.
  - cbn. lia.
  - exact Hr.
Defined.

(** ** The HRV bands *)

Lemma interp_length (xs xp fp ys : list R) :
  interp xs xp fp = Ok ys -> length ys = length xs.
Proof.
  revert ys. induction xs as [|x xs IH]; intros ys H; cbn [interp] in H.
  - destruct (_ || _); [discriminate|]. injection H as <-. reflexivity.
  - apply bind_ok in H. destruct H as (y & _ & H).
    apply bind_ok in H. destruct H as (ys' & H' & H).
    injection H as <-. cbn. f_equal. apply IH. exact H'.
Qed.

Lemma linspace_length (a b : R) (n : nat) : length (linspace a b n) = n.
Proof.
  destruct n as [|[|n]]; [reflexivity|reflexivity|].
  unfold linspace. rewrite length_map, length_seq. reflexivity.
Qed.

Lemma cumsum_length (a : list R) : length (cumsum a) = length a.
Proof.
  unfold cumsum. generalize 0%R. induction a as [|x a IH]; intros acc;
    [reflexivity|]. cbn. f_equal. apply IH.
Qed.

Lemma INR_le_15 (n : nat) : (n <= 15)%nat -> (0 <= INR n <= 15)%R.
Proof.
  intros H. split; [apply pos_INR|].
  replace 15%R with (INR 15) by (cbn; lra). apply le_INR. exact H.
Qed.

Lemma train_hrv_bands_zero (ibi : list R) :
  (length ibi <= 15)%nat ->
  try_except (Train.hrv_bands ibi) (0, 0, 0)%R = (0, 0, 0)%R.
Proof.
  intros Hlen. unfold Train.hrv_bands.
  destruct (index (cumsum ibi) 0) as [t0|]; [|reflexivity]. cbn [bind].
  destruct (index (cumsum ibi) (-1)) as [t1|]; [|reflexivity]. cbn [bind].
  destruct (interp _ _ _) as [ibi_interp|] eqn:Hi; [|reflexivity]. cbn [bind].
  apply interp_length in Hi. rewrite linspace_length, cumsum_length in Hi.
  assert (Hn : (0 <= INR (length ibi_interp) <= 15)%R)
    by (apply INR_le_15; lia).
  rewrite (train_bandpower_narrow ibi_interp 4 0.04 0.15) by lra.
  rewrite (train_bandpower_narrow ibi_interp 4 0.15 0.4) by lra.
  rewrite Rltb_false by lra. reflexivity.
Qed.

Lemma api_hrv_bands_zero (ibi : list R) :
  (length ibi <= 15)%nat ->
  try_except (Api.hrv_bands ibi) (0, 0, 0)%R = (0, 0, 0)%R.
Proof.
  intros Hlen. unfold Api.hrv_bands.
  destruct (index (cumsum ibi) 0) as [t0|]; [|reflexivity]. cbn [bind].
  destruct (index (cumsum ibi) (-1)) as [t1|]; [|reflexivity]. cbn [bind].
  destruct (interp _ _ _) as [ibi_interp|] eqn:Hi; [|reflexivity]. cbn [bind].
  apply interp_length in Hi. rewrite linspace_length, cumsum_length in Hi.
  assert (Hn : (0 <= INR (length ibi_interp) <= 15)%R)
    by (apply INR_le_15; lia).
  change Api.bandpower with Train.bandpower.
  rewrite (train_bandpower_narrow ibi_interp 4 0.04 0.15) by lra.
  rewrite (train_bandpower_narrow ibi_interp 4 0.15 0.40) by lra.
  rewrite Reqb_true by reflexivity. reflexivity.
Qed.

Lemma train_hrv_bands_entries (peaks : list nat) :
  (length peaks <= 16)%nat ->
  exists h1 h2 h3 h4,
    Train.hrv peaks = [h1; h2; h3; h4; Fin 0; Fin 0; Fin 0].
Proof.
  intros Hlen. unfold Train.hrv.
  destruct (1 <? length peaks)%nat; [|eauto 10].
  rewrite train_hrv_bands_zero; [eauto 10|].
  rewrite length_map, diffz_length, length_map. lia.
Qed.

(** With at most 16 detected pulse peaks (at most 15 inter-beat
    intervals, resampled at the nominal 4 Hz) the HRV bands 0.04-0.15 Hz
    and 0.15-0.4 Hz are narrower than the spacing of the frequency bins:
    [HRV_LF], [HRV_HF] and [HRV_LFHF] are 0 in the rows of both paths. *)
Theorem hrv_bands_zero_up_to_16_peaks
        (signals : dict (list pyfloat)) (labels : list Z) (scale : Float64.float64)
        (sr start end_ : Z) (channel : list pyfloat)
        (train_peaks : list nat) (train_row : row)
        (window : dict (list R)) (bvp : list R)
        (api_peaks : list nat) (api_row : row) :
  get signals "BVP" = Some channel ->
  Scipy.find_peaks (finite_part (slice channel (start * 2) (end_ * 2))) 19
  = Ok train_peaks ->
  (length train_peaks <= 16)%nat ->
  Train.window_features signals labels scale sr start end_ = Train.Next train_row ->
  get window "BVP" = Some bvp ->
  Scipy.find_peaks bvp 20 = Ok api_peaks ->
  (length api_peaks <= 16)%nat ->
  Api.extract_features_window window = Ok api_row ->
  Forall (fun k => get train_row k = Some (Fin 0) /\ get api_row k = Some (Fin 0))
         ["HRV_LF"; "HRV_HF"; "HRV_LFHF"]%string.
Proof.
  intros Hb Hpeaks Hlen Hrow Hb' Hpeaks' Hlen' Hrow'.
  assert (Htrain : Forall (fun k => get train_row k = Some (Fin 0))
                          ["HRV_LF"; "HRV_HF"; "HRV_LFHF"]%string).
  { apply train_window_inv in Hrow. destruct Hrow as (row3 & row4 & Hbvp & _ & Hal).
    destruct (train_bvp_inv _ _ _ _ _ _ Hb Hbvp) as (_ & peaks & Hp & ->).
    rewrite Hpeaks in Hp. injection Hp as <-.
    destruct (train_hrv_bands_entries train_peaks Hlen) as (h1 & h2 & h3 & h4 & Eh).
    repeat constructor;
      (erewrite align_label_get by (exact Hal || reflexivity));
      rewrite Eh; get_through; reflexivity. }
  assert (Hserve : Forall (fun k => get api_row k = Some (Fin 0))
                          ["HRV_LF"; "HRV_HF"; "HRV_LFHF"]%string).
  { apply api_bvp_inv in Hrow'. destruct Hrow' as (bvp' & row1 & peaks & Hg & Hp & Hh).
    rewrite Hb' in Hg. injection Hg as <-.
    rewrite Hpeaks' in Hp. injection Hp as <-.
    unfold Api.hrv_features in Hh.
    destruct (1 <? length api_peaks)%nat.
    - apply bind_ok in Hh. destruct Hh as (p & _ & Hh).
      rewrite api_hrv_bands_zero in Hh
        by (rewrite length_map, diffz_length, length_map; lia).
      injection Hh as <-. repeat constructor; get_through; reflexivity.
    - injection Hh as <-. repeat constructor; get_through; reflexivity. }
  inversion Htrain as [|? ? T1 Htrain']; subst.
  inversion Htrain' as [|? ? T2 Htrain'']; subst.
  inversion Htrain'' as [|? ? T3 _]; subst.
  inversion Hserve as [|? ? S1 Hserve']; subst.
  inversion Hserve' as [|? ? S2 Hserve'']; subst.
  inversion Hserve'' as [|? ? S3 _]; subst.
  repeat constructor; assumption.
Qed.

Lemma hrv_bands_zero_up_to_16_peaks_witness :
  exists train_row api_row,
    Train.window_features Example.signals Example.chest_labels
      (Float64.true_divide 4 4) 32 0 4 = Train.Next train_row
    /\ Api.extract_features_window Example.window = Ok api_row
    /\ Forall (fun k => get train_row k = Some (Fin 0)
                        /\ get api_row k = Some (Fin 0))
              ["HRV_LF"; "HRV_HF"; "HRV_LFHF"]%string.
Proof.
  destruct example_modality as [row4 Hm].
  destruct example_serving_run as [api_row Hr].
  exists (set row4 "label" (of_int 1)), api_row.
  split; [exact (example_window row4 Hm)|]. split; [exact Hr|].
  apply (hrv_bands_zero_up_to_16_peaks
           Example.signals Example.chest_labels (Float64.true_divide 4 4)
           32 0 4 (map Fin Example.ramp8) [] (set row4 "label" (of_int 1))
           Example.window Example.ramp8 [] api_row).
  - reflexivity.
  - change (finite_part (slice (map Fin Example.ramp8) (0 * 2) (4 * 2)))
      with Example.ramp8.
    apply find_peaks_sorted; [lia|exact ramp8_sorted].
  - cbn. lia.
  - exact (example_window row4 Hm).
  - reflexivity.
  - apply find_peaks_sorted; [lia|exact ramp8_sorted].
  - cbn. lia.
  - exact Hr.
Defined.

(** ** The training extraction does not raise *)

Lemma slice_length_exact {A : Type} (a : list A) (i j : Z) :
  0 <= i <= j -> j <= Z.of_nat (length a) ->
  length (slice a i j) = Z.to_nat (j - i).
Proof.
  intros Hij Hj. unfold slice, clamp_index.
  destruct (Z.ltb_spec i 0); [lia|].
  destruct (Z.ltb_spec j 0); [lia|].
  rewrite length_firstn, length_skipn. lia.
Qed.

Lemma fold_left_min_le (ls : list Z) (l x : Z) :
  In x (l :: ls) -> fold_left Z.min ls l <= x.
Proof.
  revert l. induction ls as [|y ls IH]; intros l Hin; cbn [fold_left].
  - destruct Hin as [->|[]]. lia.
  - assert (Hacc : forall a b, a <= b -> fold_left Z.min ls a <= b).
    { intros a b Hab. clear IH Hin. revert a Hab.
      induction ls as [|z ls IH]; intros a Hab; cbn [fold_left]; [lia|].
      apply IH. lia. }
    destruct Hin as [->|[->|Hin]].
    + apply Hacc. lia.
    + apply Hacc. lia.
    + apply IH. right. assumption.
Qed.

Lemma get_in {V : Type} (d : dict V) (k : string) (v : V) :
  get d k = Some v -> In (k, v) d.
Proof.
  induction d as [|[k0 v0] d IH]; cbn; [discriminate|].
  destruct (String.eqb_spec k k0) as [->|_].
  - intros [= ->]. left. reflexivity.
  - intros H. right. apply IH. exact H.
Qed.

(** No channel is shorter than the sample count the loop runs over. *)
Lemma min_length_le (signals : dict (list pyfloat)) (n : Z)
      (k : string) (ch : list pyfloat) :
  Train.min_length signals = Ok n -> get signals k = Some ch ->
  n <= Z.of_nat (length ch).
Proof.
  intros Hn Hg. apply get_in in Hg. unfold Train.min_length in Hn.
  destruct (map _ signals) as [|l ls] eqn:E; [discriminate|].
  injection Hn as <-. apply fold_left_min_le. rewrite <- E.
  apply in_map_iff. exists (k, ch). split; [reflexivity|assumption].
Qed.

Lemma train_eda_no_throw (signals : dict (list pyfloat)) (sr start end_ : Z)
      (row0 : row) :
  2 <= sr ->
  (exists row1, Train.eda_features signals sr start end_ row0 = Train.Next row1)
  \/ Train.eda_features signals sr start end_ row0 = Train.Continue.
Proof.
  intros Hsr. destruct (get signals "EDA") as [ch|] eqn:Hg.
  - destruct (Train.valid (slice ch start end_)) eqn:Hv.
    + left. eapply train_eda_next; eassumption.
    + right. eapply train_eda_gate; eassumption.
  - left. unfold Train.eda_features. rewrite Hg. eauto.
Qed.

Lemma train_temp_no_throw (signals : dict (list pyfloat)) (n start end_ : Z)
      (row0 : row) :
  Train.min_length signals = Ok n ->
  0 <= start < end_ -> end_ <= n ->
  (exists row1, Train.temp_features signals start end_ row0 = Train.Next row1)
  \/ Train.temp_features signals start end_ row0 = Train.Continue.
Proof.
  intros Hn Hse He. destruct (get signals "TEMP") as [ch|] eqn:Hg.
  - destruct (Train.valid (slice ch start end_)) eqn:Hv.
    + left. eapply train_temp_next; try eassumption.
      pose proof (min_length_le _ _ _ _ Hn Hg).
      pose proof (slice_length_exact ch start end_ ltac:(lia) ltac:(lia)) as Hl.
      intros E. rewrite E in Hl. cbn in Hl. lia.
    + right. eapply train_temp_gate; eassumption.
  - left. unfold Train.temp_features. rewrite Hg. eauto.
Qed.

Lemma train_acc_no_throw (signals : dict (list pyfloat)) (n start end_ : Z)
      (row0 : row) :
  Train.min_length signals = Ok n ->
  0 <= start < end_ -> end_ <= n ->
  (exists row1, Train.acc_features signals start end_ row0 = Train.Next row1)
  \/ Train.acc_features signals start end_ row0 = Train.Continue.
Proof.
  intros Hn Hse He.
  destruct (get signals "ACC_x") as [cx|] eqn:Hx;
    [|left; unfold Train.acc_features; rewrite Hx; eauto].
  destruct (get signals "ACC_y") as [cy|] eqn:Hy;
    [|left; unfold Train.acc_features; rewrite Hx, Hy; eauto].
  destruct (get signals "ACC_z") as [cz|] eqn:Hz;
    [|left; unfold Train.acc_features; rewrite Hx, Hy, Hz; eauto].
  pose proof (min_length_le _ _ _ _ Hn Hx).
  pose proof (min_length_le _ _ _ _ Hn Hy).
  pose proof (min_length_le _ _ _ _ Hn Hz).
  rewrite (train_acc_gate _ _ _ _ _ _ _ Hx Hy Hz)
    by (rewrite !slice_length_exact by lia; reflexivity).
  destruct (Train.valid _); [left; eauto|right; reflexivity].
Qed.

Lemma train_bvp_no_throw (signals : dict (list pyfloat)) (start end_ : Z)
      (row0 : row) :
  (exists row1, Train.bvp_features signals start end_ row0 = Train.Next row1)
  \/ Train.bvp_features signals start end_ row0 = Train.Continue.
Proof.
  destruct (get signals "BVP") as [ch|] eqn:Hg.
  - destruct (Train.valid (slice ch (start * 2) (end_ * 2))) eqn:Hv.
    + left. eapply train_bvp_next; eassumption.
    + right. eapply train_bvp_gate; eassumption.
  - left. unfold Train.bvp_features. rewrite Hg. eauto.
Qed.

Lemma train_window_no_throw (signals : dict (list pyfloat)) (labels : list Z)
      (scale : Float64.float64) (sr n start end_ : Z) :
  Train.min_length signals = Ok n ->
  2 <= sr -> 0 <= start < end_ -> end_ <= n ->
  (exists r, Train.window_features signals labels scale sr start end_
             = Train.Next r)
  \/ Train.window_features signals labels scale sr start end_ = Train.Continue.
Proof.
  intros Hn Hsr Hse He. unfold Train.window_features, Train.modality_features.
  destruct (train_eda_no_throw signals sr start end_ [] Hsr) as [[row1 ->]| ->];
    cbn [Train.flow_bind]; [|right; reflexivity].
  destruct (train_temp_no_throw signals n start end_ row1 Hn Hse He)
    as [[row2 ->]| ->]; cbn [Train.flow_bind]; [|right; reflexivity].
  destruct (train_acc_no_throw signals n start end_ row2 Hn Hse He)
    as [[row3 ->]| ->]; cbn [Train.flow_bind]; [|right; reflexivity].
  destruct (train_bvp_no_throw signals start end_ row3) as [[row4 ->]| ->];
    cbn [Train.flow_bind]; [|right; reflexivity].
  left. rewrite align_label_eq. eauto.
Qed.

Lemma loop_no_throw (signals : dict (list pyfloat)) (labels : list Z)
      (scale : Float64.float64) (sr n : Z) (bounds : list (Z * Z)) (features : list row) :
  Train.min_length signals = Ok n -> 2 <= sr ->
  Forall (fun b => 0 <= fst b < snd b /\ snd b <= n) bounds ->
  exists rows,
    Train.loop signals labels scale sr bounds features = Ok rows
    /\ (length rows <= length features + length bounds)%nat.
Proof.
  intros Hn Hsr Hall. revert features.
  induction Hall as [|[start end_] bounds [Hse He] _ IH]; intros features.
  - exists features. split; [reflexivity|lia].
  - cbn [Train.loop]. cbn [fst snd] in *.
    destruct (train_window_no_throw signals labels scale sr n start end_
                Hn Hsr Hse He) as [[r ->]| ->].
    + destruct (IH (if contains r "label" then (features ++ [r])%list else features))
        as (rows & Hrows & Hlen).
      exists rows. split; [exact Hrows|].
      destruct (contains r "label"); [rewrite length_app in Hlen|];
        cbn [length] in *; lia.
    + destruct (IH features) as (rows & Hrows & Hlen).
      exists rows. split; [exact Hrows|]. cbn [length]. lia.
Qed.

(** A recording with at least one channel, none of them empty, is
    processed without an exception for every base rate of at least 2 Hz
    and every positive window and step: no peak-distance, indexing,
    broadcasting or division error can occur inside a window.  The result
    holds at most one row per window. *)
Theorem training_extraction_returns
        (signals : dict (list pyfloat)) (labels : list Z)
        (sr window_samples step_samples n : Z) :
  Train.min_length signals = Ok n -> 0 < n ->
  2 <= sr -> 0 < window_samples -> 0 < step_samples ->
  exists rows bounds,
    Train.extract_window_features signals labels sr window_samples step_samples
    = Ok rows
    /\ Train.window_bounds n window_samples step_samples = Ok bounds
    /\ (length rows <= length bounds)%nat.
Proof.
  intros Hn Hpos Hsr Hw Hstep.
  unfold Train.extract_window_features. rewrite Hn. cbn [bind].
  destruct (Z.eqb_spec n 0) as [|_]; [lia|].
  pose proof (window_count_spec n window_samples step_samples Hstep) as Hb.
  rewrite Hb. cbn [bind].
  set (count := Z.to_nat ((n - window_samples) / step_samples + 1)) in *.
  destruct (loop_no_throw signals labels
              (Float64.true_divide (Z.of_nat (length labels)) n) sr n
              (map (fun k => (step_samples * Z.of_nat k,
                              step_samples * Z.of_nat k + window_samples))
                   (seq 0 count)) [] Hn Hsr) as (rows & Hrows & Hlen).
  - apply Forall_map, Forall_forall. intros k Hk. apply in_seq in Hk.
    cbn [fst snd]. split; [nia|].
    assert (Z.of_nat k < (n - window_samples) / step_samples + 1) by lia.
    assert (step_samples * ((n - window_samples) / step_samples)
            <= n - window_samples) by (apply Z.mul_div_le; lia).
    nia.
  - exists rows. eexists. split; [exact Hrows|]. split; [reflexivity|].
    cbn [length] in Hlen. exact Hlen.
Qed.

Lemma training_extraction_returns_witness :
  exists rows bounds,
    Train.extract_window_features Example.signals Example.chest_labels 32 4 4
    = Ok rows
    /\ Train.window_bounds 4 4 4 = Ok bounds
    /\ (length rows <= length bounds)%nat.
Proof.
  apply (training_extraction_returns Example.signals Example.chest_labels
           32 4 4 4); try lia. reflexivity.
Defined.

(** The checks made before the loop, in the order in which they fail: an
    empty recording raises [ValueError] (the minimum of nothing), a
    recording with an empty channel raises [ZeroDivisionError] (the label
    scale), a zero step raises [ValueError] (the range); a recording
    shorter than one window gives no rows and no error. *)
Theorem training_extraction_edges :
  (forall labels sr window_samples step_samples,
      Train.extract_window_features [] labels sr window_samples step_samples
      = Raise ValueError)
  /\ (forall signals labels sr window_samples step_samples,
         Train.min_length signals = Ok 0 ->
         Train.extract_window_features signals labels sr window_samples
           step_samples
         = Raise ZeroDivisionError)
  /\ (forall signals labels sr window_samples n,
         Train.min_length signals = Ok n -> n <> 0 ->
         Train.extract_window_features signals labels sr window_samples 0
         = Raise ValueError)
  /\ (forall signals labels sr window_samples step_samples n,
         Train.min_length signals = Ok n -> 0 < n < window_samples ->
         0 < step_samples ->
         Train.extract_window_features signals labels sr window_samples
           step_samples
         = Ok []).
Proof.
  split; [|split; [|split]].
  - reflexivity.
  - intros * Hn. unfold Train.extract_window_features. rewrite Hn. reflexivity.
  - intros * Hn Hne. unfold Train.extract_window_features. rewrite Hn.
    cbn [bind]. destruct (Z.eqb_spec n 0); [contradiction|]. reflexivity.
  - intros * Hn Hlt Hstep. unfold Train.extract_window_features. rewrite Hn.
    cbn [bind]. destruct (Z.eqb_spec n 0); [lia|].
    rewrite window_count_spec by assumption.
    assert ((n - window_samples) / step_samples < 0)
      by (apply Z.div_lt_upper_bound; lia).
    replace (Z.to_nat ((n - window_samples) / step_samples + 1)) with O by lia.
    reflexivity.
Qed.

(** ** The advice text *)

Lemma get_keys {V : Type} (d : dict V) (k : string) :
  In k (keys d) -> exists v, get d k = Some v.
Proof.
  induction d as [|[k0 v0] d IH]; cbn; [tauto|].
  destruct (String.eqb_spec k k0) as [->|Hne]; [eauto|].
  intros [H|H]; [congruence|]. apply IH. exact H.
Qed.

Lemma keys_get {V : Type} (d : dict V) (k : string) (v : V) :
  get d k = Some v -> In k (keys d).
Proof.
  intros H. apply get_in in H. unfold keys.
  change k with (fst (k, v)). apply in_map. exact H.
Qed.

Lemma concat_cons_nonempty (sep m : string) (ms : list string) :
  m <> ""%string -> String.concat sep (m :: ms) <> ""%string.
Proof.
  destruct m as [|c m]; [congruence|]. intros _.
  destruct ms; cbn; discriminate.
Qed.

Lemma advice_join_nonempty (d : string) (l : list string) :
  d <> ""%string -> Forall (fun m => m <> ""%string) l ->
  String.concat " " match l with [] => [d] | _ :: _ => l end <> ""%string.
Proof.
  intros Hd Hl. destruct Hl as [|m l Hm _].
  - apply concat_cons_nonempty. exact Hd.
  - apply concat_cons_nonempty. exact Hm.
Qed.

Lemma generate_advice_ok (features : row) (hr eda temp acc hrv : pyfloat) :
  get features "HR_mean" = Some hr ->
  get features "EDA_mean" = Some eda ->
  get features "TEMP_mean" = Some temp ->
  get features "ACC_mag_mean" = Some acc ->
  get features "HRV_SDNN" = Some hrv ->
  exists advice,
    Api.generate_advice features = Ok advice /\ advice <> ""%string.
Proof.
  intros H1 H2 H3 H4 H5. unfold Api.generate_advice, getitem.
  rewrite H1, H2, H3, H4, H5. cbn [bind]. cbv zeta.
  eexists. split; [reflexivity|].
  apply advice_join_nonempty; [discriminate|].
  repeat (apply Forall_app; split);
    repeat match goal with
           | |- context [if ?c then _ else _] => destruct c
           end;
    repeat constructor; discriminate.
Qed.

Lemma generate_advice_raises (features : row) (k : string) :
  In k [ "HR_mean"; "EDA_mean"; "TEMP_mean"; "ACC_mag_mean"; "HRV_SDNN" ]%string ->
  get features k = None ->
  Api.generate_advice features = Raise KeyError.
Proof.
  intros Hin Hk. unfold Api.generate_advice, getitem.
  destruct (get features "HR_mean") eqn:H1; [|reflexivity].
  destruct (get features "EDA_mean") eqn:H2; [|reflexivity].
  destruct (get features "TEMP_mean") eqn:H3; [|reflexivity].
  destruct (get features "ACC_mag_mean") eqn:H4; [|reflexivity].
  destruct (get features "HRV_SDNN") eqn:H5; [|reflexivity].
  cbn [In] in Hin.
  destruct Hin as [<-|[<-|[<-|[<-|[<-|[]]]]]]; congruence.
Qed.

Lemma advice_entries_dec (features : row) :
  (exists hr eda temp acc hrv,
      get features "HR_mean" = Some hr
      /\ get features "EDA_mean" = Some eda
      /\ get features "TEMP_mean" = Some temp
      /\ get features "ACC_mag_mean" = Some acc
      /\ get features "HRV_SDNN" = Some hrv)
  \/ (exists k,
         In k [ "HR_mean"; "EDA_mean"; "TEMP_mean"; "ACC_mag_mean";
                "HRV_SDNN" ]%string
         /\ get features k = None).
Proof.
  destruct (get features "HR_mean") eqn:H1;
    [|right; eexists; split; [|exact H1]; cbn; tauto].
  destruct (get features "EDA_mean") eqn:H2;
    [|right; eexists; split; [|exact H2]; cbn; tauto].
  destruct (get features "TEMP_mean") eqn:H3;
    [|right; eexists; split; [|exact H3]; cbn; tauto].
  destruct (get features "ACC_mag_mean") eqn:H4;
    [|right; eexists; split; [|exact H4]; cbn; tauto].
  destruct (get features "HRV_SDNN") eqn:H5;
    [|right; eexists; split; [|exact H5]; cbn; tauto].
  left. eauto 10.
Qed.

(** [generate_advice] returns a text exactly when the row has the five
    entries it reads, the text is never empty, and the only exception it
    can raise is the [KeyError] of a missing entry. *)
Theorem generate_advice_answers (features : row) :
  (Forall (fun k => contains features k = true)
          [ "HR_mean"; "EDA_mean"; "TEMP_mean"; "ACC_mag_mean"; "HRV_SDNN" ]%string
   <-> exists advice, Api.generate_advice features = Ok advice)
  /\ (forall advice,
         Api.generate_advice features = Ok advice -> advice <> ""%string)
  /\ (forall e, Api.generate_advice features = Raise e -> e = KeyError).
Proof.
  destruct (advice_entries_dec features)
    as [(hr & eda & temp & acc & hrv & H1 & H2 & H3 & H4 & H5)|(k & Hin & Hk)].
  - destruct (generate_advice_ok features hr eda temp acc hrv H1 H2 H3 H4 H5)
      as (advice & Ha & Hne).
    split; [split|split].
    + intros _. eauto.
    + intros _. rewrite Forall_forall. intros k Hin. cbn [In] in Hin.
      unfold contains.
      destruct Hin as [<-|[<-|[<-|[<-|[<-|[]]]]]];
        [rewrite H1|rewrite H2|rewrite H3|rewrite H4|rewrite H5]; reflexivity.
    + intros advice' H. congruence.
    + intros e H. congruence.
  - rewrite (generate_advice_raises features k Hin Hk).
    split; [split|split].
    + intros HF. rewrite Forall_forall in HF. specialize (HF k Hin).
      unfold contains in HF. rewrite Hk in HF. discriminate.
    + intros [a H]. discriminate.
    + intros advice H. discriminate.
    + intros e [= <-]. reflexivity.
Qed.

Lemma api_hrv_zero_entries (peaks : list nat) (row0 r : row) :
  (length peaks < 2)%nat -> Api.hrv_features peaks row0 = Ok r ->
  get r "HR_mean" = Some (Fin 0) /\ get r "HRV_SDNN" = Some (Fin 0).
Proof.
  intros Hl H. unfold Api.hrv_features in H.
  destruct (Nat.ltb_spec 1 (length peaks)); [lia|].
  injection H as <-. cbn [fold_left Api.HRV_NAMES].
  split; get_through; reflexivity.
Qed.

(** When the pulse detection finds fewer than two peaks in the window, the
    zero written for the heart rate and for SDNN is read by the advice
    generator as a measurement: the advice opens with the low heart rate
    sentence and closes with the low HRV sentence, whatever the other
    channels hold. *)
Theorem advice_without_pulse
        (signals : dict (list R)) (bvp : list R) (peaks : list nat)
        (features : row) :
  get signals "BVP" = Some bvp ->
  Scipy.find_peaks bvp 20 = Ok peaks ->
  (length peaks < 2)%nat ->
  Api.extract_features_window signals = Ok features ->
  exists middle,
    Api.generate_advice features
    = Ok (String.concat " "
            ("Your heart rate seems low. If you feel sluggish, a brief walk or stretch may help."%string
             :: middle
             ++ ["Your HRV is low, which may reflect reduced stress tolerance. A short relaxation exercise could help."%string])).
Proof.
  intros Hb Hp Hl Hr.
  destruct (api_bvp_inv signals features Hr) as (bvp' & row1 & peaks' & Hb' & Hp' & Hh).
  rewrite Hb in Hb'. injection Hb' as <-.
  rewrite Hp in Hp'. injection Hp' as <-.
  destruct (api_hrv_zero_entries peaks row1 features Hl Hh) as [Hhr Hsd].
  pose proof (api_row_keys signals features Hr) as Hk.
  destruct (get_keys features "EDA_mean") as [eda He];
    [rewrite Hk; cbn; tauto|].
  destruct (get_keys features "TEMP_mean") as [temp Ht];
    [rewrite Hk; cbn; tauto|].
  destruct (get_keys features "ACC_mag_mean") as [acc Ha];
    [rewrite Hk; cbn; tauto|].
  unfold Api.generate_advice, getitem.
  rewrite Hhr, Hsd, He, Ht, Ha. cbn [bind gt lt].
  rewrite (Rltb_false 100 0) by lra.
  rewrite (Rltb_true 0 55) by lra.
  rewrite (Rltb_true 0 0.03) by lra.
  cbv zeta. cbn [app]. rewrite !app_assoc.
  eexists. reflexivity.
Qed.

Lemma advice_without_pulse_witness :
  exists features middle,
    Api.extract_features_window Example.window = Ok features
    /\ Api.generate_advice features
       = Ok (String.concat " "
               ("Your heart rate seems low. If you feel sluggish, a brief walk or stretch may help."%string
                :: middle
                ++ ["Your HRV is low, which may reflect reduced stress tolerance. A short relaxation exercise could help."%string])).
Proof.
  destruct example_serving_run as [features Hr].
  destruct (advice_without_pulse Example.window Example.ramp8 [] features
              eq_refl
              (find_peaks_sorted Example.ramp8 20 ltac:(lia) ramp8_sorted)
              ltac:(cbn; lia) Hr) as [middle H].
  exists features, middle. split; [exact Hr | exact H].
Defined.

(** ** The endpoint outside the override, to the end *)

Lemma select_ok (df : row) (columns : list string) :
  Forall (fun c => In c (keys df)) columns ->
  exists out,
    Api.select df columns = Ok out
    /\ keys out = columns
    /\ Forall (fun kv => get df (fst kv) = Some (snd kv)) out.
Proof.
  induction 1 as [|c columns Hc _ IH].
  - exists []. repeat split. constructor.
  - destruct IH as (out & Hs & Hk & Hg).
    destruct (get_keys df c Hc) as [v Hv].
    exists ((c, v) :: out). cbn [Api.select]. unfold getitem.
    rewrite Hv, Hs. cbn [bind]. repeat split.
    + unfold keys in *. cbn [map fst]. f_equal. exact Hk.
    + constructor; assumption.
Qed.

Lemma fillna_no_nan (features : row) (k : string) (v : pyfloat) :
  In (k, v) (("index"%string, Fin 0) :: Api.fillna features) ->
  isnan v = false.
Proof.
  intros [[= <- <-]|H]; [reflexivity|].
  unfold Api.fillna in H. apply in_map_iff in H.
  destruct H as ([k' v'] & [= <- <-] & _). cbn [snd].
  destruct (isnan v') eqn:E; [reflexivity | exact E].
Qed.

Lemma length_nonempty {A : Type} (l : list A) (n : nat) :
  length l = S n -> l <> [].
Proof. destruct l; [discriminate | congruence]. Qed.

(** Steps 3 to 6 on a window whose six arrays are present, non-empty and,
    for the three axes, of one length. *)
Lemma classify_answers
      (predict_proba : row -> R) (signals : dict (list R)) (w : Api.world)
      (eda temp ax ay az bvp : list R) :
  get signals "EDA" = Some eda -> get signals "TEMP" = Some temp ->
  get signals "ACC_x" = Some ax -> get signals "ACC_y" = Some ay ->
  get signals "ACC_z" = Some az -> get signals "BVP" = Some bvp ->
  eda <> [] -> temp <> [] -> ax <> [] -> bvp <> [] ->
  length ax = length ay -> length ay = length az ->
  exists df advice,
    Api.classify predict_proba signals w
    = (Ok (Api.Prediction
             (if Rleb Api.THRESH (predict_proba df)
              then "STRESSED"%string else "NOT STRESSED"%string)
             (predict_proba df) advice),
       Api.record Api.PredictProba (Api.record Api.ExtractFeatures w))
    /\ keys df = Api.order
    /\ get df "index" = Some (Fin 0)
    /\ Forall (fun kv => isnan (snd kv) = false) df
    /\ advice <> ""%string.
Proof.
  intros He Ht Hx Hy Hz Hb Ne Nt Nx Nb Hxy Hyz.
  destruct (api_extract_total signals eda temp ax ay az bvp
              He Ht Hx Hy Hz Hb Ne Nt Nx Nb Hxy Hyz) as [features Hr].
  pose proof (api_row_keys signals features Hr) as Hk.
  destruct (select_ok (("index"%string, Fin 0) :: Api.fillna features) Api.order)
    as (df & Hs & Hdk & Hdg).
  { cbn [keys map fst]. fold (keys (Api.fillna features)).
    rewrite fillna_keys, Hk.
    rewrite Forall_forall. intros c Hc. exact Hc. }
  assert (Hadv : exists advice,
             Api.generate_advice features = Ok advice /\ advice <> ""%string).
  { destruct (get_keys features "HR_mean") as [? ?]; [rewrite Hk; cbn; tauto|].
    destruct (get_keys features "EDA_mean") as [? ?]; [rewrite Hk; cbn; tauto|].
    destruct (get_keys features "TEMP_mean") as [? ?]; [rewrite Hk; cbn; tauto|].
    destruct (get_keys features "ACC_mag_mean") as [? ?]; [rewrite Hk; cbn; tauto|].
    destruct (get_keys features "HRV_SDNN") as [? ?]; [rewrite Hk; cbn; tauto|].
    eapply generate_advice_ok; eassumption. }
  destruct Hadv as (advice & Ha & Hne).
  exists df, advice. unfold Api.classify. rewrite Hr. cbv zeta.
  rewrite Hs, Ha. split; [reflexivity|]. split; [exact Hdk|].
  split; [|split; [|exact Hne]].
  - destruct df as [|[k0 v0] df']; [discriminate Hdk|].
    unfold keys in Hdk. cbn [map fst] in Hdk. injection Hdk as -> _.
    inversion Hdg as [|? ? Hg _]. cbn in Hg. injection Hg as <-.
    reflexivity.
  - rewrite Forall_forall in Hdg |- *. intros [k v] Hin.
    specialize (Hdg _ Hin). cbn [fst snd] in *.
    apply get_in in Hdg. exact (fillna_no_nan features k v Hdg).
Qed.

(** Outside the override the handler always answers with a prediction,
    never with an error: the synthetic window has 384 and 192 samples per
    array, so the feature extraction, the column selection and the advice
    all succeed.  The classifier sees the 45 columns of [order], with
    [index] equal to 0 and no [nan]; the status is [STRESSED] exactly when
    its probability reaches the threshold; 1344 draws are consumed and the
    classifier is called once. *)
Theorem predict_stress_classifies
        (noise : nat -> R) (predict_proba : row -> R)
        (input : Api.SensorInput) (w : Api.world) :
  Api.physiological_override input = false ->
  exists df advice w',
    Api.predict_stress noise predict_proba input w
    = (Api.Prediction
         (if Rleb Api.THRESH (predict_proba df)
          then "STRESSED"%string else "NOT STRESSED"%string)
         (predict_proba df) advice,
       w')
    /\ keys df = Api.order
    /\ get df "index" = Some (Fin 0)
    /\ Forall (fun kv => isnan (snd kv) = false) df
    /\ advice <> ""%string
    /\ Api.cursor w' = (Api.cursor w + 1344)%nat
    /\ Api.log w'
       = (Api.log w
          ++ [Api.Randn 384; Api.Randn 192; Api.Randn 192; Api.Randn 192;
              Api.Randn 192; Api.Randn 192; Api.ExtractFeatures;
              Api.PredictProba])%list.
Proof.
  intros H. unfold Api.predict_stress. rewrite H.
  cbn [Api.randn Api.cursor Api.log].
  match goal with
  | |- context [Api.classify ?pp ?s ?w0] =>
      destruct (classify_answers pp s w0 _ _ _ _ _ _
                  eq_refl eq_refl eq_refl eq_refl eq_refl eq_refl)
        as (df & advice & Hc & Hk & Hi & Hn & Ha)
  end;
    try (eapply length_nonempty; rewrite !length_map, length_seq; reflexivity);
    try (rewrite !length_map, !length_seq; reflexivity).
  rewrite Hc. exists df, advice. eexists. split; [reflexivity|].
  repeat (split; [assumption|]).
  cbn [Api.record Api.cursor Api.log]. split; [lia|].
  rewrite <- !app_assoc. reflexivity.
Qed.

Lemma predict_stress_classifies_witness :
  let input := {| Api.BVP := 0; Api.EDA := 0; Api.TEMP := 40;
                  Api.ACC_x := 0; Api.ACC_y := 0; Api.ACC_z := 0 |} in
  let w := {| Api.cursor := 0; Api.log := [] |} in
  let predict_proba := fun _ : row => 1%R in
  Api.physiological_override input = false
  /\ exists df advice w',
      Api.predict_stress (fun _ => 0%R) predict_proba input w
      = (Api.Prediction
           (if Rleb Api.THRESH (predict_proba df)
            then "STRESSED"%string else "NOT STRESSED"%string)
           (predict_proba df) advice,
         w')
      /\ keys df = Api.order
      /\ get df "index" = Some (Fin 0)
      /\ Forall (fun kv => isnan (snd kv) = false) df
      /\ advice <> ""%string
      /\ Api.cursor w' = (Api.cursor w + 1344)%nat
      /\ Api.log w'
         = (Api.log w
            ++ [Api.Randn 384; Api.Randn 192; Api.Randn 192; Api.Randn 192;
                Api.Randn 192; Api.Randn 192; Api.ExtractFeatures;
                Api.PredictProba])%list.
Proof.
  intros input w predict_proba.
  assert (H : Api.physiological_override input = false).
  { unfold Api.physiological_override, input. cbn [Api.TEMP].
    rewrite (Rleb_false 40 37.5) by lra. rewrite andb_false_r. reflexivity. }
  split; [exact H|].
  exact (predict_stress_classifies (fun _ => 0%R) predict_proba input w H).
Defined.

(** ** What the serving extraction needs *)

Lemma api_summary_nonempty (p : string) (a : list R) (row0 r : row) :
  Api.summary p a row0 = Ok r -> a <> [].
Proof.
  destruct a; [|discriminate]. unfold Api.summary. cbn [Np.min bind].
  discriminate.
Qed.

Lemma broadcast2_nonempty {A B C : Type} (f : A -> B -> C)
      (a : list A) (b : list B) (c : list C) :
  broadcast2 f a b = Ok c -> c <> [] -> a <> [] /\ b <> [].
Proof.
  unfold broadcast2. intros H Hc.
  destruct a as [|x a], b as [|y b]; cbn in H.
  - injection H as <-. contradiction.
  - destruct b; [injection H as <-; contradiction | discriminate].
  - destruct a; [injection H as <-; contradiction | discriminate].
  - split; discriminate.
Qed.

Lemma map_nonempty {A B : Type} (f : A -> B) (l : list A) :
  map f l <> [] -> l <> [].
Proof. destruct l; [contradiction | discriminate]. Qed.

(** The serving extraction returns a row only for a window that holds all
    six arrays, none of them empty; together with [api_extract_total] this
    leaves, as the only other windows with a row, those whose axes have
    different lengths that numpy can broadcast (one of them a single
    sample). *)
Theorem serving_extraction_needs_samples
        (signals : dict (list R)) (features : row) :
  Api.extract_features_window signals = Ok features ->
  exists eda temp ax ay az bvp,
    get signals "EDA" = Some eda /\ get signals "TEMP" = Some temp
    /\ get signals "ACC_x" = Some ax /\ get signals "ACC_y" = Some ay
    /\ get signals "ACC_z" = Some az /\ get signals "BVP" = Some bvp
    /\ eda <> [] /\ temp <> [] /\ ax <> [] /\ ay <> [] /\ az <> []
    /\ bvp <> [].
Proof.
  intros H.
  destruct (api_extract_sections signals features H)
    as (row1 & row2 & row3 & He & Ht & Ha & Hb).
  unfold Api.eda_features in He.
  apply bind_ok in He. destruct He as (eda & Ge & He).
  apply bind_ok in He. destruct He as (r1 & Se & _).
  unfold Api.temp_features in Ht.
  apply bind_ok in Ht. destruct Ht as (temp & Gt & Ht).
  apply bind_ok in Ht. destruct Ht as (r2 & St & _).
  unfold Api.acc_features in Ha.
  apply bind_ok in Ha. destruct Ha as (ax & Gx & Ha).
  apply bind_ok in Ha. destruct Ha as (ay & Gy & Ha).
  apply bind_ok in Ha. destruct Ha as (az & Gz & Ha).
  cbv zeta in Ha.
  apply bind_ok in Ha. destruct Ha as (xy & Bxy & Ha).
  apply bind_ok in Ha. destruct Ha as (xyz & Bxyz & Ha).
  apply bind_ok in Ha. destruct Ha as (r3 & Sa & _).
  unfold Api.bvp_features in Hb.
  apply bind_ok in Hb. destruct Hb as (bvp & Gb & Hb).
  apply bind_ok in Hb. destruct Hb as (r4 & Sb & _).
  apply api_summary_nonempty in Se, St, Sa, Sb.
  apply map_nonempty in Sa.
  destruct (broadcast2_nonempty _ _ _ _ Bxyz Sa) as [Nxy Nz].
  destruct (broadcast2_nonempty _ _ _ _ Bxy Nxy) as [Nx Ny].
  apply map_nonempty in Nx, Ny, Nz.
  exists eda, temp, ax, ay, az, bvp.
  repeat (split; [first [apply getitem_some; assumption | assumption]|]).
  assumption.
Qed.

Lemma serving_extraction_needs_samples_witness :
  exists features eda temp ax ay az bvp,
    Api.extract_features_window Example.window = Ok features
    /\ get Example.window "EDA" = Some eda
    /\ get Example.window "TEMP" = Some temp
    /\ get Example.window "ACC_x" = Some ax
    /\ get Example.window "ACC_y" = Some ay
    /\ get Example.window "ACC_z" = Some az
    /\ get Example.window "BVP" = Some bvp
    /\ eda <> [] /\ temp <> [] /\ ax <> [] /\ ay <> [] /\ az <> []
    /\ bvp <> [].
Proof.
  destruct example_serving_run as [features Hr].
  destruct (serving_extraction_needs_samples Example.window features Hr)
    as (eda & temp & ax & ay & az & bvp & H).
  exists features, eda, temp, ax, ay, az, bvp. split; [exact Hr | exact H].
Defined.

(** ** The table of [main] *)

Lemma fold_columns_spec (rows : list row) (cols : list string) (k : string) :
  In k (fold_left
          (fun cols r =>
             cols ++ filter (fun k => negb (existsb (String.eqb k) cols)) (keys r))
          rows cols)
  <-> In k cols \/ exists r, In r rows /\ In k (keys r).
Proof.
  revert cols. induction rows as [|r rows IH]; intros cols; cbn [fold_left].
  - split; [tauto|]. intros [H|(r & [] & _)]. exact H.
  - rewrite IH. rewrite in_app_iff, filter_In. split.
    + intros [[H|[H _]]|(r' & Hr' & H)].
      * left. exact H.
      * right. exists r. split; [left; reflexivity | exact H].
      * right. exists r'. split; [right; exact Hr' | exact H].
    + intros [H|(r' & [<-|Hr'] & H)].
      * left. left. exact H.
      * destruct (existsb (String.eqb k) cols) eqn:E.
        -- left. left. apply existsb_exists in E. destruct E as (k' & Hk' & E).
           apply String.eqb_eq in E. subst k'. exact Hk'.
        -- left. right. split; [exact H | reflexivity].
      * right. exists r'. split; assumption.
Qed.

Lemma dataframe_columns_spec (rows : list row) (k : string) :
  In k (Train.dataframe_columns rows) <-> exists r, In r rows /\ In k (keys r).
Proof.
  unfold Train.dataframe_columns. rewrite fold_columns_spec. cbn [In]. tauto.
Qed.

Lemma combine_seq_nth {A : Type} (l : list A) (s i : nat) (x : A) :
  In (i, x) (combine (seq s (length l)) l) ->
  (s <= i)%nat /\ nth_error l (i - s) = Some x.
Proof.
  revert s. induction l as [|y l IH]; intros s; cbn [length seq combine In].
  - tauto.
  - intros [[= <- <-]|H].
    + split; [lia|]. rewrite Nat.sub_diag. reflexivity.
    + apply IH in H. destruct H as [Hle H]. split; [lia|].
      replace (i - s)%nat with (S (i - S s)) by lia. exact H.
Qed.

Lemma kept_positions_sorted {A : Type} (keep : nat * A -> bool) (l : list A)
      (s : nat) :
  StronglySorted Nat.lt
    (map fst (filter keep (combine (seq s (length l)) l))).
Proof.
  revert s. induction l as [|y l IH]; intros s; cbn [length seq combine filter].
  - constructor.
  - destruct (keep (s, y)); [|apply IH].
    cbn [map fst]. constructor; [apply IH|].
    apply Forall_forall. intros i Hi. apply in_map_iff in Hi.
    destruct Hi as ([i' x] & <- & Hi). apply filter_In in Hi.
    destruct Hi as [Hi _]. apply combine_seq_nth in Hi. cbn [fst].
    unfold Nat.lt. lia.
Qed.

Lemma Forall2_map_same {A B C : Type} (f : A -> B) (g : A -> C)
      (Q : B -> C -> Prop) (l : list A) :
  Forall (fun x => Q (f x) (g x)) l -> Forall2 Q (map f l) (map g l).
Proof. induction 1; cbn; constructor; assumption. Qed.

Lemma get_map_self {V : Type} (f : string -> V) (l : list string) (c : string) :
  In c l -> get (map (fun c => (c, f c)) l) c = Some (f c).
Proof.
  induction l as [|c' l IH]; cbn [In map get]; [tauto|].
  destruct (String.eqb_spec c c') as [->|Hne]; [reflexivity|].
  intros [H|H]; [congruence | apply IH; exact H].
Qed.

Lemma notna_cell (columns : list string) (r : row) (c : string) :
  Train.notna columns r = true -> In c columns ->
  get r c = Some (Train.cell r c) /\ isnan (Train.cell r c) = false.
Proof.
  unfold Train.notna, Train.cell. intros H Hc.
  rewrite forallb_forall in H. specialize (H c Hc).
  destruct (get r c) as [v|]; [|discriminate].
  split; [reflexivity|]. destruct (isnan v); [discriminate | reflexivity].
Qed.

(** The table that [main] trains on: its rows are rows of [all_rows] in
    their order, each with the columns of the frame and with its position
    in [all_rows] (before [dropna]) as [index], and no cell is [nan]. *)
Theorem training_table_rows (all_rows : list row) :
  exists positions,
    StronglySorted Nat.lt positions
    /\ Forall2
         (fun t i =>
            exists r,
              nth_error all_rows i = Some r
              /\ get t "index" = Some (of_nat i)
              /\ keys t = Train.main_columns all_rows
              /\ Forall (fun kv => isnan (snd kv) = false) t
              /\ forall c, In c (Train.dataframe_columns all_rows) ->
                           c <> "index"%string -> get t c = get r c)
         (Train.main_table all_rows) positions.
Proof.
  unfold Train.main_table. cbv zeta.
  set (columns := Train.dataframe_columns all_rows).
  set (kept := filter (fun ir : nat * row => Train.notna columns (snd ir))
                      (combine (seq 0 (length all_rows)) all_rows)).
  exists (map fst kept). split; [apply kept_positions_sorted|].
  apply Forall2_map_same. apply Forall_forall. intros [i r] Hin.
  apply filter_In in Hin. destruct Hin as [Hin Hk]. cbn [fst snd] in *.
  apply combine_seq_nth in Hin. destruct Hin as [_ Hn].
  rewrite Nat.sub_0_r in Hn.
  exists r. split; [exact Hn|]. split; [reflexivity|]. split; [|split].
  - unfold keys, Train.main_columns. cbn [map fst]. f_equal.
    rewrite map_map. cbn [fst]. apply map_id.
  - constructor; [reflexivity|]. apply Forall_forall. intros [c v] Hc.
    apply in_map_iff in Hc. destruct Hc as (c' & [= <- <-] & Hc). cbn [snd].
    apply (notna_cell columns r c' Hk Hc).
  - intros c Hc Hne. cbn [get].
    destruct (String.eqb_spec c "index") as [|_]; [contradiction|].
    rewrite (get_map_self (Train.cell r) columns c Hc).
    symmetry. apply (notna_cell columns r c Hk Hc).
Qed.

(** A row that lacks a value, or has [nan], in a column that some row of
    the frame has, is not in the table: no row of the table carries its
    position. *)
Theorem incomplete_row_is_dropped
        (all_rows : list row) (i : nat) (r r' : row) (c : string) :
  nth_error all_rows i = Some r ->
  In r' all_rows -> contains r' c = true ->
  get r c = None \/ get r c = Some NaN ->
  Forall (fun t => get t "index" <> Some (of_nat i)) (Train.main_table all_rows).
Proof.
  intros Hi Hr' Hc Hmiss.
  assert (Hcol : In c (Train.dataframe_columns all_rows)).
  { apply dataframe_columns_spec. exists r'. split; [exact Hr'|].
    unfold contains in Hc. destruct (get r' c) as [v|] eqn:E; [|discriminate].
    apply keys_get in E. exact E. }
  assert (Hna : Train.notna (Train.dataframe_columns all_rows) r = false).
  { destruct (Train.notna _ r) eqn:E; [|reflexivity].
    destruct (notna_cell _ r c E Hcol) as [Hg Hn].
    destruct Hmiss as [Hm|Hm]; rewrite Hm in Hg; [discriminate|].
    injection Hg as Hg. rewrite <- Hg in Hn. discriminate. }
  unfold Train.main_table. cbv zeta.
  apply Forall_forall. intros t Ht. apply in_map_iff in Ht.
  destruct Ht as ([j rj] & <- & Hin). cbn [fst snd get].
  change (String.eqb "index" "index") with true. cbv iota.
  apply filter_In in Hin. destruct Hin as [Hin Hk]. cbn [snd] in Hk.
  apply combine_seq_nth in Hin. destruct Hin as [_ Hn].
  rewrite Nat.sub_0_r in Hn.
  intros [= E]. apply INR_eq in E. subst j. congruence.
Qed.

Lemma incomplete_row_is_dropped_witness :
  let complete : row := [("ACC_energy"%string, Fin 1); ("label"%string, Fin 0)] in
  let partial : row := [("label"%string, Fin 1)] in
  let all_rows := [complete; partial; complete] in
  map (fun t => get t "index") (Train.main_table all_rows)
  = [Some (of_nat 0); Some (of_nat 2)]
  /\ Forall (fun t => get t "index" <> Some (of_nat 1))
            (Train.main_table all_rows).
Proof.
  intros complete partial all_rows. split; [reflexivity|].
  apply (incomplete_row_is_dropped all_rows 1 partial complete "ACC_energy").
  - reflexivity.
  - left. reflexivity.
  - reflexivity.
  - left. reflexivity.
Defined.

(** ** Loading one subject *)

Lemma column_length (a : Train.ndarray) (j : nat) :
  length (Train.column a j) = nth 0 (Train.shape a) 0%nat.
Proof. unfold Train.column. rewrite length_map, length_seq. reflexivity. Qed.

Lemma interleave_columns (N : nat) (vals : list pyfloat) :
  length vals = (3 * N)%nat ->
  flat_map (fun p : pyfloat * pyfloat * pyfloat =>
              [fst (fst p); snd (fst p); snd p])
    (combine
       (combine (map (fun i => nth (i * 3 + 0) vals NaN) (seq 0 N))
                (map (fun i => nth (i * 3 + 1) vals NaN) (seq 0 N)))
       (map (fun i => nth (i * 3 + 2) vals NaN) (seq 0 N)))
  = vals.
Proof.
  revert vals. induction N as [|N IH]; intros vals Hl.
  - destruct vals; [reflexivity | discriminate].
  - destruct vals as [|x [|y [|z vals]]]; cbn [length] in Hl; try lia.
    cbn [seq map combine flat_map fst snd app]. rewrite <- seq_shift, !map_map.
    change (nth (0 * 3 + 0) (x :: y :: z :: vals) NaN) with x.
    change (nth (0 * 3 + 1) (x :: y :: z :: vals) NaN) with y.
    change (nth (0 * 3 + 2) (x :: y :: z :: vals) NaN) with z.
    f_equal. f_equal. f_equal.
    rewrite (map_ext (fun i => nth (S i * 3 + 0) (x :: y :: z :: vals) NaN)
                     (fun i => nth (i * 3 + 0) vals NaN))
      by (intros i; replace (S i * 3 + 0)%nat with (S (S (S (i * 3 + 0)))) by lia;
          reflexivity).
    rewrite (map_ext (fun i => nth (S i * 3 + 1) (x :: y :: z :: vals) NaN)
                     (fun i => nth (i * 3 + 1) vals NaN))
      by (intros i; replace (S i * 3 + 1)%nat with (S (S (S (i * 3 + 1)))) by lia;
          reflexivity).
    rewrite (map_ext (fun i => nth (S i * 3 + 2) (x :: y :: z :: vals) NaN)
                     (fun i => nth (i * 3 + 2) vals NaN))
      by (intros i; replace (S i * 3 + 2)%nat with (S (S (S (i * 3 + 2)))) by lia;
          reflexivity).
    apply IH. lia.
Qed.

(** An [N x 3] acceleration array is split into three axes of [N] samples
    each, and reading the three axes sample by sample gives the array
    back; the window code then finds all three keys and axes of one
    length. *)
Theorem load_splits_acc_axes
        (data : Train.subject) (devices : dict (dict Train.ndarray))
        (wrist : dict Train.ndarray) (labels : list Z)
        (acc : Train.ndarray) (N : nat) :
  Train.signal data = Some devices -> get devices "wrist" = Some wrist ->
  Train.label data = Some labels ->
  get wrist "ACC" = Some acc ->
  Train.shape acc = [N; 3]%nat -> length (Train.values acc) = (3 * N)%nat ->
  exists signals ax ay az,
    Train.load_wesad_subject data = Ok (Some (signals, labels))
    /\ get signals "ACC_x" = Some ax /\ get signals "ACC_y" = Some ay
    /\ get signals "ACC_z" = Some az
    /\ length ax = N /\ length ay = N /\ length az = N
    /\ flat_map (fun p : pyfloat * pyfloat * pyfloat =>
                   [fst (fst p); snd (fst p); snd p])
                (combine (combine ax ay) az)
       = Train.values acc.
Proof.
  intros Hs Hw Hl Ha Hshape Hlen.
  unfold Train.load_wesad_subject. rewrite Hs, Hw, Hl, Ha, Hshape.
  cbn [bind length nth Nat.eqb andb]. cbv zeta.
  eexists. exists (Train.column acc 0), (Train.column acc 1), (Train.column acc 2).
  split; [reflexivity|].
  assert (Hget : forall (s0 : dict (list pyfloat)) k,
             String.eqb k "BVP" = false ->
             get match get wrist "BVP" with
                 | Some a => set s0 "BVP" (Train.flatten a)
                 | None => s0
                 end k = get s0 k).
  { intros s0 k Hk. destruct (get wrist "BVP"); [|reflexivity].
    rewrite get_set, Hk. reflexivity. }
  rewrite !Hget by reflexivity.
  rewrite !get_set. cbn [String.eqb Ascii.eqb Bool.eqb andb].
  repeat (split; [first [reflexivity
                        | rewrite column_length, Hshape; reflexivity]|]).
  unfold Train.column. rewrite Hshape. cbn [nth].
  apply interleave_columns. exact Hlen.
Qed.

Lemma load_splits_acc_axes_witness :
  let acc := {| Train.shape := [2; 3]%nat;
                Train.values := of_reals [1; 2; 3; 4; 5; 6]%R |} in
  let data := {| Train.signal := Some [("wrist"%string, [("ACC"%string, acc)])];
                 Train.label := Some [1; 1] |} in
  exists signals ax ay az,
    Train.load_wesad_subject data = Ok (Some (signals, [1; 1]))
    /\ get signals "ACC_x" = Some ax /\ get signals "ACC_y" = Some ay
    /\ get signals "ACC_z" = Some az
    /\ length ax = 2%nat /\ length ay = 2%nat /\ length az = 2%nat
    /\ flat_map (fun p : pyfloat * pyfloat * pyfloat =>
                   [fst (fst p); snd (fst p); snd p])
                (combine (combine ax ay) az)
       = Train.values acc.
Proof.
  intros acc data.
  exact (load_splits_acc_axes data
           [("wrist"%string, [("ACC"%string, acc)])] [("ACC"%string, acc)]
           [1; 1] acc 2 eq_refl eq_refl eq_refl eq_refl eq_refl eq_refl).
Defined.

Lemma acc_prefix_others (k : string) :
  String.prefix "ACC_" k = true ->
  String.prefix "EDA_" k = false /\ String.prefix "TEMP_" k = false
  /\ String.prefix "BVP_" k = false /\ String.prefix "HR" k = false
  /\ String.eqb k "label" = false.
Proof.
  destruct k as [|c k]; [discriminate|]. cbn [String.prefix].
  match goal with
  | |- context [Ascii.ascii_dec ?a c] =>
      destruct (Ascii.ascii_dec a c) as [<-|]; [|discriminate]
  end.
  intros _. repeat split; reflexivity.
Qed.

Lemma train_acc_skipped (signals : dict (list pyfloat)) (start end_ : Z)
      (row0 : row) :
  get signals "ACC_y" = None ->
  Train.acc_features signals start end_ row0 = Train.Next row0.
Proof.
  intros H. unfold Train.acc_features. rewrite H.
  destruct (get signals "ACC_x"); reflexivity.
Qed.

(** The rows of one recording, as windows of the loop. *)
Lemma train_rows_from_windows (signals : dict (list pyfloat)) (labels : list Z)
      (sr window_samples step_samples : Z) (rows : list row) (r : row) :
  Train.extract_window_features signals labels sr window_samples step_samples
  = Ok rows ->
  In r rows ->
  exists scale start end_,
    Train.window_features signals labels scale sr start end_ = Train.Next r
    /\ contains r "label" = true.
Proof.
  intros H Hin.
  apply train_extract_inv in H. destruct H as (N & bounds & _ & _ & _ & Hloop).
  apply loop_spec in Hloop. cbn [app] in Hloop. subst rows.
  apply in_flat_map in Hin. destruct Hin as ([start end_] & _ & Hin).
  cbn [fst snd] in Hin.
  destruct (Train.window_features _ _ _ _ start end_) as [r'| |] eqn:Hw;
    [|contradiction|contradiction].
  destruct (contains r' "label") eqn:Hl; [|contradiction].
  destruct Hin as [<-|[]]. eauto 10.
Qed.

(** When the acceleration array is missing or is not [N x 3], the loader
    stores no [ACC_y], the window code skips its acceleration block, and
    no row of the recording has an entry whose name starts with [ACC_]. *)
Theorem acc_features_need_three_axes
        (data : Train.subject) (devices : dict (dict Train.ndarray))
        (wrist : dict Train.ndarray)
        (signals : dict (list pyfloat)) (labels : list Z) :
  Train.signal data = Some devices -> get devices "wrist" = Some wrist ->
  match get wrist "ACC" with
  | Some acc =>
      (length (Train.shape acc) =? 2)%nat
      && (nth 1 (Train.shape acc) 0 =? 3)%nat = false
  | None => True
  end ->
  Train.load_wesad_subject data = Ok (Some (signals, labels)) ->
  get signals "ACC_y" = None
  /\ forall sr window_samples step_samples rows,
       Train.extract_window_features signals labels sr window_samples
         step_samples = Ok rows ->
       Forall (fun r => forall k, String.prefix "ACC_" k = true ->
                                  get r k = None) rows.
Proof.
  intros Hs Hw Hacc Hload.
  assert (Hy : get signals "ACC_y" = None).
  { unfold Train.load_wesad_subject in Hload. rewrite Hs, Hw in Hload.
    destruct (Train.label data); [|discriminate]. cbn [bind] in Hload.
    cbv zeta in Hload. injection Hload as <- _.
    destruct (get wrist "ACC") as [acc|].
    - rewrite Hacc.
      destruct (get wrist "EDA"), (get wrist "TEMP"), (get wrist "BVP");
        get_through; reflexivity.
    - destruct (get wrist "EDA"), (get wrist "TEMP"), (get wrist "BVP");
        get_through; reflexivity. }
  split; [exact Hy|].
  intros sr window_samples step_samples rows Hrows.
  apply Forall_forall. intros r Hin k Hk.
  destruct (train_rows_from_windows _ _ _ _ _ _ r Hrows Hin)
    as (scale & start & end_ & Hwin & _).
  destruct (acc_prefix_others k Hk) as (Ke & Kt & Kb & Kh & Kl).
  apply train_window_inv in Hwin. destruct Hwin as (_ & row4 & _ & Hm & Hal).
  apply train_modality_inv in Hm.
  destruct Hm as (row1 & row2 & row3 & H1 & H2 & H3 & H4).
  rewrite (train_acc_skipped signals start end_ row2 Hy) in H3.
  injection H3 as <-.
  rewrite (align_label_get _ _ _ _ _ _ k Hal Kl).
  rewrite (train_bvp_preserves _ _ _ _ _ k H4 Kb Kh).
  rewrite (train_temp_preserves _ _ _ _ _ k H2 Kt).
  rewrite (train_eda_preserves _ _ _ _ _ _ k H1 Ke).
  reflexivity.
Qed.

Lemma acc_features_need_three_axes_witness :
  let acc := {| Train.shape := [6]%nat;
                Train.values := of_reals [1; 2; 3; 4; 5; 6]%R |} in
  let wrist := [("ACC"%string, acc)] in
  let data := {| Train.signal := Some [("wrist"%string, wrist)];
                 Train.label := Some [1; 1] |} in
  let signals := [("ACC_x"%string, of_reals [1; 2; 3; 4; 5; 6]%R)] in
  Train.load_wesad_subject data = Ok (Some (signals, [1; 1]))
  /\ get signals "ACC_y" = None
  /\ forall sr window_samples step_samples rows,
       Train.extract_window_features signals [1; 1] sr window_samples
         step_samples = Ok rows ->
       Forall (fun r => forall k, String.prefix "ACC_" k = true ->
                                  get r k = None) rows.
Proof.
  intros acc wrist data signals. split; [reflexivity|].
  exact (acc_features_need_three_axes data [("wrist"%string, wrist)] wrist
           signals [1; 1] eq_refl eq_refl eq_refl eq_refl).
Defined.

(** ** The rows gathered by [main] *)

Lemma train_row_labelled (signals : dict (list pyfloat)) (labels : list Z)
      (scale : Float64.float64) (sr start end_ : Z) (r : row) :
  Train.window_features signals labels scale sr start end_ = Train.Next r ->
  contains r "label" = true ->
  (get r "label" = Some (Fin 0) \/ get r "label" = Some (Fin 1))
  /\ get r "index" = None.
Proof.
  intros Hwin Hl.
  apply train_window_inv in Hwin. destruct Hwin as (_ & row4 & _ & Hm & Hal).
  split.
  - pose proof (train_modality_no_label _ _ _ _ _ Hm) as Hnone.
    rewrite align_label_eq in Hal. injection Hal as <-.
    destruct (Train.label_slice _ _ _ _) as [|v rest].
    + unfold contains in Hl. rewrite Hnone in Hl. discriminate.
    + cbv zeta in *.
      set (m := Pandas.mode_from v (v :: rest) rest) in *.
      cbn [existsb Train.ALLOWED_LABELS] in *. clearbody m.
      destruct ((m =? 0) || ((m =? 1) || false)) eqn:E.
      * rewrite get_set, String.eqb_refl.
        destruct (Z.eqb_spec m 0) as [Hm0|_];
          [left; rewrite Hm0; reflexivity|].
        destruct (Z.eqb_spec m 1) as [Hm1|_];
          [right; rewrite Hm1; reflexivity|].
        discriminate.
      * unfold contains in Hl. rewrite Hnone in Hl. discriminate.
  - rewrite (align_label_get _ _ _ _ _ _ "index" Hal eq_refl).
    apply train_modality_inv in Hm.
    destruct Hm as (row1 & row2 & row3 & H1 & H2 & H3 & H4).
    rewrite (train_bvp_preserves _ _ _ _ _ "index" H4 eq_refl eq_refl).
    rewrite (train_acc_preserves _ _ _ _ _ "index" H3 eq_refl).
    rewrite (train_temp_preserves _ _ _ _ _ "index" H2 eq_refl).
    rewrite (train_eda_preserves _ _ _ _ _ _ "index" H1 eq_refl).
    reflexivity.
Qed.

Lemma gather_invariant (P : row -> Prop) (subjects : list Train.subject)
      (all_rows out : list row) :
  (forall signals labels rows,
      Train.extract_window_features signals labels Train.DEFAULT_WRIST_SR
        Train.WINDOW Train.STEP = Ok rows ->
      Forall P rows) ->
  Train.gather subjects all_rows = Ok out ->
  Forall P all_rows -> Forall P out.
Proof.
  intros HP. revert all_rows.
  induction subjects as [|data subjects IH]; intros all_rows H Hall.
  - injection H as <-. exact Hall.
  - cbn [Train.gather] in H.
    destruct (Train.load_wesad_subject data) as [[[signals labels]|]|e];
      [| |discriminate].
    + destruct (Train.extract_window_features _ _ _ _ _) as [feats|e] eqn:Hf;
        [|discriminate].
      apply (IH _ H). apply Forall_app. split; [exact Hall|].
      exact (HP _ _ _ Hf).
    + exact (IH _ H Hall).
Qed.

(** Every row that [main] gathers carries a label equal to 0 or 1 and no
    entry called [index]: the label column of the table is binary, and the
    [index] column of the table is the one that [reset_index] adds. *)
Theorem gathered_rows_are_labelled
        (subjects : list Train.subject) (all_rows : list row) :
  Train.gather subjects [] = Ok all_rows ->
  Forall (fun r => (get r "label" = Some (Fin 0) \/ get r "label" = Some (Fin 1))
                   /\ get r "index" = None) all_rows.
Proof.
  intros H. apply (gather_invariant _ subjects [] all_rows); [|exact H|constructor].
  intros signals labels rows Hrows. apply Forall_forall. intros r Hin.
  destruct (train_rows_from_windows _ _ _ _ _ _ r Hrows Hin)
    as (scale & start & end_ & Hwin & Hl).
  exact (train_row_labelled _ _ _ _ _ _ r Hwin Hl).
Qed.

Lemma example_gather :
  exists r, Train.gather [Example.eda_only] [] = Ok [r].
Proof.
  cbn [Train.gather].
  change (Train.load_wesad_subject Example.eda_only)
    with (Ok (Some ([("EDA"%string, of_reals Example.spike)], [1]))).
  cbv iota beta.
  unfold Train.extract_window_features.
  change (Train.min_length [("EDA"%string, of_reals Example.spike)])
    with (Ok 192).
  cbn [bind]. change (192 =? 0) with false. cbv iota zeta.
  change (Train.window_bounds 192 Train.WINDOW Train.STEP) with (Ok [(0, 192)]).
  cbn [bind Train.loop].
  set (signals := [("EDA"%string, of_reals Example.spike)]).
  destruct (train_eda_next signals Train.DEFAULT_WRIST_SR 0 192 []
              (of_reals Example.spike) eq_refl) as [row1 H1].
  { change (slice (of_reals Example.spike) 0 192)
      with (map Fin Example.spike).
    apply (valid_reals Example.spike 1%R 0%R).
    - left. reflexivity.
    - right. left. reflexivity.
    - lra. }
  { unfold Train.DEFAULT_WRIST_SR. lia. }
  unfold Train.window_features, Train.modality_features.
  rewrite H1. cbn [Train.flow_bind].
  change (Train.temp_features signals 0 192 row1) with (Train.Next row1).
  cbn [Train.flow_bind].
  change (Train.acc_features signals 0 192 row1) with (Train.Next row1).
  cbn [Train.flow_bind].
  change (Train.bvp_features signals 0 192 row1) with (Train.Next row1).
  cbn [Train.flow_bind].
  rewrite align_label_eq.
  match goal with
  | |- context [Train.label_slice ?l ?s ?a ?b] =>
      change (Train.label_slice l s a b) with [1]
  end.
  cbv iota zeta.
  match goal with
  | |- context [existsb ?f Train.ALLOWED_LABELS] =>
      change (existsb f Train.ALLOWED_LABELS) with true
  end.
  cbv iota. unfold contains. rewrite get_set, String.eqb_refl.
  eexists. reflexivity.
Qed.

Lemma gathered_rows_are_labelled_witness :
  exists r,
    Train.gather [Example.eda_only] [] = Ok [r]
    /\ Forall (fun r => (get r "label" = Some (Fin 0)
                         \/ get r "label" = Some (Fin 1))
                        /\ get r "index" = None) [r].
Proof.
  destruct example_gather as [r H]. exists r. split; [exact H|].
  exact (gathered_rows_are_labelled [Example.eda_only] [r] H).
Defined.

(** ** Frames without missing cells *)

Lemma map_fst_combine_seq {A : Type} (l : list A) (s : nat) :
  map fst (combine (seq s (length l)) l) = seq s (length l).
Proof.
  revert s. induction l as [|x l IH]; intros s; [reflexivity|].
  cbn [length seq combine map fst]. f_equal. apply IH.
Qed.

Lemma filter_all {A : Type} (f : A -> bool) (l : list A) :
  (forall x, In x l -> f x = true) -> filter f l = l.
Proof.
  induction l as [|x l IH]; intros H; [reflexivity|]. cbn [filter].
  rewrite (H x (or_introl eq_refl)). f_equal. apply IH.
  intros y Hy. apply H. right. exact Hy.
Qed.

(** [dropna] keeps every row of a frame whose rows all have the same keys
    and no [nan]: the table has as many rows as were gathered and its
    [index] column counts them from 0 without gaps. *)
Theorem dropna_keeps_complete_rows (rows : list row) (ks : list string) :
  Forall (fun r => keys r = ks) rows ->
  Forall (fun r => Forall (fun kv => isnan (snd kv) = false) r) rows ->
  map (fun t => get t "index") (Train.main_table rows)
  = map (fun i => Some (of_nat i)) (seq 0 (length rows)).
Proof.
  intros Hk Hn. destruct rows as [|r0 rows0] eqn:Erows; [reflexivity|].
  rewrite <- Erows in *. assert (Hne : rows <> []) by (subst rows; discriminate).
  clear Erows. unfold Train.main_table. cbv zeta.
  rewrite (dataframe_columns_uniform rows ks Hne Hk).
  rewrite filter_all.
  - rewrite map_map. cbn [get fst snd].
    change (String.eqb "index" "index") with true. cbv iota.
    rewrite <- (map_fst_combine_seq rows 0) at 2. rewrite map_map. reflexivity.
  - intros [i r] Hin. cbn [snd]. apply in_combine_r in Hin.
    rewrite Forall_forall in Hk, Hn. specialize (Hk r Hin). specialize (Hn r Hin).
    unfold Train.notna. apply forallb_forall. intros c Hc.
    rewrite <- Hk in Hc. destruct (get_keys r c Hc) as [v Hv]. rewrite Hv.
    apply get_in in Hv. rewrite Forall_forall in Hn. specialize (Hn _ Hv).
    cbn [snd] in Hn. rewrite Hn. reflexivity.
Qed.

Lemma dropna_keeps_complete_rows_witness :
  let rows : list row :=
    [ [("EDA_mean"%string, Fin 1); ("label"%string, Fin 0)];
      [("EDA_mean"%string, Fin 2); ("label"%string, Fin 1)];
      [("EDA_mean"%string, Fin 3); ("label"%string, Fin 0)] ] in
  map (fun t => get t "index") (Train.main_table rows)
  = map (fun i => Some (of_nat i)) (seq 0 (length rows)).
Proof.
  intros rows.
  apply (dropna_keeps_complete_rows rows ["EDA_mean"; "label"]%string).
  - repeat constructor.
  - repeat constructor.
Defined.

(** ** A pulse slice that starts past the end of the recording *)

Lemma slice_past_end {A : Type} (a : list A) (i j : Z) :
  Z.of_nat (length a) <= i -> slice a i j = [].
Proof.
  intros Hi. unfold slice, clamp_index. cbv zeta.
  destruct (Z.ltb_spec i 0); [lia|].
  replace (Z.to_nat _) with 0%nat; [reflexivity|].
  destruct (Z.ltb_spec j 0); lia.
Qed.

(** The loop doubles the window bounds for the pulse channel.  When the
    doubled start lies at or past the end of that channel the slice is
    empty; an empty slice passes the validity gate (the standard deviation
    of nothing is [nan], which is not 0), so the row is built with [nan]
    pulse statistics and zero HRV entries, and [dropna] removes it from
    any table it is put in. *)
Theorem pulse_slice_past_recording
        (signals : dict (list pyfloat)) (labels : list Z) (scale : Float64.float64)
        (sr start end_ : Z) (cb : list pyfloat) (r : row) :
  get signals "BVP" = Some cb ->
  Z.of_nat (length cb) <= start * 2 ->
  Train.window_features signals labels scale sr start end_ = Train.Next r ->
  get r "BVP_mean" = Some NaN
  /\ Forall (fun k => get r k = Some (Fin 0)) Train.HRV_NAMES
  /\ forall all_rows,
       In r all_rows ->
       Train.notna (Train.dataframe_columns all_rows) r = false.
Proof.
  intros Hb Hlen Hwin.
  apply train_window_inv in Hwin.
  destruct Hwin as (row3 & row4 & H4 & _ & Hal).
  destruct (train_bvp_inv _ _ _ _ _ _ Hb H4) as (_ & peaks & Hp & ->).
  rewrite (slice_past_end cb (start * 2) (end_ * 2) Hlen) in *.
  change (finite_part []) with (@nil R) in *.
  change (Scipy.find_peaks [] 19) with (@Ok (list nat) []) in Hp.
  injection Hp as <-.
  assert (Hmean : get r "BVP_mean" = Some NaN).
  { rewrite (align_label_get _ _ _ _ _ _ "BVP_mean" Hal eq_refl).
    rewrite train_hrv_few_peaks by (cbn; lia).
    get_through. reflexivity. }
  split; [exact Hmean|]. split.
  - rewrite train_hrv_few_peaks in Hal by (cbn; lia).
    repeat constructor;
      (erewrite align_label_get by (exact Hal || reflexivity));
      get_through; reflexivity.
  - intros all_rows Hin.
    destruct (Train.notna _ r) eqn:E; [|reflexivity].
    assert (Hc : In "BVP_mean"%string (Train.dataframe_columns all_rows)).
    { apply dataframe_columns_spec. exists r. split; [exact Hin|].
      apply keys_get in Hmean. exact Hmean. }
    destruct (notna_cell _ r "BVP_mean" E Hc) as [Hg Hn].
    rewrite Hmean in Hg. injection Hg as Hg. rewrite <- Hg in Hn. discriminate.
Qed.

Lemma example_late_window :
  exists r,
    Train.window_features [("BVP"%string, of_reals Example.ramp4)]
      Example.chest_labels (Float64.true_divide 4 4) 32 2 4
    = Train.Next r.
Proof.
  unfold Train.window_features, Train.modality_features.
  change (Train.eda_features _ 32 2 4 []) with (@Train.Next row []).
  cbn [Train.flow_bind].
  change (Train.temp_features _ 2 4 []) with (@Train.Next row []).
  cbn [Train.flow_bind].
  change (Train.acc_features _ 2 4 []) with (@Train.Next row []).
  cbn [Train.flow_bind].
  destruct (train_bvp_next [("BVP"%string, of_reals Example.ramp4)] 2 4 []
              (of_reals Example.ramp4) eq_refl) as [row4 ->].
  { reflexivity. }
  cbn [Train.flow_bind]. rewrite align_label_eq. eauto.
Qed.

Lemma pulse_slice_past_recording_witness :
  exists r,
    Train.window_features [("BVP"%string, of_reals Example.ramp4)]
      Example.chest_labels (Float64.true_divide 4 4) 32 2 4
    = Train.Next r
    /\ get r "BVP_mean" = Some NaN
    /\ Forall (fun k => get r k = Some (Fin 0)) Train.HRV_NAMES
    /\ forall all_rows,
         In r all_rows ->
         Train.notna (Train.dataframe_columns all_rows) r = false.
Proof.
  destruct example_late_window as [r Hr]. exists r. split; [exact Hr|].
  exact (pulse_slice_past_recording
           [("BVP"%string, of_reals Example.ramp4)] Example.chest_labels
           (Float64.true_divide 4 4) 32 2 4 (of_reals Example.ramp4) r
           eq_refl ltac:(cbn; lia) Hr).
Defined.
